(** * bkend-serve: the APK compiler service (server.js)

    A shallow embedding of [server.js] and the properties of its request
    handler, workspace materializer and build invoker.

    Layout of the development:
    - [JsString]: the string operations the code uses ([String.prototype.match]
      with the package pattern, [replace(/\./g, '/')], [startsWith]);
    - [Path]: Node's [path.posix.join], [path.posix.normalize] and
      [path.posix.basename];
    - [Base64] and [Templates]: the contents of the generated files;
    - the world the server runs in (file system, event trace, timers) and
      the environment that answers what the code cannot decide itself
      (file-system faults, HTTP responses, the outcome of the Gradle child
      process);
    - the functions of [server.js] and the POST /compile-apk handler, as
      computations over the world that end with a value, with a thrown
      error, or with an exception that no handler of the request sees;
    - the package pattern and the materialized workspace as the
      specification words them;
    - the properties.

    What the model takes from its surroundings:
    - strings are byte strings ([string] of the Standard Library). The three
      characters the code inspects (the double quote, the dot and the slash)
      are single bytes that occur in no multi-byte UTF-8 sequence, so the
      byte-level reading of the pattern match and of the replacement agrees
      with JavaScript's reading over UTF-16 code units;
    - paths are POSIX paths (the service runs in the Ubuntu image of the
      Dockerfile);
    - the fields of the request body are strings or absent, as the
      interface declares them;
    - the promises and callbacks of one request are run in the order in
      which the handler awaits them; [client.get] throws when it is given
      an address it does not take, and otherwise the request ends in a
      response or an [error] event; the child process is spawned and emits
      [close];
    - [res.download] sends the file that is at the path with status 200,
      under the base name of the name it is given, or hands an error to
      its callback when the transfer does not complete. *)

From stdpp Require Import gmap strings list fin_maps pretty.
From Equations Require Import Equations.
From Stdlib Require Import Ascii.

(** ** Strings *)

Module JsString.

(** The double quote, as a character and as a one-character string. *)
Definition dquote : ascii := "034"%char.
Definition dq : string := String dquote "".

Definition is_dquote (a : ascii) : bool := Ascii.eqb a dquote.
Definition is_dot (a : ascii) : bool := Ascii.eqb a "."%char.
Definition is_slash (a : ascii) : bool := Ascii.eqb a "/"%char.

Definition is_empty (s : string) : bool :=
  match s with "" => true | String _ _ => false end.

(** [s.startsWith(p)], returning what follows the prefix. *)
Fixpoint strip_prefix (p s : string) : option string :=
  match p, s with
  | "", _ => Some s
  | String a p', String b s' =>
      if Ascii.eqb a b then strip_prefix p' s' else None
  | String _ _, "" => None
  end.

Definition startsWith (s p : string) : bool :=
  match strip_prefix p s with Some _ => true | None => false end.

Fixpoint endsWith_char (s : string) (c : ascii) : bool :=
  match s with
  | "" => false
  | String a "" => Ascii.eqb a c
  | String _ s' => endsWith_char s' c
  end.

(** The characters of a string, as a predicate over all of them. *)
Fixpoint all_chars (f : ascii → bool) (s : string) : bool :=
  match s with
  | "" => true
  | String a s' => f a && all_chars f s'
  end.

(** The character class with its [+], greedy: the longest run of
    characters other than the double quote, and what follows it. *)
Fixpoint span_not_dquote (s : string) : string * string :=
  match s with
  | "" => ("", "")
  | String a s' =>
      if is_dquote a then ("", s)
      else let '(run, rest) := span_not_dquote s' in (String a run, rest)
  end.

(** The package pattern of [createAndroidProject] (the word package, an
    equals sign, a double quote, one or more characters other than the
    double quote as capture group 1, a double quote) anchored at the
    start of [s]; the result is capture group 1. The run taken by the
    group is maximal, and giving characters back cannot help: the
    character after a shorter run is not a double quote. *)
Definition package_re_at (s : string) : option string :=
  match strip_prefix ("package=" +:+ dq) s with
  | None => None
  | Some s1 =>
      match span_not_dquote s1 with
      | ("", _) => None
      | (cap, String a _) => if is_dquote a then Some cap else None
      | (_, "") => None
      end
  end.

(** [s.match] with the package pattern: the leftmost position at which
    the pattern matches; [None] is JavaScript's [null]. *)
Fixpoint package_re_match (s : string) : option string :=
  match package_re_at s with
  | Some cap => Some cap
  | None =>
      match s with
      | "" => None
      | String _ s' => package_re_match s'
      end
  end.

(** [s.replace(/\./g, '/')]. *)
Fixpoint replace_dots (s : string) : string :=
  match s with
  | "" => ""
  | String a s' => String (if is_dot a then "/"%char else a) (replace_dots s')
  end.

(** [s.includes(t)]. *)
Fixpoint includes (s t : string) : bool :=
  startsWith s t ||
  match s with
  | "" => false
  | String _ s' => includes s' t
  end.

End JsString.

(** ** Paths: [path.posix] *)

Module Path.
Import JsString.

(** The segments of a path: the pieces between slashes, empty ones
    included. *)
Fixpoint split (s : string) : list string :=
  match s with
  | "" => [""]
  | String a s' =>
      if is_slash a then "" :: split s'
      else match split s' with
           | seg :: rest => String a seg :: rest
           | [] => [String a ""]
           end
  end.

Definition is_dotdot (seg : string) : bool := String.eqb seg "..".
Definition is_skipped (seg : string) : bool :=
  is_empty seg || String.eqb seg ".".

(** One segment of [normalizeString]: the stack holds the segments kept so
    far, the last one first. *)
Definition normalize_step (allowAboveRoot : bool)
    (stack : list string) (seg : string) : list string :=
  if is_skipped seg then stack
  else if is_dotdot seg then
    match stack with
    | top :: below =>
        if is_dotdot top
        then (if allowAboveRoot then seg :: stack else stack)
        else below
    | [] => if allowAboveRoot then [seg] else []
    end
  else seg :: stack.

Definition normalize_segments (allowAboveRoot : bool)
    (segs : list string) : list string :=
  rev (fold_left (normalize_step allowAboveRoot) segs []).

Definition normalizeString (path : string) (allowAboveRoot : bool) : string :=
  String.concat "/" (normalize_segments allowAboveRoot (split path)).

Definition isAbsolute (path : string) : bool := startsWith path "/".

(** [path.posix.normalize]. *)
Definition normalize (path : string) : string :=
  if is_empty path then "."
  else
    let absolute := isAbsolute path in
    let trailingSeparator := endsWith_char path "/" in
    let p := normalizeString path (negb absolute) in
    if is_empty p then
      (if absolute then "/" else if trailingSeparator then "./" else ".")
    else
      let p := if trailingSeparator then p +:+ "/" else p in
      if absolute then "/" +:+ p else p.

(** [path.posix.join]: the non-empty arguments, separated by slashes,
    normalized. *)
Definition join (args : list string) : string :=
  match filter (λ a, is_empty a = false) args with
  | [] => "."
  | parts => normalize (String.concat "/" parts)
  end.

(** [p.startsWith(dir + path.sep)]: [p] names something inside [dir]. *)
Definition under (dir p : string) : bool := startsWith p (dir +:+ "/").

(** A kept segment: not empty, not [.] and not [..]. *)
Definition plain_segment (seg : string) : bool :=
  negb (is_skipped seg) && negb (is_dotdot seg).

(** An absolute path in normal form, other than the root: a slash, then
    plain segments separated by single slashes. This is the form of
    [__dirname] and of everything [join] builds from it. *)
Definition normal_abs (dir : string) : bool :=
  match split dir with
  | "" :: seg :: segs => forallb plain_segment (seg :: segs)
  | _ => false
  end.

(** A relative path made of plain segments only, such as the fixed
    locations the code writes to. *)
Definition plain_rel (rel : string) : bool :=
  negb (is_empty rel) && negb (endsWith_char rel "/")
  && forallb plain_segment (split rel).

(** A single plain segment: a name with no slash in it that is neither [.]
    nor [..]. Every identifier [uuidv4] draws is one. *)
Definition plain_name (name : string) : bool :=
  plain_segment name && all_chars (λ a, negb (is_slash a)) name.

(** The shape of what [uuidv4] returns: 36 characters, each a lower-case
    hexadecimal digit or a hyphen. *)
Definition is_uuid_char (a : ascii) : bool :=
  let n := nat_of_ascii a in
  (48 <=? n) && (n <=? 57) || (97 <=? n) && (n <=? 102) || (n =? 45).

Definition uuid_shaped (id : string) : bool :=
  (String.length id =? 36) && all_chars is_uuid_char id.

(** The segments of a path that normalization keeps when none is [..]. *)
Definition package_segments (packagePath : string) : list string :=
  filter (λ seg, is_skipped seg = false) (split packagePath).

(** [path.posix.basename]: what lies between the last slash that is
    followed by something and the end, trailing slashes left out; the empty
    string for a path of slashes only. *)
Definition basename (path : string) : string :=
  List.last (filter (λ seg, is_empty seg = false) (split path)) "".

End Path.


(** ** Buffers: [Buffer.from(text, 'base64')] *)

Module Base64.

(** The value of a base64 digit; [None] for any other character. *)
Definition digit (a : ascii) : option N :=
  let n := N_of_ascii a in
  if (65 <=? n)%N && (n <=? 90)%N then Some (n - 65)%N
  else if (97 <=? n)%N && (n <=? 122)%N then Some (n - 71)%N
  else if (48 <=? n)%N && (n <=? 57)%N then Some (n + 4)%N
  else if (n =? 43)%N then Some 62%N
  else if (n =? 47)%N then Some 63%N
  else None.

(** The digits up to the first padding character; characters that are no
    digits are skipped, as Node's decoder does. *)
Fixpoint sextets (s : string) : list N :=
  match s with
  | "" => []
  | String a s' =>
      if Ascii.eqb a "="%char then []
      else match digit a with
           | Some v => v :: sextets s'
           | None => sextets s'
           end
  end.

(** Four digits give three bytes; three give two, two give one. *)
Fixpoint octets (l : list N) : list N :=
  match l with
  | a :: b :: c :: d :: rest =>
      (a * 4 + b / 16)%N :: ((b mod 16) * 16 + c / 4)%N
        :: ((c mod 4) * 64 + d)%N :: octets rest
  | [a; b; c] => [(a * 4 + b / 16)%N; ((b mod 16) * 16 + c / 4)%N]
  | [a; b] => [(a * 4 + b / 16)%N]
  | _ => []
  end.

Definition decode (s : string) : string :=
  foldr (λ n acc, String (ascii_of_N n) acc) "" (octets (sextets s)).

End Base64.

(** ** The files [server.js] generates *)

Module Templates.
Import JsString.

(** [strings.xml]: the application-name resource. *)
Definition stringsXml (appName : string) : string :=
  "<?xml version=" +:+ dq +:+ "1.0" +:+ dq +:+ " encoding=" +:+ dq +:+ "utf-8" +:+ dq +:+ "?>
<resources>
    <string name=" +:+ dq +:+ "app_name" +:+ dq +:+ ">" +:+ appName +:+ "</string>
</resources>".

(** The project-level [build.gradle]. *)
Definition projectBuildGradle : string :=
  "buildscript {
    repositories {
        google()
        mavenCentral()
    }
    dependencies {
        classpath 'com.android.tools.build:gradle:8.1.0'
    }
}

allprojects {
    repositories {
        google()
        mavenCentral()
    }
}

task clean(type: Delete) {
    delete rootProject.buildDir
}".

(** [app/build.gradle]: the module build file, with the package name as namespace and application id. *)
Definition appBuildGradle (packageName : string) : string :=
  "plugins {
    id 'com.android.application'
}

android {
    namespace '" +:+ packageName +:+ "'
    compileSdk 34

    defaultConfig {
        applicationId " +:+ dq +:+ packageName +:+ dq +:+ "
        minSdk 21
        targetSdk 34
        versionCode 1
        versionName " +:+ dq +:+ "1.0" +:+ dq +:+ "
    }

    buildTypes {
        release {
            minifyEnabled false
            proguardFiles getDefaultProguardFile('proguard-android-optimize.txt'), 'proguard-rules.pro'
        }
    }
    compileOptions {
        sourceCompatibility JavaVersion.VERSION_1_8
        targetCompatibility JavaVersion.VERSION_1_8
    }
}

dependencies {
    implementation 'androidx.appcompat:appcompat:1.6.1'
    implementation 'com.google.android.material:material:1.9.0'
    implementation 'androidx.constraintlayout:constraintlayout:2.1.4'
}".

(** [gradle.properties], with reduced memory usage. *)
Definition gradleProperties : string :=
  "org.gradle.jvmargs=-Xmx1024m -XX:MaxMetaspaceSize=512m -Dfile.encoding=UTF-8
org.gradle.daemon=false
org.gradle.parallel=false
org.gradle.configureondemand=false
android.useAndroidX=true
android.enableJetifier=true
android.builder.sdkDownload=false".

(** [settings.gradle]: the root project is named after the application. *)
Definition settingsGradle (appName : string) : string :=
  "pluginManagement {
    repositories {
        google()
        mavenCentral()
        gradlePluginPortal()
    }
}
dependencyResolutionManagement {
    repositoriesMode.set(RepositoriesMode.FAIL_ON_PROJECT_REPOS)
    repositories {
        google()
        mavenCentral()
    }
}
rootProject.name = " +:+ dq +:+ appName +:+ dq +:+ "
include ':app'".

(** The [gradlew] launcher script. *)
Definition gradlewScript : string :=
  "#!/usr/bin/env sh

##############################################################################
##
##  Gradle start up script for UN*X
##
##############################################################################

# Resolve links: $0 may be a link
PRG=" +:+ dq +:+ "$0" +:+ dq +:+ "
# Need this for relative symlinks.
while [ -h " +:+ dq +:+ "$PRG" +:+ dq +:+ " ] ; do
    ls=`ls -ld " +:+ dq +:+ "$PRG" +:+ dq +:+ "`
    link=`expr " +:+ dq +:+ "$ls" +:+ dq +:+ " : '.*-> \(.*\)$'`
    if expr " +:+ dq +:+ "$link" +:+ dq +:+ " : '/.*' > /dev/null; then
        PRG=" +:+ dq +:+ "$link" +:+ dq +:+ "
    else
        PRG=`dirname " +:+ dq +:+ "$PRG" +:+ dq +:+ "`" +:+ dq +:+ "/$link" +:+ dq +:+ "
    fi
done
SAVED=" +:+ dq +:+ "`pwd`" +:+ dq +:+ "
cd " +:+ dq +:+ "`dirname \" +:+ dq +:+ "$PRG\" +:+ dq +:+ "`/" +:+ dq +:+ " >/dev/null
APP_HOME=" +:+ dq +:+ "`pwd -P`" +:+ dq +:+ "
cd $SAVED >/dev/null

APP_NAME=" +:+ dq +:+ "Gradle" +:+ dq +:+ "
APP_BASE_NAME=`basename " +:+ dq +:+ "$0" +:+ dq +:+ "`

# Use the maximum available, or set MAX_FD != -1 to use that value.
MAX_FD=" +:+ dq +:+ "maximum" +:+ dq +:+ "

warn () {
    echo " +:+ dq +:+ "$*" +:+ dq +:+ "
}

die () {
    echo
    echo " +:+ dq +:+ "$*" +:+ dq +:+ "
    echo
    exit 1
}

# OS specific support (must be 'true' or 'false').
cygwin=false
msys=false
darwin=false
nonstop=false
case " +:+ dq +:+ "`uname`" +:+ dq +:+ " in
  CYGWIN* )
    cygwin=true
    ;;
  Darwin* )
    darwin=true
    ;;
  MINGW* )
    msys=true
    ;;
  NONSTOP* )
    nonstop=true
    ;;
esac

CLASSPATH=$APP_HOME/gradle/wrapper/gradle-wrapper.jar

# Determine the Java command to use to start the JVM.
if [ -n " +:+ dq +:+ "$JAVA_HOME" +:+ dq +:+ " ] ; then
    if [ -x " +:+ dq +:+ "$JAVA_HOME/jre/sh/java" +:+ dq +:+ " ] ; then
        # IBM's JDK on AIX uses strange locations for the executables
        JAVACMD=" +:+ dq +:+ "$JAVA_HOME/jre/sh/java" +:+ dq +:+ "
    else
        JAVACMD=" +:+ dq +:+ "$JAVA_HOME/bin/java" +:+ dq +:+ "
    fi
    if [ ! -x " +:+ dq +:+ "$JAVACMD" +:+ dq +:+ " ] ; then
        die " +:+ dq +:+ "ERROR: JAVA_HOME is set to an invalid directory: $JAVA_HOME" +:+ dq +:+ "
    fi
else
    JAVACMD=" +:+ dq +:+ "java" +:+ dq +:+ "
    which java >/dev/null 2>&1 || die " +:+ dq +:+ "ERROR: JAVA_HOME is not set and no 'java' command could be found in your PATH." +:+ dq +:+ "
fi

# Increase the maximum file descriptors if we can.
if [ " +:+ dq +:+ "$cygwin" +:+ dq +:+ " = " +:+ dq +:+ "false" +:+ dq +:+ " -a " +:+ dq +:+ "$darwin" +:+ dq +:+ " = " +:+ dq +:+ "false" +:+ dq +:+ " -a " +:+ dq +:+ "$nonstop" +:+ dq +:+ " = " +:+ dq +:+ "false" +:+ dq +:+ " ] ; then
    MAX_FD_LIMIT=`ulimit -H -n`
    if [ $? -eq 0 ] ; then
        if [ " +:+ dq +:+ "$MAX_FD" +:+ dq +:+ " = " +:+ dq +:+ "maximum" +:+ dq +:+ " -o " +:+ dq +:+ "$MAX_FD" +:+ dq +:+ " = " +:+ dq +:+ "max" +:+ dq +:+ " ] ; then
            MAX_FD=" +:+ dq +:+ "$MAX_FD_LIMIT" +:+ dq +:+ "
        fi
        ulimit -n $MAX_FD
        if [ $? -ne 0 ] ; then
            warn " +:+ dq +:+ "Could not set maximum file descriptor limit: $MAX_FD" +:+ dq +:+ "
        fi
    else
        warn " +:+ dq +:+ "Could not query maximum file descriptor limit: $MAX_FD_LIMIT" +:+ dq +:+ "
    fi
fi

exec " +:+ dq +:+ "$JAVACMD" +:+ dq +:+ " \
    -classpath " +:+ dq +:+ "$CLASSPATH" +:+ dq +:+ " \
    org.gradle.wrapper.GradleWrapperMain \
    " +:+ dq +:+ "$@" +:+ dq.

(** [gradle/wrapper/gradle-wrapper.properties]. *)
Definition wrapperProperties : string :=
  "distributionBase=GRADLE_USER_HOME
distributionPath=wrapper/dists
distributionUrl=https\://services.gradle.org/distributions/gradle-8.2-bin.zip
zipStoreBase=GRADLE_USER_HOME
zipStorePath=wrapper/dists".

(** The placeholder launcher icon, as the source gives it: base64 text. *)
Definition icon_base64 : string :=
  "iVBORw0KGgoAAAANSUhEUgAAAAEAAAABCAYAAAAfFcSJAAAADUlEQVR42mP8/5+hHgAHggJ/PchI7wAAAABJRU5ErkJggg==".

(** [Buffer.from(..., 'base64')]: the bytes of the placeholder icon. *)
Definition icon : string := Base64.decode icon_base64.

End Templates.

(** ** The world the server runs in *)

(** Calls into the file system ([fs-extra]). *)
Inductive fs_op : Type :=
| EnsureDir (p : string)
| WriteFile (p data : string)
| Chmod (p mode : string)
| Unlink (p : string)
| Remove (p : string).

(** The module a download goes through: [https] or [http]. *)
Inductive client : Type := Https | Http.

(** The output streams of the child process, and the console's. *)
Inductive channel : Type := Stdout | Stderr.

(** What the handler sends: a JSON object of string fields under a status,
    or a file download that completed ([res.download], status 200 unless
    set otherwise) with the file name offered to the caller and the bytes
    of the file. *)
Inductive response : Type :=
| Json (status : nat) (body : list (string * string))
| Download (status : nat) (filename : string) (body : string).

(** What an observer of the server sees, in order. *)
Inductive event : Type :=
| EUuid (id : string)
| EFs (op : fs_op) (err : option string)
| EExists (p : string) (found : bool)
| EGet (c : client) (url : string)
| EPipe (p : string) (err : option string)
| ESpawn (cmd : string) (args : list string) (cwd : string)
| EClose (code : option nat)
| ELog (ch : channel) (text : list string)
| ESetTimeout (ms : nat)
| ERespond (r : response).

(** The file system (files by path, and the directories that exist), the
    trace of events so far, and the timers that are pending: each is a delay
    and the directory its callback removes. *)
Record world : Type := World {
  files : gmap string string;
  dirs : gset string;
  trace : list event;
  timers : list (nat * string)
}.

Definition set_files (f : gmap string string → gmap string string) (w : world) : world :=
  World (f (files w)) (dirs w) (trace w) (timers w).
Definition set_dirs (f : gset string → gset string) (w : world) : world :=
  World (files w) (f (dirs w)) (trace w) (timers w).
Definition emit (ev : event) (w : world) : world :=
  World (files w) (dirs w) (trace w ++ [ev]) (timers w).
Definition add_timer (ms : nat) (dir : string) (w : world) : world :=
  World (files w) (dirs w) (trace w) (timers w ++ [(ms, dir)]).

(** ** The environment *)

(** What becomes of [client.get(url, callback)]: the call itself throws
    (Node takes absolute addresses of the client's own scheme only: a
    relative address is an invalid URL, an address of another scheme an
    invalid protocol), or the request is made and ends in an [error] event
    or in a response with its status code, its [Location] header and its
    body. *)
Record http_response : Type := HttpResponse {
  statusCode : nat;
  location : option string;
  payload : string
}.

Inductive get_result : Type :=
| GetThrows (message : string)
| GetError (message : string)
| GetResponse (r : http_response).

(** What becomes of [response.pipe(fileStream)]: the stream finishes, or it
    emits [error] after having written part of the file. *)
Inductive pipe_result : Type :=
| Finished
| Failed (written message : string).

(** A run of the child process: its [data] events in order, the exit code
    its [close] event carries ([None] is JavaScript's [null]: the process
    was ended by a signal), and the files it leaves behind. *)
Record child_run : Type := ChildRun {
  output : list (channel * string);
  exit_code : option nat;
  produced : list (string * string)
}.

(** Everything the code asks of its surroundings. [__dirname] is the
    directory of [server.js]; [uuidv4] is the identifier drawn for the
    request; [fs_fault] says which file-system calls throw, and with what
    message; [http_get] says what becomes of the call of [client.get] made
    after the given number of redirects; [gradle] runs the launcher in a
    working directory over the files present; [send_fault] is the error
    [res.download] hands to its callback when the transfer does not
    complete.

    Three things are assumed of Node and are not part of this record: a
    request that is made ends in a response or in an [error] event; [spawn]
    starts the child process; and the child process emits [close]. *)
Record env : Type := Env {
  __dirname : string;
  win32 : bool;
  uuidv4 : string;
  fs_fault : fs_op → option string;
  http_get : nat → client → string → get_result;
  pipe : string → string → pipe_result;
  gradle : string → string → gmap string string → child_run;
  send_fault : option string
}.

(** ** Computations: state and exceptions *)

(** A computation ends with a value or with a thrown error, of which the
    code only ever reads the message. An awaited promise that rejects is a
    thrown error as well. The third way to end is an exception thrown in a
    callback of the event loop, outside every promise and every [try]: no
    handler of the request sees it, the promise the request awaits never
    settles, and nothing more of the request happens (Node reports the
    exception and, unless told otherwise, ends the process). *)
Inductive outcome (A : Type) : Type :=
| Ok (a : A)
| Throw (message : string)
| Uncaught (message : string).
Arguments Ok {A} a.
Arguments Throw {A} message.
Arguments Uncaught {A} message.

Definition M (A : Type) : Type := world → outcome A * world.

#[global] Instance M_ret : MRet M := λ A a w, (Ok a, w).
#[global] Instance M_bind : MBind M := λ A B k m w,
  match m w with
  | (Ok a, w') => k a w'
  | (Throw msg, w') => (Throw msg, w')
  | (Uncaught msg, w') => (Uncaught msg, w')
  end.

Definition throw {A : Type} (message : string) : M A := λ w, (Throw message, w).

(** [try { body } catch (error) { handler(error.message) }]: what is
    thrown outside the promises the body awaits does not come here. *)
Definition try_catch {A : Type} (body : M A) (handler : string → M A) : M A :=
  λ w, match body w with
       | (Ok a, w') => (Ok a, w')
       | (Throw msg, w') => handler msg w'
       | (Uncaught msg, w') => (Uncaught msg, w')
       end.

Definition observe (ev : event) : M unit := λ w, (Ok tt, emit ev w).

(** [for (const x of xs) await f(x)]. *)
Fixpoint for_each {A : Type} (xs : list A) (f : A → M unit) : M unit :=
  match xs with
  | [] => mret tt
  | x :: xs' => f x ;; for_each xs' f
  end.

(** ** The file system *)

Module Fs.
Import JsString.

(** The leading parts of a list, shortest first, the empty one left out. *)
Fixpoint prefixes {A : Type} (l : list A) : list (list A) :=
  match l with
  | [] => []
  | x :: l' => [x] :: map (cons x) (prefixes l')
  end.

(** The name of a directory without empty segments: a trailing slash or a
    doubled one names the same directory. *)
Definition canonical (p : string) : string :=
  (if Path.isAbsolute p then "/" else "")
  +:+ String.concat "/" (filter (λ seg, is_empty seg = false) (Path.split p)).

(** The directories above a directory, and itself, by canonical name:
    [ensureDir] creates those that are missing. *)
Definition ancestors (p : string) : list string :=
  let lead := if Path.isAbsolute p then "/" else "" in
  map (λ segs, lead +:+ String.concat "/" segs)
      (prefixes (filter (λ seg, is_empty seg = false) (Path.split p))).

(** [p] is [dir] or lies under it. *)
Definition within (dir p : string) : bool := String.eqb p dir || Path.under dir p.

(** The effect of a call that does not throw. *)
Definition effect (op : fs_op) (w : world) : world :=
  match op with
  | EnsureDir p => set_dirs (λ d, {[canonical p]} ∪ list_to_set (ancestors p) ∪ d) w
  | WriteFile p data => set_files (insert p data) w
  | Chmod _ _ => w
  | Unlink p => set_files (delete p) w
  | Remove dir =>
      set_dirs (filter (λ p, within dir p = false))
        (set_files (filter (λ kv, within dir kv.1 = false)) w)
  end.

(** [fs.existsSync]: a file or a directory is there. *)
Definition exists_in (fs : gmap string string) (ds : gset string) (p : string) : bool :=
  bool_decide (is_Some (fs !! p)) || bool_decide (canonical p ∈ ds).

Definition exists_at (p : string) (w : world) : bool :=
  exists_in (files w) (dirs w) p.

(** The files a child process leaves behind, written over what was there. *)
Definition leave (produced : list (string * string)) (fs : gmap string string)
    : gmap string string :=
  foldl (λ f kv, <[kv.1 := kv.2]> f) fs produced.

End Fs.

(** ** The request *)

(** The parsed body of POST /compile-apk, as the interface declares it:
    each field is a string or absent ([None] is [undefined]). *)
Record request_body : Type := RequestBody {
  body_manifest : option string;
  body_mainActivity : option string;
  body_layout : option string;
  body_appName : option string
}.

(** The object [createAndroidProject] receives. *)
Record project_files : Type := ProjectFiles {
  manifest : string;
  mainActivity : string;
  layout : string;
  appName : string
}.

(** JavaScript's truthiness, on a value that is a string or [undefined]. *)
Definition truthy (v : option string) : bool :=
  match v with
  | Some s => negb (JsString.is_empty s)
  | None => false
  end.

(** A field is absent or empty. *)
Definition absent_or_empty (v : option string) : Prop := v = None ∨ v = Some "".

(** A string read from a field that may be [undefined]. The handler reads
    the three required fields only after it has found them truthy. *)
Definition string_of (v : option string) : string := default "" v.

(** A destructuring default: it applies when the field is [undefined], and
    only then. *)
Definition with_default (d : string) (v : option string) : string :=
  match v with
  | Some s => s
  | None => d
  end.

(** ** [server.js] *)

Section Server.
Import JsString Templates.

Variable e : env.

(** A call into the file system: it throws when the environment says so,
    and takes effect otherwise. Either way the call is observed. *)
Definition fs_call (op : fs_op) : M unit := λ w,
  match fs_fault e op with
  | Some msg => (Throw msg, emit (EFs op (Some msg)) w)
  | None => (Ok tt, emit (EFs op None) (Fs.effect op w))
  end.

Definition existsSync (p : string) : M bool := λ w,
  let found := Fs.exists_at p w in (Ok found, emit (EExists p found) w).

(** [console.log] and [console.error]. *)
Definition console_log (text : list string) : M unit := observe (ELog Stdout text).
Definition console_error (text : list string) : M unit := observe (ELog Stderr text).

(** [fs.remove(dir).catch(console.error)]. *)
Definition remove_logged (dir : string) : M unit :=
  try_catch (fs_call (Remove dir)) (λ msg, console_error [msg]).

Definition TEMP_DIR : string := Path.join [__dirname e; "temp"].

(** *** createAndroidProject *)

Definition fallback_package : string := "com.apkforge.app".

Definition packageName_of (manifest : string) : string :=
  match package_re_match manifest with
  | Some capture => capture
  | None => fallback_package
  end.

Definition packagePath_of (manifest : string) : string :=
  replace_dots (packageName_of manifest).

Definition project_dirs (packagePath : string) : list string :=
  [ "app/src/main/java/" +:+ packagePath;
    "app/src/main/res/layout";
    "app/src/main/res/values";
    "app/src/main/res/drawable";
    "app/src/main/res/mipmap-hdpi";
    "app/src/main/res/mipmap-mdpi";
    "app/src/main/res/mipmap-xhdpi";
    "app/src/main/res/mipmap-xxhdpi";
    "app/src/main/res/mipmap-xxxhdpi" ].

Definition iconDirs : list string :=
  ["mipmap-hdpi"; "mipmap-mdpi"; "mipmap-xhdpi"; "mipmap-xxhdpi"; "mipmap-xxxhdpi"].

(** Where the main activity goes. *)
Definition source_file (projectDir packagePath : string) : string :=
  Path.join [projectDir; "app/src/main/java/" +:+ packagePath +:+ "/MainActivity.java"].

Definition icon_file (projectDir iconDir : string) : string :=
  Path.join [projectDir; "app/src/main/res/" +:+ iconDir +:+ "/ic_launcher.png"].

Definition createAndroidProject (projectDir : string) (input : project_files) : M unit :=
  let packageName := packageName_of (manifest input) in
  let packagePath := replace_dots packageName in
  for_each (project_dirs packagePath)
    (λ dir, fs_call (EnsureDir (Path.join [projectDir; dir]))) ;;
  fs_call (WriteFile (Path.join [projectDir; "app/src/main/AndroidManifest.xml"])
             (manifest input)) ;;
  fs_call (WriteFile (source_file projectDir packagePath) (mainActivity input)) ;;
  fs_call (WriteFile (Path.join [projectDir; "app/src/main/res/layout/activity_main.xml"])
             (layout input)) ;;
  fs_call (WriteFile (Path.join [projectDir; "app/src/main/res/values/strings.xml"])
             (stringsXml (appName input))) ;;
  fs_call (WriteFile (Path.join [projectDir; "build.gradle"]) projectBuildGradle) ;;
  fs_call (WriteFile (Path.join [projectDir; "app/build.gradle"])
             (appBuildGradle packageName)) ;;
  fs_call (WriteFile (Path.join [projectDir; "gradle.properties"]) gradleProperties) ;;
  fs_call (WriteFile (Path.join [projectDir; "settings.gradle"])
             (settingsGradle (appName input))) ;;
  for_each iconDirs
    (λ iconDir, fs_call (WriteFile (icon_file projectDir iconDir) icon)).

(** *** createGradleWrapper *)

Definition jarUrl : string :=
  "https://github.com/gradle/gradle/raw/v8.2.1/gradle/wrapper/gradle-wrapper.jar".

(** A [200] response: the body is piped into the jar. On a stream error the
    file is unlinked, whatever becomes of the unlink, and the promise
    rejects with the stream's error. *)
Definition save_response (gradleWrapperJar payload : string) : M unit :=
  match pipe e gradleWrapperJar payload with
  | Finished =>
      (λ w, (Ok tt, emit (EPipe gradleWrapperJar None)
                      (set_files (insert gradleWrapperJar payload) w))) ;;
      console_log ["Gradle wrapper jar downloaded successfully"]
  | Failed written msg =>
      (λ w, (Ok tt, emit (EPipe gradleWrapperJar (Some msg))
                      (set_files (insert gradleWrapperJar written) w))) ;;
      try_catch (fs_call (Unlink gradleWrapperJar)) (λ _, mret tt) ;;
      throw msg
  end.

Definition client_for (url : string) : client :=
  if startsWith url "https:" then Https else Http.

(** [downloadFile(url, redirectCount = 0)]. The recursion is the code's own:
    it ends because a call with a count above five makes no request.

    When [client.get] throws, where the call stands decides what becomes of
    the exception. The first call, [downloadFile(jarUrl)], is made in the
    executor of the promise, which turns what is thrown there into a
    rejection. Every later call is made in the callback of a response,
    where nothing catches: the exception leaves the request behind, and the
    promise is never settled. *)
Equations? downloadFile (gradleWrapperJar url : string) (redirectCount : nat)
    (w : world) : outcome unit * world by wf (6 - redirectCount) lt :=
downloadFile gradleWrapperJar url redirectCount w with le_gt_dec redirectCount 5 => {
  | right _ => (Throw "Too many redirects", w);
  | left _ =>
      let w1 := emit (EGet (client_for url) url) w in
      match http_get e redirectCount (client_for url) url with
      | GetThrows msg =>
          if redirectCount =? 0 then (Throw msg, w) else (Uncaught msg, w)
      | GetError msg => (Throw msg, w1)
      | GetResponse response =>
          if statusCode response =? 200 then
            save_response gradleWrapperJar (payload response) w1
          else if (statusCode response =? 302) || (statusCode response =? 301) then
            match location response with
            | Some redirectUrl =>
                if is_empty redirectUrl
                then (Throw "Redirect without location header", w1)
                else
                  downloadFile gradleWrapperJar redirectUrl (redirectCount + 1)
                    (emit (ELog Stdout ["Following redirect to: " +:+ redirectUrl]) w1)
            | None => (Throw "Redirect without location header", w1)
            end
          else
            (Throw ("Failed to download gradle-wrapper.jar: "
                    +:+ pretty (statusCode response)), w1)
      end }.
Proof. lia. Qed.

Definition createGradleWrapper (projectDir : string) : M unit :=
  fs_call (WriteFile (Path.join [projectDir; "gradlew"]) gradlewScript) ;;
  fs_call (Chmod (Path.join [projectDir; "gradlew"]) "755") ;;
  fs_call (EnsureDir (Path.join [projectDir; "gradle/wrapper"])) ;;
  fs_call (WriteFile (Path.join [projectDir; "gradle/wrapper/gradle-wrapper.properties"])
             wrapperProperties) ;;
  let gradleWrapperJar := Path.join [projectDir; "gradle/wrapper/gradle-wrapper.jar"] in
  downloadFile gradleWrapperJar jarUrl 0.

(** *** compileAPK *)

Definition gradle_args : list string :=
  [ "assembleRelease";
    "-Dorg.gradle.daemon=false";
    "-Dorg.gradle.jvmargs=-Xmx512m -XX:MaxMetaspaceSize=256m -XX:MaxDirectMemorySize=64m";
    "--no-build-cache";
    "--no-configuration-cache";
    "--parallel=false";
    "--max-workers=1" ].

Definition apk_relative : string :=
  "app/build/outputs/apk/release/app-release-unsigned.apk".

(** [spawn]: the launcher starts in the working directory, over the files
    that are there. *)
Definition spawn (cmd : string) (args : list string) (cwd : string) : M child_run :=
  λ w, (Ok (gradle e cmd cwd (files w)), emit (ESpawn cmd args cwd) w).

(** The [data] handlers: each chunk is added to its accumulator and logged.
    The pair is [(output, errorOutput)]. *)
Fixpoint on_data (chunks : list (channel * string)) (acc : string * string)
    : M (string * string) :=
  match chunks with
  | [] => mret acc
  | (Stdout, data) :: rest =>
      console_log ["Gradle output:"; data] ;;
      on_data rest (acc.1 +:+ data, acc.2)
  | (Stderr, data) :: rest =>
      console_error ["Gradle error:"; data] ;;
      on_data rest (acc.1, acc.2 +:+ data)
  end.

(** [`${code}`]. *)
Definition show_code (code : option nat) : string :=
  match code with
  | Some n => pretty n
  | None => "null"
  end.

(** The [close] handler. *)
Definition on_close (projectDir : string) (code : option nat) (errorOutput : string)
    : M string :=
  match code with
  | Some 0 =>
      let apkPath := Path.join [projectDir; apk_relative] in
      found ← existsSync apkPath;
      if found : bool then mret apkPath
      else throw "APK file not found after build"
  | _ =>
      throw ("Gradle build failed with code " +:+ show_code code +:+ ": " +:+ errorOutput)
  end.

(** The child runs to its end: its output arrives, its files appear, it
    closes. *)
Definition await_child (projectDir : string) (run : child_run) : M string :=
  acc ← on_data (output run) ("", "");
  (λ w, (Ok tt, emit (EClose (exit_code run))
                  (set_files (Fs.leave (produced run)) w))) ;;
  on_close projectDir (exit_code run) acc.2.

(** The body of the [try] block in the promise's executor: the wrapper is
    set up, then the launcher is spawned. *)
Definition launch (projectDir : string) : M child_run :=
  createGradleWrapper projectDir ;;
  let isWindows := win32 e in
  let gradleCmd := if isWindows then "gradlew.bat" else "./gradlew" in
  spawn gradleCmd gradle_args projectDir.

Definition setup_failed (message : string) : string :=
  "Failed to setup Gradle wrapper: " +:+ message.

(** The [try] block covers the wrapper setup and the spawn; the [close]
    handler runs after it, on its own. *)
Definition compileAPK (projectDir appName : string) : M string :=
  run ← try_catch (launch projectDir) (λ msg, throw (setup_failed msg));
  await_child projectDir run.

(** *** POST /compile-apk *)

Definition respond (r : response) : M unit := observe (ERespond r).

(** [setTimeout(() => fs.remove(dir).catch(console.error), ms)]. *)
Definition setTimeout_remove (ms : nat) (dir : string) : M unit :=
  λ w, (Ok tt, add_timer ms dir (emit (ESetTimeout ms) w)).

(** [res.download(path, filename, callback)]: the file is sent and the
    callback runs when the transfer is over. The name offered to the caller
    is the base name of the one given: the [Content-Disposition] header is
    made from [path.basename] of it. When the transfer does not complete
    the callback gets the error, and what reached the caller, if anything,
    is no response: none is recorded. A file that is not there is an error
    for the callback as well. *)
Definition download (path filename : string) (callback : option string → M unit) : M unit :=
  λ w, match files w !! path with
       | Some bytes =>
           match send_fault e with
           | None =>
               (respond (Download 200 (Path.basename filename) bytes) ;;
                callback None) w
           | Some failure => callback (Some failure) w
           end
       | None =>
           callback (Some ("ENOENT: no such file or directory, stat '" +:+ path +:+ "'")) w
       end.

Definition missing_fields : string :=
  "Missing required files: manifest, mainActivity, or layout".

(** The callback of [res.download]: a transfer error is logged, and the
    removal of the workspace is scheduled either way. *)
Definition after_download (projectDir : string) (err : option string) : M unit :=
  match err with
  | Some msg => console_error ["Download error:"; msg]
  | None => mret tt
  end ;;
  setTimeout_remove 5000 projectDir.

(** The [catch] block of the handler. *)
Definition on_error (projectDir message : string) : M unit :=
  console_error ["Compilation error:"; message] ;;
  respond (Json 500 [("error", "APK compilation failed"); ("details", message)]) ;;
  remove_logged projectDir.

(** The validation of the handler: one of the three required fields is
    falsy. *)
Definition rejected (body : request_body) : bool :=
  negb (truthy (body_manifest body)) || negb (truthy (body_mainActivity body))
  || negb (truthy (body_layout body)).

(** What the handler passes on once the body is accepted. *)
Definition input_of (body : request_body) : project_files :=
  ProjectFiles (string_of (body_manifest body))
    (string_of (body_mainActivity body))
    (string_of (body_layout body))
    (with_default "GeneratedApp" (body_appName body)).

(** The workspace of the request: [path.join(TEMP_DIR, projectId)]. *)
Definition workspace : string := Path.join [TEMP_DIR; uuidv4 e].

Definition compile_apk (body : request_body) : M unit :=
  let input := input_of body in
  if rejected body
  then respond (Json 400 [("error", missing_fields)])
  else
    projectId ← (λ w, (Ok (uuidv4 e), emit (EUuid (uuidv4 e)) w));
    let projectDir := Path.join [TEMP_DIR; projectId] in
    try_catch
      (createAndroidProject projectDir input ;;
       apkPath ← compileAPK projectDir (appName input);
       download apkPath (appName input +:+ ".apk") (after_download projectDir))
      (on_error projectDir).

(** The pending timers fire: each callback removes its directory. *)
Definition run_timers : M unit := λ w,
  for_each (timers w) (λ t, remove_logged t.2)
    (World (files w) (dirs w) (trace w) []).

End Server.

(** ** The package attribute, as the specification words it *)

Module PackageSpec.
Import JsString.

(** The text of a package attribute with the given value: the word
    package, an equals sign, and the value between double quotes. *)
Definition package_attr (value : string) : string :=
  "package=" +:+ dq +:+ value +:+ dq.

(** What the pattern can capture: one character or more, none of them a
    double quote. *)
Definition capturable (value : string) : Prop :=
  value ≠ "" ∧ all_chars (λ a, negb (is_dquote a)) value = true.

(** The pattern matches in [s] at offset [i], capturing [value]. *)
Definition matches_at (s : string) (i : nat) (value : string) : Prop :=
  ∃ before after,
    s = before +:+ package_attr value +:+ after
    ∧ String.length before = i ∧ capturable value.

(** [value] is the first substring the pattern captures in [s]: there is a
    match at some offset and none at a smaller one. *)
Definition first_match (s : string) (value : string) : Prop :=
  ∃ i, matches_at s i value ∧ ∀ j other, j < i → ¬ matches_at s j other.

(** The pattern matches nowhere in [s]. *)
Definition no_match (s : string) : Prop := ∀ i value, ¬ matches_at s i value.

End PackageSpec.

(** ** What a materialized workspace holds *)

Module Workspace.
Import JsString Templates.

(** The directories of the project tree, relative to the workspace. *)
Definition expected_dirs (projectDir packagePath : string) : list string :=
  map (λ dir, Path.join [projectDir; dir]) (project_dirs packagePath).

(** The files of the project tree with their contents, in the order in
    which they are written. *)
Definition expected_files (projectDir : string) (input : project_files)
    : list (string * string) :=
  let packageName := packageName_of (manifest input) in
  [ (Path.join [projectDir; "app/src/main/AndroidManifest.xml"], manifest input);
    (source_file projectDir (replace_dots packageName), mainActivity input);
    (Path.join [projectDir; "app/src/main/res/layout/activity_main.xml"], layout input);
    (Path.join [projectDir; "app/src/main/res/values/strings.xml"],
       stringsXml (appName input));
    (Path.join [projectDir; "build.gradle"], projectBuildGradle);
    (Path.join [projectDir; "app/build.gradle"], appBuildGradle packageName);
    (Path.join [projectDir; "gradle.properties"], gradleProperties);
    (Path.join [projectDir; "settings.gradle"], settingsGradle (appName input)) ]
  ++ map (λ iconDir, (icon_file projectDir iconDir, icon)) iconDirs.

(** The calls [createAndroidProject] makes, in order. *)
Definition materialize_ops (projectDir : string) (input : project_files) : list fs_op :=
  map EnsureDir (expected_dirs projectDir (packagePath_of (manifest input)))
  ++ map (λ pc, WriteFile pc.1 pc.2) (expected_files projectDir input).

(** The workspace is materialized in a world: every directory is there and
    every file is there with its content. *)
Definition materialized (projectDir : string) (input : project_files) (w : world) : Prop :=
  Forall (λ d, Fs.canonical d ∈ dirs w)
    (expected_dirs projectDir (packagePath_of (manifest input)))
  ∧ Forall (λ pc, files w !! pc.1 = Some pc.2) (expected_files projectDir input).

(** The world after a call that did not throw, and after a list of them. *)
Definition performed (w : world) (op : fs_op) : world :=
  emit (EFs op None) (Fs.effect op w).

Definition performed_all (ops : list fs_op) (w : world) : world :=
  foldl performed w ops.

(** The events of calls that did not throw. *)
Definition calls (ops : list fs_op) : list event := map (λ op, EFs op None) ops.

End Workspace.

(** ** Reading traces *)

Module Trace.

Definition is_spawn (ev : event) : bool :=
  match ev with ESpawn _ _ _ => true | _ => false end.

Definition is_get (ev : event) : bool :=
  match ev with EGet _ _ => true | _ => false end.

Definition is_fs (ev : event) : bool :=
  match ev with EFs _ _ => true | _ => false end.

(** The number of requests in a trace. *)
Definition gets (t : list event) : nat := length (filter (λ ev, is_get ev = true) t).

(** What a [data] handler has accumulated from the chunks of one channel
    when the child closes. *)
Fixpoint accumulated (ch : channel) (chunks : list (channel * string)) : string :=
  match chunks with
  | [] => ""
  | (Stdout, data) :: rest =>
      match ch with
      | Stdout => data +:+ accumulated ch rest
      | Stderr => accumulated ch rest
      end
  | (Stderr, data) :: rest =>
      match ch with
      | Stdout => accumulated ch rest
      | Stderr => data +:+ accumulated ch rest
      end
  end.

(** The events after which nothing has been spawned. *)
Definition quiet (ev : event) : Prop := is_spawn ev = false.

(** A computation only adds events, and each of them satisfies [P]. *)
Definition emits {A : Type} (P : event → Prop) (m : M A) : Prop :=
  ∀ w r w', m w = (r, w') → ∃ new, trace w' = trace w ++ new ∧ Forall P new.

End Trace.

(** ** Sample requests and environments *)

(** The requests and environments the instances below are stated on. The
    service sits in [/app], as the Dockerfile sets it up. *)
Module Demo.
Import JsString.

Definition projectId : string := "1b9d6bcd-bbfd-4b2d-9b5d-ab8dfbbd4bed".
Definition projectDir : string := "/app/temp/1b9d6bcd-bbfd-4b2d-9b5d-ab8dfbbd4bed".
Definition apkPath : string :=
  projectDir +:+ "/app/build/outputs/apk/release/app-release-unsigned.apk".

Definition manifest_of (package : string) : string :=
  "<manifest package=" +:+ dq +:+ package +:+ dq +:+ "></manifest>".

Definition body : request_body :=
  RequestBody (Some (manifest_of "com.example.foo"))
    (Some "public class MainActivity {}") (Some "<LinearLayout/>")
    (Some "DemoApp").

(** The same request with an empty application name. *)
Definition body_unnamed : request_body :=
  RequestBody (Some (manifest_of "com.example.foo"))
    (Some "public class MainActivity {}") (Some "<LinearLayout/>")
    (Some "").

(** A request without a layout. *)
Definition body_no_layout : request_body :=
  RequestBody (Some (manifest_of "com.example.foo"))
    (Some "public class MainActivity {}") None (Some "DemoApp").

Definition input : project_files := input_of body.

Definition no_fault : fs_op → option string := λ _, None.

(** The wrapper is served after two redirects. *)
Definition served (n : nat) (c : client) (url : string) : get_result :=
  if n <? 2
  then GetResponse (HttpResponse 302 (Some "https://objects.example.org/gradle-wrapper.jar") "")
  else GetResponse (HttpResponse 200 None "JAR").

(** Every request is answered by a redirect to the same place. *)
Definition redirect_loop (n : nat) (c : client) (url : string) : get_result :=
  GetResponse (HttpResponse 302 (Some "https://loop.example.org/") "").

Definition not_found (n : nat) (c : client) (url : string) : get_result :=
  GetResponse (HttpResponse 404 None "").

(** A build that succeeds and leaves the package behind. *)
Definition build_ok (cmd cwd : string) (fs : gmap string string) : child_run :=
  ChildRun [(Stdout, "BUILD SUCCESSFUL")] (Some 0) [(apkPath, "APKBYTES")].

(** A build that exits with code 1. *)
Definition build_fails (cmd cwd : string) (fs : gmap string string) : child_run :=
  ChildRun [(Stdout, "FAILURE"); (Stderr, "duplicate "); (Stderr, "resource")]
    (Some 1) [].

Definition env_ok : env :=
  Env "/app" false projectId no_fault served (λ _ _, Finished) build_ok None.

Definition env_build_fails : env :=
  Env "/app" false projectId no_fault served (λ _ _, Finished) build_fails None.

Definition env_loop : env :=
  Env "/app" false projectId no_fault redirect_loop (λ _ _, Finished) build_ok None.

Definition env_not_found : env :=
  Env "/app" false projectId no_fault not_found (λ _ _, Finished) build_ok None.

(** The disk fills up when [strings.xml] is written. *)
Definition disk_full (op : fs_op) : option string :=
  match op with
  | WriteFile p _ =>
      if String.eqb p (projectDir +:+ "/app/src/main/res/values/strings.xml")
      then Some "ENOSPC: no space left on device, write"
      else None
  | _ => None
  end.

Definition env_disk_full : env :=
  Env "/app" false projectId disk_full served (λ _ _, Finished) build_ok None.

Definition start : world := World ∅ ∅ [] [].

End Demo.

(** ** The rest of the service *)

Section Service.
Variable e : env.

(** [process.env.PORT || 3001]: the variable is a string when it is set,
    and the empty string is falsy. *)
Definition PORT (env_PORT : option string) : string + nat :=
  if truthy env_PORT then inl (string_of env_PORT) else inr 3001.

(** What happens when the module is loaded: the temp directory is ensured
    (an error here ends the process), and the listener logs its banner. *)
Definition startup (env_PORT : option string) : M unit :=
  fs_call e (EnsureDir (TEMP_DIR e)) ;;
  console_log ["APK Compiler Service running on port "
               +:+ match PORT env_PORT with inl s => s | inr n => pretty n end] ;;
  console_log ["Endpoints:"] ;;
  console_log ["  GET  /health - Health check"] ;;
  console_log ["  POST /compile-apk - Compile APK from code"].

(** GET /health. *)
Definition health : M unit :=
  respond (Json 200 [("status", "OK");
                     ("message", "APK Compiler Service is running")]).

(** The calls [createGradleWrapper] makes before it fetches the jar. *)
Definition wrapper_ops (projectDir : string) : list fs_op :=
  [ WriteFile (Path.join [projectDir; "gradlew"]) Templates.gradlewScript;
    Chmod (Path.join [projectDir; "gradlew"]) "755";
    EnsureDir (Path.join [projectDir; "gradle/wrapper"]);
    WriteFile (Path.join [projectDir; "gradle/wrapper/gradle-wrapper.properties"])
      Templates.wrapperProperties ].

End Service.

(** ** Classes of events, and counting them *)

Module Events.

Definition is_respond (ev : event) : bool :=
  match ev with ERespond _ => true | _ => false end.

(** A call of [fs.remove], whatever became of it. *)
Definition is_removal (ev : event) : bool :=
  match ev with EFs (Remove _) _ => true | _ => false end.

(** The number of events of a kind in a trace. *)
Definition count (f : event → bool) (t : list event) : nat :=
  length (filter (λ ev, f ev = true) t).

(** What the setup of the wrapper can add to the trace. *)
Definition wrapper_event (ev : event) : bool :=
  match ev with
  | EFs _ _ | EGet _ _ | EPipe _ _ | ELog _ _ => true
  | _ => false
  end.

(** What the handlers of the child process can add. *)
Definition child_event (ev : event) : bool :=
  match ev with
  | ELog _ _ | EClose _ | EExists _ _ => true
  | _ => false
  end.

(** What [compileAPK] can add. *)
Definition build_event (ev : event) : bool :=
  wrapper_event ev || child_event ev || Trace.is_spawn ev.

(** The answers the handler gives to a request it has accepted: the 500
    with the two fields of the [catch] block, or a download with status
    200. *)
Definition is_outcome_response (r : response) : bool :=
  match r with
  | Json status [(k1, v1); (k2, _)] =>
      (status =? 500) && String.eqb k1 "error"
      && String.eqb v1 "APK compilation failed" && String.eqb k2 "details"
  | Json _ _ => false
  | Download status _ _ => status =? 200
  end.

(** The events of the last stage of a request, after the materializer
    and [compileAPK]: no spawn and no request, at most one response, and
    that one the 500 of the [catch] block or the download. *)
Definition closing_events (new : list event) : Prop :=
  Forall (λ ev, Trace.is_spawn ev = false ∧ Trace.is_get ev = false) new
  ∧ count is_respond new ≤ 1
  ∧ Forall (λ ev, match ev with
                  | ERespond r => is_outcome_response r = true
                  | _ => True
                  end) new.

End Events.

(** ** Which files a computation can change *)

Module Frame.

(** A call that can change the files of one directory only: what it writes
    or unlinks is the directory or in it, what it removes is the directory. *)
Definition inside (dir : string) (op : fs_op) : bool :=
  match op with
  | WriteFile q _ | Unlink q => Fs.within dir q
  | Remove d => String.eqb d dir
  | EnsureDir _ | Chmod _ _ => true
  end.

(** The second world has the pending timers of the first, every file
    outside a directory as it was in the first, and every directory outside
    it that the first had. *)
Definition same_outside (dir : string) (w w' : world) : Prop :=
  timers w' = timers w
  ∧ (∀ p, Fs.within dir p = false → files w' !! p = files w !! p)
  ∧ (∀ d, Fs.within dir d = false → d ∈ dirs w → d ∈ dirs w').

(** A computation sets no timer, leaves every file outside a directory as
    it was and removes no directory outside it. *)
Definition keeps_outside {A : Type} (dir : string) (m : M A) : Prop :=
  ∀ w r w', m w = (r, w') → same_outside dir w w'.

(** An environment whose build, run in a directory, writes in that
    directory only. *)
Definition confined (e : env) (dir : string) : Prop :=
  ∀ cmd fs,
    Forall (λ kv, Fs.within dir kv.1 = true) (produced (gradle e cmd dir fs)).

(** The files of a file system without a directory and what is in it. *)
Definition without (dir : string) (fs : gmap string string) (p : string)
    : option string :=
  if Fs.within dir p then None else fs !! p.

End Frame.

(** ** The temp directory *)

(** The invariant of the service between two events: the temp directory is
    there, and every pending timer is for a directory directly in it. *)
Definition temp_ready (dirname : string) (w : world) : Prop :=
  Fs.canonical (Path.join [dirname; "temp"]) ∈ dirs w
  ∧ Forall (λ t, ∃ id, Path.plain_name id = true
                       ∧ t.2 = Path.join [Path.join [dirname; "temp"]; id])
      (timers w).

(** ** Files and their directories *)

(** A file lies directly in a directory that is there: its path is the
    path of the directory, a slash and a name without a slash. *)
Definition housed (w : world) (p : string) : Prop :=
  ∃ d name, p = d +:+ "/" +:+ name ∧ Path.plain_name name = true ∧ d ∈ dirs w.

(** ** Servers that redirect a number of times *)

(** The server leads from the address [url], asked for after [n]
    redirects, through the addresses [hops]: each of these requests is
    made (so [client.get] takes the address) and answered by a 301 or 302
    that names the next address. *)
Fixpoint redirects_through (e : env) (n : nat) (url : string) (hops : list string)
    : Prop :=
  match hops with
  | [] => True
  | next :: rest =>
      (∃ response,
         http_get e n (client_for url) url = GetResponse response
         ∧ (statusCode response = 301 ∨ statusCode response = 302)
         ∧ location response = Some next ∧ next ≠ "")
      ∧ redirects_through e (S n) next rest
  end.

(** The address the fetch is at after the redirects. *)
Definition last_address (url : string) (hops : list string) : string :=
  List.last hops url.

(** The server leads through [hops] and serves the last address with a
    200 response whose payload is [body] and whose stream finishes. *)
Definition serves_after (e : env) (url : string) (hops : list string) (body : string)
    : Prop :=
  redirects_through e 0 url hops
  ∧ (∃ response,
       http_get e (length hops) (client_for (last_address url hops))
         (last_address url hops) = GetResponse response
       ∧ statusCode response = 200 ∧ payload response = body)
  ∧ (∀ jar, pipe e jar body = Finished).

(** ** A second request, and a file system with something in it *)

Module Scene.

(** The service directory holds a file of its own before the request. *)
Definition busy : world :=
  World {[ "/app/server.js" := "SERVER" ]} {[ "/app"; "/app/temp" ]} [] [].

(** Another request: the same service, another identifier. *)
Definition other_id : string := "9c5b94b1-35ad-49bb-b118-8e8fc24abf80".

Definition env_other : env :=
  Env "/app" false other_id Demo.no_fault Demo.served (λ _ _, Finished)
    Demo.build_fails None.

(** A file in the workspace of the other request. *)
Definition busy_other : world :=
  World {[ "/app/temp/9c5b94b1-35ad-49bb-b118-8e8fc24abf80/build.gradle" := "OTHER" ]}
    {[ "/app"; "/app/temp" ]} [] [].

(** A server that answers the request for the wrapper with a redirect to
    a relative address, as a 302 may: [client.get] does not take that
    address. *)
Definition relative_location : string :=
  "/gradle/gradle/raw/v8.2.1/gradle/wrapper/gradle-wrapper.jar".

Definition redirects_relative (n : nat) (c : client) (url : string) : get_result :=
  match n with
  | 0 => GetResponse (HttpResponse 302 (Some relative_location) "")
  | S _ => GetThrows "Invalid URL"
  end.

Definition env_relative : env :=
  Env "/app" false Demo.projectId Demo.no_fault redirects_relative
    (λ _ _, Finished) Demo.build_ok None.



End Scene.

(** * Properties *)

(** ** Strings *)

Section StringFacts.
Import JsString.

Lemma append_cons a s t : String a s +:+ t = String a (s +:+ t).
Proof. reflexivity. Qed.

Lemma append_nil_r s : s +:+ "" = s.
Proof. induction s as [|a s IH]; [done|]. by rewrite append_cons, IH. Qed.

Lemma append_assoc s t u : (s +:+ t) +:+ u = s +:+ (t +:+ u).
Proof. induction s as [|a s IH]; [done|]. by rewrite !append_cons, IH. Qed.

Lemma length_zero s : String.length s = 0 → s = "".
Proof. by destruct s. Qed.

Lemma strip_prefix_append p s : strip_prefix p (p +:+ s) = Some s.
Proof.
  induction p as [|a p IH]; [by destruct s|].
  rewrite append_cons. simpl. by rewrite Ascii.eqb_refl.
Qed.

Lemma strip_prefix_Some p s r : strip_prefix p s = Some r → s = p +:+ r.
Proof.
  revert s. induction p as [|a p IH]; intros s H.
  - destruct s; cbn in H; by inversion H.
  - destruct s as [|b s]; [done|]. cbn in H.
    destruct (Ascii.eqb_spec a b) as [->|]; [|done].
    rewrite append_cons. f_equal. by apply IH.
Qed.

Lemma startsWith_append s p : startsWith (p +:+ s) p = true.
Proof. unfold startsWith. by rewrite strip_prefix_append. Qed.

Lemma includes_append s t u : includes (s +:+ t +:+ u) t = true.
Proof.
  induction s as [|a s IH].
  - change ("" +:+ t +:+ u) with (t +:+ u).
    destruct (t +:+ u) eqn:E; cbn; rewrite <- ?E, startsWith_append; done.
  - rewrite append_cons. cbn. rewrite IH. by rewrite orb_true_r.
Qed.

(** *** The greedy run *)

Lemma span_not_dquote_spec s run rest :
  span_not_dquote s = (run, rest) →
  s = run +:+ rest
  ∧ all_chars (λ a, negb (is_dquote a)) run = true
  ∧ (rest = "" ∨ ∃ r, rest = String dquote r).
Proof.
  revert run rest. induction s as [|a s IH]; intros run rest H; cbn in H.
  - inversion H. auto.
  - destruct (is_dquote a) eqn:Ha.
    + inversion H; subst. split; [done|]. split; [done|]. right.
      apply Ascii.eqb_eq in Ha. subst. eauto.
    + destruct (span_not_dquote s) as [run' rest'] eqn:E. inversion H; subst.
      destruct (IH _ _ eq_refl) as (-> & Hall & Hrest).
      split; [done|]. split; [|done]. cbn. by rewrite Ha.
Qed.

Lemma span_not_dquote_append run r :
  all_chars (λ a, negb (is_dquote a)) run = true →
  span_not_dquote (run +:+ String dquote r) = (run, String dquote r).
Proof.
  induction run as [|a run IH]; intros H.
  - reflexivity.
  - cbn in H. apply andb_true_iff in H as [Ha Hrun].
    rewrite append_cons. cbn.
    destruct (is_dquote a); [done|]. by rewrite IH.
Qed.

End StringFacts.

(** ** The pattern match against its specification *)

Section PackagePattern.
Import JsString PackageSpec.

Lemma package_attr_unfold value after :
  package_attr value +:+ after
  = ("package=" +:+ dq) +:+ (value +:+ String dquote after).
Proof. unfold package_attr, dq. by rewrite !append_assoc. Qed.

(** The anchored match succeeds exactly when the text starts with a
    package attribute of a capturable value. *)
Lemma package_re_at_Some s value :
  package_re_at s = Some value ↔
  ∃ after, s = package_attr value +:+ after ∧ capturable value.
Proof.
  unfold package_re_at. split.
  - destruct (strip_prefix _ s) as [s1|] eqn:Hp; [|done].
    apply strip_prefix_Some in Hp.
    destruct (span_not_dquote s1) as [run rest] eqn:Hs.
    apply span_not_dquote_spec in Hs as (-> & Hall & Hrest).
    destruct run as [|a run]; [done|].
    destruct rest as [|b rest]; [done|].
    destruct (is_dquote b) eqn:Hb; [|done].
    intros [= <-]. apply Ascii.eqb_eq in Hb. subst b.
    exists rest. split; [|by split].
    by rewrite package_attr_unfold.
  - intros (after & -> & Hne & Hall).
    rewrite package_attr_unfold, strip_prefix_append.
    rewrite span_not_dquote_append by done.
    by destruct value.
Qed.

Lemma matches_at_0 s value : matches_at s 0 value ↔ package_re_at s = Some value.
Proof.
  rewrite package_re_at_Some. split.
  - intros (before & after & -> & Hlen & Hc).
    apply length_zero in Hlen. subst. by exists after.
  - intros (after & -> & Hc). by exists "", after.
Qed.

Lemma matches_at_S a s i value :
  matches_at (String a s) (S i) value ↔ matches_at s i value.
Proof.
  split.
  - intros (before & after & Heq & Hlen & Hc).
    destruct before as [|b before]; [done|].
    rewrite append_cons in Heq. injection Heq as -> ->.
    cbn in Hlen. exists before, after. split; [done|]. split; [lia|done].
  - intros (before & after & -> & Hlen & Hc).
    exists (String a before), after. split; [done|]. split; [cbn; lia|done].
Qed.

Lemma matches_at_empty i value : ¬ matches_at "" i value.
Proof.
  intros (before & after & Heq & _).
  destruct before; discriminate Heq.
Qed.

(** The search finds the first match of the specification. *)
Lemma package_re_match_first s value :
  package_re_match s = Some value ↔ first_match s value.
Proof.
  induction s as [|a s IH].
  - split.
    + cbn. done.
    + intros (i & Hm & _). by apply matches_at_empty in Hm.
  - change (package_re_match (String a s))
      with (match package_re_at (String a s) with
            | Some cap => Some cap
            | None => package_re_match s
            end).
    destruct (package_re_at (String a s)) as [cap|] eqn:Hat.
    + apply matches_at_0 in Hat. split.
      * intros [= <-]. exists 0. split; [done|]. intros j other Hj. lia.
      * intros (i & Hm & Hfirst). destruct i as [|i].
        -- apply matches_at_0 in Hm, Hat. congruence.
        -- exfalso. apply (Hfirst 0 cap); [lia|done].
    + rewrite IH. split.
      * intros (i & Hm & Hfirst). exists (S i). split; [by apply matches_at_S|].
        intros j other Hj Hjm. destruct j as [|j].
        -- apply matches_at_0 in Hjm. congruence.
        -- apply matches_at_S in Hjm. apply (Hfirst j other); [lia|done].
      * intros (i & Hm & Hfirst). destruct i as [|i].
        -- apply matches_at_0 in Hm. congruence.
        -- exists i. split; [by apply matches_at_S in Hm|].
           intros j other Hj Hjm. apply (Hfirst (S j) other); [lia|].
           by apply matches_at_S.
Qed.

Lemma package_re_match_none s : package_re_match s = None ↔ no_match s.
Proof.
  split.
  - induction s as [|a s IH]; intros Hnone i value Hm.
    + by apply matches_at_empty in Hm.
    + change (package_re_match (String a s))
        with (match package_re_at (String a s) with
              | Some cap => Some cap
              | None => package_re_match s
              end) in Hnone.
      destruct (package_re_at (String a s)) as [cap|] eqn:Hat; [done|].
      destruct i as [|i].
      * apply matches_at_0 in Hm. congruence.
      * apply matches_at_S in Hm. by apply (IH Hnone i value).
  - intros Hno. destruct (package_re_match s) as [v|] eqn:E; [|done].
    apply package_re_match_first in E as (i & Hm & _). by apply Hno in Hm.
Qed.

End PackagePattern.

Example package_re_match_ex :
  JsString.package_re_match (Demo.manifest_of "com.example.foo")
  = Some "com.example.foo".
Proof. reflexivity. Qed.

(** An empty attribute is no match, and the search goes on behind it. *)
Example package_re_match_skips_empty :
  JsString.package_re_match
    (PackageSpec.package_attr "" +:+ " " +:+ PackageSpec.package_attr "b") = Some "b".
Proof. reflexivity. Qed.

(** Of two attributes the first one counts. *)
Example package_re_match_takes_first :
  JsString.package_re_match
    (PackageSpec.package_attr "a.b" +:+ PackageSpec.package_attr "com.example.foo")
  = Some "a.b".
Proof. reflexivity. Qed.

Example package_re_match_unclosed :
  JsString.package_re_match ("<manifest package=" +:+ JsString.dq +:+ "com.example")
  = None.
Proof. reflexivity. Qed.

Example replace_dots_ex :
  JsString.replace_dots "com.example.foo" = "com/example/foo".
Proof. reflexivity. Qed.

(** The placeholder icon starts with the PNG signature. *)
Example icon_is_png :
  JsString.startsWith Templates.icon
    (String "137" (String "P" (String "N" (String "G"
       (String "013" (String "010" (String "026" (String "010" ""))))))))
  = true.
Proof. reflexivity. Qed.

(** ** Paths *)

Section PathFacts.
Import JsString Path.

Lemma split_cons s : ∃ seg rest, split s = seg :: rest.
Proof.
  destruct s as [|a s]; [by eexists _, _|]. cbn.
  destruct (is_slash a); [by eexists _, _|].
  destruct (split s); by eexists _, _.
Qed.

(** A slash between two texts is a boundary between their segments. *)
Lemma split_append_slash s t :
  split (s +:+ String "/" t) = split s ++ split t.
Proof.
  induction s as [|a s IH]; [done|].
  rewrite append_cons. cbn. rewrite IH.
  destruct (is_slash a); [done|].
  by destruct (split_cons s) as (seg & rest & ->).
Qed.

Lemma split_no_slash s :
  all_chars (λ a, negb (is_slash a)) s = true → split s = [s].
Proof.
  induction s as [|a s IH]; [done|]. cbn.
  intros [Ha Hs]%andb_true_iff. rewrite IH by done.
  by destruct (is_slash a).
Qed.

(** Joining the segments again gives the text back. *)
Lemma concat_split s : String.concat "/" (split s) = s.
Proof.
  induction s as [|a s IH]; [done|]. cbn.
  destruct (is_slash a) eqn:Ha.
  - apply Ascii.eqb_eq in Ha as ->.
    destruct (split_cons s) as (seg & rest & E). rewrite E in *.
    change (String.concat "/" ("" :: seg :: rest))
      with (String "/" (String.concat "/" (seg :: rest))).
    by rewrite IH.
  - destruct (split_cons s) as (seg & rest & E). rewrite E in *.
    rewrite <- IH. by destruct rest.
Qed.

(** The segments of a text are made of its characters. *)
Lemma split_all_chars f s :
  all_chars f s = true → Forall (λ seg, all_chars f seg = true) (split s).
Proof.
  induction s as [|a s IH]; [by repeat constructor|]. cbn.
  intros [Ha Hs]%andb_true_iff. specialize (IH Hs).
  destruct (is_slash a).
  - by constructor.
  - destruct (split_cons s) as (seg & rest & E). rewrite E in *.
    inversion IH; subst. constructor; [|done]. cbn. by rewrite Ha.
Qed.

Lemma concat_app (P R : list string) :
  P ≠ [] → R ≠ [] →
  String.concat "/" (P ++ R) = String.concat "/" P +:+ "/" +:+ String.concat "/" R.
Proof.
  intros HP HR. induction P as [|x P IH]; [done|].
  destruct P as [|y P].
  - destruct R; [done|]. reflexivity.
  - change (String.concat "/" ((x :: y :: P) ++ R))
      with (x +:+ "/" +:+ String.concat "/" ((y :: P) ++ R)).
    rewrite IH by done.
    change (String.concat "/" (x :: y :: P))
      with (x +:+ "/" +:+ String.concat "/" (y :: P)).
    by rewrite !append_assoc.
Qed.

Lemma endsWith_char_append s t c :
  t ≠ "" → endsWith_char (s +:+ t) c = endsWith_char t c.
Proof.
  intros Ht. induction s as [|a s IH]; [done|].
  rewrite append_cons. cbn. rewrite IH.
  destruct (s +:+ t) eqn:E; [|done].
  destruct s; [by subst|done].
Qed.

(** *** Normalization over segments without [..] *)

Lemma no_dot_not_dotdot seg :
  all_chars (λ a, negb (is_dot a)) seg = true → is_dotdot seg = false.
Proof.
  destruct seg as [|a seg]; [done|]. cbn.
  intros [Ha _]%andb_true_iff. unfold is_dotdot. cbn.
  unfold is_dot in Ha. by destruct (Ascii.eqb a "."); [|destruct seg].
Qed.

Lemma plain_not_dotdot seg : plain_segment seg = true → is_dotdot seg = false.
Proof. unfold plain_segment. intros [_ H]%andb_true_iff. by apply negb_true_iff. Qed.

Lemma plain_not_skipped seg : plain_segment seg = true → is_skipped seg = false.
Proof. unfold plain_segment. intros [H _]%andb_true_iff. by apply negb_true_iff. Qed.

(** Without [..] nothing is popped: the kept segments pile up in order. *)
Lemma normalize_fold_no_dotdot allow segs stack :
  Forall (λ seg, is_dotdot seg = false) segs →
  fold_left (normalize_step allow) segs stack
  = rev (filter (λ seg, is_skipped seg = false) segs) ++ stack.
Proof.
  intros H. revert stack. induction H as [|seg segs Hseg _ IH]; intros stack.
  - done.
  - cbn [fold_left]. rewrite IH. unfold normalize_step. rewrite Hseg.
    rewrite filter_cons. destruct (is_skipped seg) eqn:Hs.
    + by rewrite decide_False.
    + rewrite decide_True by done. cbn. by rewrite <- app_assoc.
Qed.

Lemma filter_plain (P : list string) :
  Forall (λ seg, plain_segment seg = true) P →
  filter (λ seg, is_skipped seg = false) P = P.
Proof.
  induction 1 as [|seg P Hseg _ IH]; [done|].
  rewrite filter_cons, decide_True by by apply plain_not_skipped.
  by rewrite IH.
Qed.

(** *** Normal absolute paths *)

Lemma forallb_Forall_true {A : Type} (f : A → bool) (l : list A) :
  forallb f l = true ↔ Forall (λ x, f x = true) l.
Proof.
  induction l as [|x l IH]; cbn.
  - split; [by constructor|done].
  - rewrite andb_true_iff, IH. split.
    + intros [??]. by constructor.
    + by inversion 1.
Qed.

Lemma normal_abs_inv dir :
  normal_abs dir = true →
  ∃ P, split dir = "" :: P ∧ P ≠ []
       ∧ Forall (λ seg, plain_segment seg = true) P
       ∧ dir = "/" +:+ String.concat "/" P.
Proof.
  unfold normal_abs. intros H.
  destruct (split dir) as [|s0 [|seg segs]] eqn:E; try done.
  - by destruct s0.
  - destruct s0; [|done]. exists (seg :: segs).
    split; [done|]. split; [done|]. split.
    + by apply forallb_Forall_true.
    + rewrite <- (concat_split dir), E. reflexivity.
Qed.

Lemma concat_head_plain seg (l : list string) :
  plain_segment seg = true → is_empty (String.concat "/" (seg :: l)) = false.
Proof.
  intros Hseg%plain_not_skipped. unfold is_skipped in Hseg.
  apply orb_false_iff in Hseg as [Hseg _].
  destruct seg; [done|]. by destruct l.
Qed.

(** Joining a normal absolute directory with a relative path that has no
    [..] segment and no trailing slash appends the kept segments. *)
Lemma join_no_dotdot dir rel :
  normal_abs dir = true →
  rel ≠ "" →
  endsWith_char rel "/" = false →
  Forall (λ seg, is_dotdot seg = false) (split rel) →
  filter (λ seg, is_skipped seg = false) (split rel) ≠ [] →
  join [dir; rel]
  = dir +:+ "/" +:+ String.concat "/" (filter (λ seg, is_skipped seg = false) (split rel)).
Proof.
  intros Hdir Hrel Htrail Hdd HR.
  destruct (normal_abs_inv dir Hdir) as (P & Hsplit & HP & Hplain & Hd).
  set (R := filter _ (split rel)) in *.
  assert (Hjoin : join [dir; rel] = normalize (dir +:+ "/" +:+ rel)).
  { unfold join. rewrite !filter_cons, filter_nil.
    rewrite !decide_True; [done| |].
    - by destruct rel.
    - rewrite Hd. done. }
  rewrite Hjoin. unfold normalize.
  assert (Habs : isAbsolute (dir +:+ "/" +:+ rel) = true).
  { rewrite Hd. reflexivity. }
  assert (Hne : is_empty (dir +:+ "/" +:+ rel) = false).
  { rewrite Hd. reflexivity. }
  rewrite Hne, Habs. cbn [negb].
  change ("/" +:+ rel) with (String "/" rel).
  rewrite (endsWith_char_append dir (String "/" rel)) by done.
  assert (Hslash : endsWith_char (String "/" rel) "/" = endsWith_char rel "/")
    by exact (endsWith_char_append "/" rel "/" Hrel).
  rewrite Hslash, Htrail.
  unfold normalizeString, normalize_segments.
  rewrite split_append_slash, Hsplit.
  rewrite fold_left_app. cbn [fold_left app].
  change (normalize_step false [] "") with (@nil string).
  rewrite (normalize_fold_no_dotdot false P [])
    by (eapply Forall_impl; [exact Hplain|]; apply plain_not_dotdot).
  rewrite filter_plain by done.
  rewrite normalize_fold_no_dotdot by done. fold R.
  rewrite app_nil_r, rev_app_distr, !rev_involutive.
  assert (HPR : is_empty (String.concat "/" (P ++ R)) = false).
  { destruct Hplain as [|seg P' Hseg _]; [done|]. by apply concat_head_plain. }
  rewrite HPR.
  rewrite concat_app by done. rewrite Hd. by rewrite !append_assoc.
Qed.

(** A plain relative path is appended as it is. *)
Lemma join_plain_rel dir rel :
  normal_abs dir = true → plain_rel rel = true →
  join [dir; rel] = dir +:+ "/" +:+ rel.
Proof.
  intros Hdir [[Hne Htrail]%andb_true_iff Hsegs]%andb_true_iff.
  apply negb_true_iff in Hne, Htrail.
  apply forallb_Forall_true in Hsegs.
  assert (Hfilter : filter (λ seg, is_skipped seg = false) (split rel) = split rel)
    by by apply filter_plain.
  rewrite join_no_dotdot; try done.
  - by rewrite Hfilter, concat_split.
  - by destruct rel.
  - eapply Forall_impl; [exact Hsegs|]. apply plain_not_dotdot.
  - rewrite Hfilter. by destruct (split_cons rel) as (? & ? & ->).
Qed.

Lemma plain_name_rel name : plain_name name = true → plain_rel name = true.
Proof.
  intros [Hplain Hslash]%andb_true_iff. unfold plain_rel.
  rewrite (split_no_slash name Hslash). cbn. rewrite Hplain.
  pose proof (plain_not_skipped _ Hplain) as Hs.
  unfold is_skipped in Hs. apply orb_false_iff in Hs as [Hs _]. rewrite Hs.
  cbn. rewrite andb_true_r. apply negb_true_iff.
  clear Hplain Hs. induction name as [|a name IH]; [done|].
  cbn in Hslash. apply andb_true_iff in Hslash as [Ha Hname].
  cbn. destruct name; [|by apply IH].
  unfold is_slash in Ha. by apply negb_true_iff in Ha.
Qed.

(** A plain name under a normal absolute directory is one again. *)
Lemma normal_abs_child dir name :
  normal_abs dir = true → plain_name name = true →
  normal_abs (dir +:+ "/" +:+ name) = true.
Proof.
  intros Hdir Hname.
  destruct (normal_abs_inv dir Hdir) as (P & Hsplit & HP & Hplain & _).
  apply andb_true_iff in Hname as [Hseg Hslash].
  unfold normal_abs.
  change ("/" +:+ name) with (String "/" name).
  rewrite split_append_slash, Hsplit, (split_no_slash name Hslash).
  destruct P as [|seg P]; [done|]. cbn [app].
  apply forallb_Forall_true.
  apply (proj2 (Forall_app _ (seg :: P) [name])). split; [done|].
  by constructor.
Qed.

(** *** Where the main activity goes *)

Lemma replace_dots_no_dot s :
  all_chars (λ a, negb (is_dot a)) (replace_dots s) = true.
Proof.
  induction s as [|a s IH]; [done|]. cbn. rewrite IH.
  by destruct (is_dot a) eqn:E; [|rewrite E].
Qed.

Lemma no_dot_skipped seg :
  all_chars (λ a, negb (is_dot a)) seg = true → is_skipped seg = is_empty seg.
Proof.
  destruct seg as [|a seg]; [done|]. cbn.
  intros [Ha _]%andb_true_iff. unfold is_skipped, is_dot in *. cbn.
  by destruct (Ascii.eqb_spec a "."); [|destruct (String.eqb_spec (String a seg) "."); [congruence|]].
Qed.

Lemma source_file_eq dir packagePath :
  normal_abs dir = true →
  all_chars (λ a, negb (is_dot a)) packagePath = true →
  source_file dir packagePath
  = dir +:+ "/app/src/main/java/"
    +:+ String.concat "/" (package_segments packagePath ++ ["MainActivity.java"]).
Proof.
  intros Hdir Hdots. unfold source_file.
  assert (Hrel : "app/src/main/java/" +:+ packagePath +:+ "/MainActivity.java"
                 = "app/src/main/java" +:+ String "/"
                     (packagePath +:+ String "/" "MainActivity.java")) by done.
  rewrite Hrel.
  assert (Hsplit : split ("app/src/main/java" +:+ String "/"
                            (packagePath +:+ String "/" "MainActivity.java"))
                   = ["app"; "src"; "main"; "java"] ++ split packagePath
                     ++ ["MainActivity.java"]).
  { by rewrite !split_append_slash. }
  rewrite join_no_dotdot; try done.
  - rewrite Hsplit, !filter_app. fold (package_segments packagePath).
    change (filter _ ["app"; "src"; "main"; "java"]) with ["app"; "src"; "main"; "java"].
    change (filter _ ["MainActivity.java"]) with ["MainActivity.java"].
    rewrite (concat_app ["app"; "src"; "main"; "java"]); [|done|by destruct (package_segments _)].
    f_equal.
  - change ("app/src/main/java" +:+ String "/" (packagePath +:+ String "/" "MainActivity.java"))
      with (("app/src/main/java/" +:+ packagePath) +:+ "/MainActivity.java") .
    by rewrite endsWith_char_append.
  - rewrite Hsplit. apply Forall_app. split; [by repeat constructor|].
    apply Forall_app. split; [|by repeat constructor].
    eapply Forall_impl; [apply (split_all_chars _ _ Hdots)|].
    apply no_dot_not_dotdot.
Qed.

(** The main activity is written under the workspace, whatever the
    manifest declares. *)
Lemma source_file_under dir manifest :
  normal_abs dir = true →
  under dir (source_file dir (packagePath_of manifest)) = true
  ∧ under (dir +:+ "/app/src/main/java")
      (source_file dir (packagePath_of manifest)) = true.
Proof.
  intros Hdir. unfold packagePath_of.
  rewrite source_file_eq by (done || apply replace_dots_no_dot).
  unfold under. split.
  - change (dir +:+ "/app/src/main/java/" +:+ ?x)
      with (dir +:+ "/" +:+ ("app/src/main/java/" +:+ x)).
    rewrite <- append_assoc. apply startsWith_append.
  - change (dir +:+ "/app/src/main/java/" +:+ ?x)
      with (dir +:+ "/app/src/main/java" +:+ "/" +:+ x).
    rewrite <- !append_assoc. apply startsWith_append.
Qed.

(** *** Identifiers *)

Lemma all_chars_impl (f g : ascii → bool) s :
  (∀ a, f a = true → g a = true) → all_chars f s = true → all_chars g s = true.
Proof.
  intros Hfg. induction s as [|a s IH]; [done|]. cbn.
  intros [Ha Hs]%andb_true_iff. by rewrite (Hfg a Ha), IH.
Qed.

Lemma uuid_char_no_slash a : is_uuid_char a = true → negb (is_slash a) = true.
Proof.
  intros H. unfold is_slash. destruct (Ascii.eqb_spec a "/") as [->|]; [|done].
  by vm_compute in H.
Qed.

Lemma uuid_char_no_dot a : is_uuid_char a = true → negb (is_dot a) = true.
Proof.
  intros H. unfold is_dot. destruct (Ascii.eqb_spec a ".") as [->|]; [|done].
  by vm_compute in H.
Qed.

(** What [uuidv4] returns is a plain name. *)
Lemma uuid_plain_name id : uuid_shaped id = true → plain_name id = true.
Proof.
  intros [Hlen Hchars]%andb_true_iff. apply Nat.eqb_eq in Hlen.
  pose proof (all_chars_impl _ _ id uuid_char_no_slash Hchars) as Hslash.
  pose proof (all_chars_impl _ _ id uuid_char_no_dot Hchars) as Hdot.
  unfold plain_name, plain_segment.
  rewrite Hslash, (no_dot_skipped id Hdot), (no_dot_not_dotdot id Hdot).
  by destruct id.
Qed.

End PathFacts.

Example join_ex1 :
  Path.join ["/app/temp"; "app/src/main/java/com/example/foo"]
  = "/app/temp/app/src/main/java/com/example/foo".
Proof. reflexivity. Qed.

Example join_ex2 : Path.join ["/a/b"; "../../../c/./d//e/"] = "/c/d/e/".
Proof. reflexivity. Qed.

Example join_ex3 : Path.join ["a"; "../../c"] = "../c".
Proof. reflexivity. Qed.

Example join_ex4 : Path.join ["/a/b"; "..."; "x.."] = "/a/b/.../x..".
Proof. reflexivity. Qed.

Example demo_uuid_shaped : Path.uuid_shaped Demo.projectId = true.
Proof. reflexivity. Qed.

(** ** Computations *)

Section MonadFacts.
Context {A B : Type}.

Lemma bind_unfold (m : M A) (k : A → M B) w :
  (m ≫= k) w
  = match m w with
    | (Ok a, w') => k a w'
    | (Throw msg, w') => (Throw msg, w')
    | (Uncaught msg, w') => (Uncaught msg, w')
    end.
Proof. reflexivity. Qed.

End MonadFacts.

(** A result is its outcome and the world it leaves. *)
Lemma outcome_eta {A} (p : outcome A * world) r : p.1 = r → p = (r, p.2).
Proof. destruct p. cbn. by intros ->. Qed.

(** ** Traces *)

Section TraceFacts.
Import Trace.
Variable e : env.

Lemma emits_ret {A} P (a : A) : emits P (mret a).
Proof. intros w r w' [= <- <-]. exists []. by rewrite app_nil_r. Qed.

Lemma emits_throw {A} P msg : emits P (@throw A msg).
Proof. intros w r w' [= <- <-]. exists []. by rewrite app_nil_r. Qed.

Lemma emits_observe (P : event → Prop) ev : P ev → emits P (observe ev).
Proof. intros H w r w' [= <- <-]. exists [ev]. split; [done|]. by constructor. Qed.

Lemma emits_bind {A B} P (m : M A) (k : A → M B) :
  emits P m → (∀ a, emits P (k a)) → emits P (m ≫= k).
Proof.
  intros Hm Hk w r w'. rewrite bind_unfold.
  destruct (m w) as [[a|msg|msg] w1] eqn:E.
  - intros H. destruct (Hm _ _ _ E) as (n1 & E1 & F1).
    destruct (Hk a _ _ _ H) as (n2 & E2 & F2).
    exists (n1 ++ n2). split; [by rewrite E2, E1, app_assoc|by apply Forall_app].
  - intros [= <- <-]. eauto.
  - intros [= <- <-]. eauto.
Qed.

Lemma emits_try_catch {A} P (m : M A) (h : string → M A) :
  emits P m → (∀ msg, emits P (h msg)) → emits P (try_catch m h).
Proof.
  intros Hm Hh w r w'. unfold try_catch.
  destruct (m w) as [[a|msg|msg] w1] eqn:E.
  - intros [= <- <-]. eauto.
  - intros H. destruct (Hm _ _ _ E) as (n1 & E1 & F1).
    destruct (Hh msg _ _ _ H) as (n2 & E2 & F2).
    exists (n1 ++ n2). split; [by rewrite E2, E1, app_assoc|by apply Forall_app].
  - intros [= <- <-]. eauto.
Qed.

Lemma emits_for_each {A} P (xs : list A) (f : A → M unit) :
  (∀ x, emits P (f x)) → emits P (for_each xs f).
Proof.
  intros Hf. induction xs as [|x xs IH]; [apply emits_ret|].
  cbn [for_each]. apply emits_bind; [apply Hf|done].
Qed.

Lemma effect_trace op w : trace (Fs.effect op w) = trace w.
Proof. by destruct op. Qed.

Lemma emits_fs_call (P : event → Prop) op :
  (∀ r, P (EFs op r)) → emits P (fs_call e op).
Proof.
  intros H w r w'. unfold fs_call.
  destruct (fs_fault e op) as [msg|]; intros [= <- <-]; eexists [_].
  - split; [reflexivity|by constructor].
  - split; [cbn; by rewrite effect_trace|by constructor].
Qed.

End TraceFacts.

(** ** The materializer *)

Section MaterializerFacts.
Import JsString Workspace Trace.
Variable e : env.

Lemma for_each_app {A} (l1 l2 : list A) (f : A → M unit) w :
  for_each (l1 ++ l2) f w = (for_each l1 f ;; for_each l2 f) w.
Proof.
  revert w. induction l1 as [|x l1 IH]; intros w; [reflexivity|].
  cbn [for_each app]. rewrite !bind_unfold.
  destruct (f x w) as [[[]|msg|msg] w1]; [|reflexivity..].
  rewrite IH, bind_unfold. reflexivity.
Qed.

(** [createAndroidProject] is its list of calls, made in order. *)
Lemma createAndroidProject_ops projectDir input (w : world) :
  createAndroidProject e projectDir input w
  = for_each (materialize_ops projectDir input) (fs_call e) w.
Proof.
  unfold materialize_ops. rewrite for_each_app.
  unfold createAndroidProject, expected_dirs, expected_files, packagePath_of.
  cbn [for_each map app project_dirs iconDirs fst snd].
  reflexivity.
Qed.

Lemma performed_all_app ops1 ops2 w :
  performed_all (ops1 ++ ops2) w = performed_all ops2 (performed_all ops1 w).
Proof. unfold performed_all. by rewrite foldl_app. Qed.

Lemma performed_all_trace ops w :
  trace (performed_all ops w) = trace w ++ calls ops.
Proof.
  revert w. induction ops as [|op ops IH]; intros w; cbn.
  - by rewrite app_nil_r.
  - unfold performed_all in IH. rewrite IH. cbn.
    by rewrite effect_trace, <- app_assoc.
Qed.

(** The calls run until one throws. *)
Lemma run_ops_inv ops w r w' :
  for_each ops (fs_call e) w = (r, w') →
  match r with
  | Ok _ =>
      Forall (λ op, fs_fault e op = None) ops ∧ w' = performed_all ops w
  | Throw msg =>
      ∃ done op rest,
        ops = done ++ op :: rest
        ∧ Forall (λ op, fs_fault e op = None) done
        ∧ fs_fault e op = Some msg
        ∧ w' = emit (EFs op (Some msg)) (performed_all done w)
  | Uncaught _ => False
  end.
Proof.
  revert w. induction ops as [|op ops IH]; intros w.
  - intros [= <- <-]. by split.
  - cbn [for_each]. rewrite bind_unfold. unfold fs_call at 1.
    destruct (fs_fault e op) as [msg|] eqn:Hop.
    + intros [= <- <-]. exists [], op, ops. by repeat split.
    + intros H. specialize (IH _ H). destruct r as [[]|msg|msg].
      * destruct IH as [Hall ->]. split; [by constructor|done].
      * destruct IH as (done & op' & rest & -> & Hall & Hop' & ->).
        exists (op :: done), op', rest. repeat split; try done. by constructor.
      * exact IH.
Qed.

Lemma run_ops_ok ops w :
  Forall (λ op, fs_fault e op = None) ops →
  for_each ops (fs_call e) w = (Ok tt, performed_all ops w).
Proof.
  intros H. revert w. induction H as [|op ops Hop _ IH]; intros w; [done|].
  cbn [for_each]. rewrite bind_unfold. unfold fs_call at 1. rewrite Hop.
  by rewrite IH.
Qed.

(** *** The state of the workspace *)

Lemma performed_write_files (fs : list (string * string)) w :
  files (performed_all (map (λ pc, WriteFile pc.1 pc.2) fs) w)
  = Fs.leave fs (files w).
Proof.
  revert w. induction fs as [|[p c] fs IH]; intros w; [done|].
  cbn. unfold performed_all in IH. by rewrite IH.
Qed.

Lemma leave_lookup_other (fs : list (string * string)) (m : gmap string string) p :
  p ∉ fs.*1 → Fs.leave fs m !! p = m !! p.
Proof.
  revert m. induction fs as [|[q c] fs IH]; intros m Hp; [done|].
  cbn in *. apply not_elem_of_cons in Hp as [Hne Hp].
  unfold Fs.leave in IH. rewrite IH by done. by rewrite lookup_insert_ne.
Qed.

(** Written once, a file holds what was written. *)
Lemma leave_lookup (fs : list (string * string)) (m : gmap string string) p c :
  NoDup fs.*1 → (p, c) ∈ fs → Fs.leave fs m !! p = Some c.
Proof.
  revert m. induction fs as [|[q d] fs IH]; intros m Hnd Hin.
  - by apply elem_of_nil in Hin.
  - cbn in Hnd. apply NoDup_cons in Hnd as [Hq Hnd].
    apply elem_of_cons in Hin as [[= -> ->]|Hin].
    + cbn. pose proof (leave_lookup_other fs (<[q:=d]> m) q Hq) as H.
      unfold Fs.leave in H. rewrite H. apply lookup_insert_eq.
    + cbn. unfold Fs.leave in IH. by apply IH.
Qed.

(** No call of the materializer removes a directory. *)
Lemma performed_dirs_mono ops w d :
  Forall (λ op, match op with EnsureDir _ | WriteFile _ _ => True | _ => False end) ops →
  d ∈ dirs w → d ∈ dirs (performed_all ops w).
Proof.
  intros H. revert w. induction H as [|op ops Hop _ IH]; intros w Hd; [done|].
  cbn. apply IH. destruct op; try done; cbn; set_solver.
Qed.

Lemma performed_dirs_ensure ds (w : world) d :
  d ∈ ds → Fs.canonical d ∈ dirs (performed_all (map EnsureDir ds) w).
Proof.
  revert w. induction ds as [|d' ds IH]; intros w Hd.
  - by apply elem_of_nil in Hd.
  - apply elem_of_cons in Hd as [->|Hd].
    + cbn. apply performed_dirs_mono.
      * apply Forall_fmap. by apply Forall_true.
      * cbn. set_solver.
    + cbn. by apply IH.
Qed.

(** *** The files of the tree have distinct paths *)

Lemma not_elem_of_by_prefix (prefix rest : string) (l : list string) :
  forallb (λ s, negb (startsWith s prefix)) l = true → prefix +:+ rest ∉ l.
Proof.
  intros H Hin. apply forallb_Forall_true in H.
  rewrite Forall_forall in H. specialize (H _ Hin).
  by rewrite startsWith_append in H.
Qed.

Lemma expected_paths projectDir input :
  Path.normal_abs projectDir = true →
  (expected_files projectDir input).*1
  = map (String.append projectDir)
      [ "/app/src/main/AndroidManifest.xml";
        "/app/src/main/java/"
          +:+ String.concat "/"
                (Path.package_segments (packagePath_of (manifest input))
                 ++ ["MainActivity.java"]);
        "/app/src/main/res/layout/activity_main.xml";
        "/app/src/main/res/values/strings.xml";
        "/build.gradle";
        "/app/build.gradle";
        "/gradle.properties";
        "/settings.gradle";
        "/app/src/main/res/mipmap-hdpi/ic_launcher.png";
        "/app/src/main/res/mipmap-mdpi/ic_launcher.png";
        "/app/src/main/res/mipmap-xhdpi/ic_launcher.png";
        "/app/src/main/res/mipmap-xxhdpi/ic_launcher.png";
        "/app/src/main/res/mipmap-xxxhdpi/ic_launcher.png" ].
Proof.
  intros Hdir. unfold expected_files, icon_file.
  cbn [fmap list_fmap map app iconDirs fst].
  fold (packagePath_of (manifest input)).
  rewrite (source_file_eq projectDir) by (assumption || apply replace_dots_no_dot).
  rewrite !(join_plain_rel projectDir) by (assumption || reflexivity).
  reflexivity.
Qed.

Lemma expected_paths_NoDup projectDir input :
  Path.normal_abs projectDir = true →
  NoDup (expected_files projectDir input).*1.
Proof.
  intros Hdir. rewrite expected_paths by done.
  apply (NoDup_fmap_2 (String.append projectDir)).
  apply NoDup_cons. split.
  { apply not_elem_of_cons. split.
    - intros H.
      eapply (not_elem_of_by_prefix "/app/src/main/java/" _
                ["/app/src/main/AndroidManifest.xml"]); [reflexivity|].
      rewrite <- H. by constructor.
    - apply (bool_decide_unpack _). vm_compute. exact I. }
  apply NoDup_cons. split.
  { apply not_elem_of_by_prefix. vm_compute. reflexivity. }
  apply (bool_decide_unpack _). vm_compute. exact I.
Qed.

(** Once every call has been made, the workspace is materialized. *)
Lemma performed_materialized projectDir input w :
  Path.normal_abs projectDir = true →
  materialized projectDir input
    (performed_all (materialize_ops projectDir input) w).
Proof.
  intros Hdir. unfold materialize_ops. rewrite performed_all_app. split.
  - apply Forall_forall. intros d Hd.
    apply performed_dirs_mono.
    + apply Forall_fmap. apply Forall_true. intros [p c]. exact I.
    + apply performed_dirs_ensure. exact Hd.
  - apply Forall_forall. intros [p c] Hpc.
    rewrite performed_write_files. cbn [fst snd].
    apply leave_lookup; [apply expected_paths_NoDup; exact Hdir|exact Hpc].
Qed.

(** The materializer emits file-system calls and nothing else. *)
Lemma createAndroidProject_emits projectDir input :
  emits (λ ev, is_fs ev = true) (createAndroidProject e projectDir input).
Proof.
  intros w r w' H. rewrite createAndroidProject_ops in H. revert w r w' H.
  apply emits_for_each. intros op. by apply emits_fs_call.
Qed.

End MaterializerFacts.

(** ** The wrapper download *)

Section DownloadFacts.
Import JsString Trace.
Variable e : env.

Lemma downloadFile_too_many jar url n (w : world) :
  n > 5 → downloadFile e jar url n w = (Throw "Too many redirects", w).
Proof.
  intros H. rewrite downloadFile_equation_1.
  destruct (le_gt_dec n 5); [lia|reflexivity].
Qed.

(** One call that makes a request: what the answer leads to. *)
Lemma downloadFile_request jar url n (w : world) :
  n ≤ 5 →
  downloadFile e jar url n w
  = let w1 := emit (EGet (client_for url) url) w in
    match http_get e n (client_for url) url with
    | GetThrows msg => if n =? 0 then (Throw msg, w) else (Uncaught msg, w)
    | GetError msg => (Throw msg, w1)
    | GetResponse response =>
        if statusCode response =? 200 then
          save_response e jar (payload response) w1
        else if (statusCode response =? 302) || (statusCode response =? 301) then
          match location response with
          | Some redirectUrl =>
              if is_empty redirectUrl
              then (Throw "Redirect without location header", w1)
              else downloadFile e jar redirectUrl (n + 1)
                     (emit (ELog Stdout ["Following redirect to: " +:+ redirectUrl]) w1)
          | None => (Throw "Redirect without location header", w1)
          end
        else
          (Throw ("Failed to download gradle-wrapper.jar: "
                  +:+ pretty (statusCode response)), w1)
    end.
Proof.
  intros H. rewrite downloadFile_equation_1.
  destruct (le_gt_dec n 5); [reflexivity|lia].
Qed.

Lemma gets_cons ev l : gets (ev :: l) = (if is_get ev then 1 else 0) + gets l.
Proof.
  unfold gets. rewrite filter_cons.
  destruct (is_get ev); [by rewrite decide_True|by rewrite decide_False].
Qed.

Lemma gets_none l : Forall (λ ev, is_get ev = false) l → gets l = 0.
Proof.
  induction 1 as [|ev l Hev _ IH]; [reflexivity|].
  by rewrite gets_cons, Hev, IH.
Qed.

(** Saving the response makes no request and spawns nothing. *)
Lemma save_response_emits (P : event → Prop) jar payload :
  (∀ ev, is_spawn ev = false → is_get ev = false → P ev) →
  emits P (save_response e jar payload).
Proof.
  intros HP. unfold save_response. destruct (pipe e jar payload) as [|written msg].
  - apply emits_bind.
    + intros w r w' [= <- <-]. eexists [_]. split; [reflexivity|].
      constructor; [by apply HP|constructor].
    + intros _. apply emits_observe. by apply HP.
  - apply emits_bind.
    + intros w r w' [= <- <-]. eexists [_]. split; [reflexivity|].
      constructor; [by apply HP|constructor].
    + intros _. apply emits_bind; [|intros _; apply emits_throw].
      apply emits_try_catch; [|intros _; apply emits_ret].
      apply emits_fs_call. intros r. by apply HP.
Qed.

(** Whatever the server answers, a download adds no more requests than the
    count leaves room for, and spawns nothing. *)
Lemma downloadFile_bounded (P : event → Prop) jar :
  (∀ ev, is_spawn ev = false → P ev) →
  ∀ k n url (w : world) r w',
    6 - n ≤ k →
    downloadFile e jar url n w = (r, w') →
    ∃ new, trace w' = trace w ++ new ∧ Forall P new ∧ gets new ≤ 6 - n.
Proof.
  intros HP. induction k as [|k IH]; intros n url w r w' Hk.
  - rewrite downloadFile_too_many by lia. intros [= <- <-].
    exists []. rewrite app_nil_r. split; [reflexivity|].
    split; [constructor|]. cbn. lia.
  - destruct (le_gt_dec n 5) as [Hn|Hn].
    2:{ rewrite downloadFile_too_many by lia. intros [= <- <-].
        exists []. rewrite app_nil_r. split; [reflexivity|].
        split; [constructor|]. cbn. lia. }
    rewrite downloadFile_request by lia. cbv zeta.
    assert (Hone : ∃ new, trace (emit (EGet (client_for url) url) w) = trace w ++ new
                          ∧ Forall P new ∧ gets new ≤ 6 - n).
    { exists [EGet (client_for url) url]. split; [reflexivity|]. split.
      - constructor; [by apply HP|constructor].
      - rewrite gets_cons. cbn. lia. }
    destruct (http_get e n (client_for url) url) as [msg|msg|response].
    { destruct (n =? 0); intros [= <- <-]; exists []; rewrite app_nil_r;
        (split; [reflexivity|]); (split; [constructor|]); cbn; lia. }
    { intros [= <- <-]. exact Hone. }
    destruct (statusCode response =? 200).
    { intros H.
      apply (save_response_emits (λ ev, P ev ∧ is_get ev = false)) in H
        as (new & Hnew & HF); [|by intros ev ? ?; split; [apply HP|]].
      exists (EGet (client_for url) url :: new). cbn in Hnew.
      rewrite Hnew, <- app_assoc. split; [reflexivity|]. split.
      - constructor; [by apply HP|]. eapply Forall_impl; [exact HF|]. by intros ? [? _].
      - rewrite gets_cons, gets_none; [cbn; lia|].
        eapply Forall_impl; [exact HF|]. by intros ? [_ ?]. }
    destruct ((statusCode response =? 302) || (statusCode response =? 301)).
    2:{ intros [= <- <-]. exact Hone. }
    destruct (location response) as [redirectUrl|].
    2:{ intros [= <- <-]. exact Hone. }
    destruct (is_empty redirectUrl).
    { intros [= <- <-]. exact Hone. }
    intros H. apply IH in H as (new & Hnew & HF & Hgets); [|lia].
    exists (EGet (client_for url) url
            :: ELog Stdout ["Following redirect to: " +:+ redirectUrl] :: new).
    cbn in Hnew. rewrite Hnew, <- !app_assoc. split; [reflexivity|]. split.
    + constructor; [by apply HP|]. constructor; [by apply HP|exact HF].
    + rewrite !gets_cons. cbn. lia.
Qed.

Lemma downloadFile_emits (P : event → Prop) jar url n :
  (∀ ev, is_spawn ev = false → P ev) → emits P (λ w, downloadFile e jar url n w).
Proof.
  intros HP w r w' H.
  destruct (downloadFile_bounded P jar HP (6 - n) n url w r w' (le_n _) H)
    as (new & ? & ? & _).
  by exists new.
Qed.

(** Setting up the wrapper spawns nothing. *)
Lemma createGradleWrapper_emits (P : event → Prop) projectDir :
  (∀ ev, is_spawn ev = false → P ev) → emits P (createGradleWrapper e projectDir).
Proof.
  intros HP. unfold createGradleWrapper.
  repeat (apply emits_bind; [apply emits_fs_call; intros r; by apply HP|intros _]).
  by apply downloadFile_emits.
Qed.

End DownloadFacts.

(** ** The build invoker *)

Section InvokerFacts.
Import JsString Trace.
Variable e : env.


Lemma existsSync_emits (P : event → Prop) p :
  (∀ found, P (EExists p found)) → emits P (existsSync p).
Proof.
  intros H w r w' [= <- <-]. eexists [_]. split; [reflexivity|].
  constructor; [apply H|constructor].
Qed.

Lemma on_data_emits (P : event → Prop) chunks acc :
  (∀ ch text, P (ELog ch text)) → emits P (on_data chunks acc).
Proof.
  intros H. revert acc. induction chunks as [|[[] data] chunks IH]; intros acc.
  - apply emits_ret.
  - cbn [on_data]. apply emits_bind; [apply emits_observe, H|intros _; apply IH].
  - cbn [on_data]. apply emits_bind; [apply emits_observe, H|intros _; apply IH].
Qed.

(** The handlers accumulate every chunk, and touch no file. *)
Lemma on_data_result chunks acc (w : world) :
  ∃ w', on_data chunks acc w
        = (Ok (acc.1 +:+ accumulated Stdout chunks,
               acc.2 +:+ accumulated Stderr chunks), w')
        ∧ files w' = files w ∧ dirs w' = dirs w ∧ timers w' = timers w.
Proof.
  revert acc w. induction chunks as [|[[] data] chunks IH]; intros [o eo] w.
  - exists w. cbn. by rewrite !append_nil_r.
  - cbn [on_data]. rewrite bind_unfold. cbn [console_log observe fst snd].
    destruct (IH (o +:+ data, eo) (emit (ELog Stdout ["Gradle output:"; data]) w))
      as (w' & -> & ? & ? & ?).
    exists w'. cbn [fst snd accumulated]. by rewrite append_assoc.
  - cbn [on_data]. rewrite bind_unfold. cbn [console_error observe fst snd].
    destruct (IH (o, eo +:+ data) (emit (ELog Stderr ["Gradle error:"; data]) w))
      as (w' & -> & ? & ? & ?).
    exists w'. cbn [fst snd accumulated]. by rewrite append_assoc.
Qed.

Lemma on_close_emits (P : event → Prop) projectDir code errorOutput :
  (∀ p found, P (EExists p found)) → emits P (on_close projectDir code errorOutput).
Proof.
  intros H. unfold on_close. destruct code as [[|n]|]; try apply emits_throw.
  apply emits_bind; [by apply existsSync_emits|].
  intros []; [apply emits_ret|apply emits_throw].
Qed.


(** A wrapper setup that throws is reported with the prefix, and nothing
    else happens. *)
Lemma compileAPK_setup_throw projectDir appName (w : world) msg w1 :
  createGradleWrapper e projectDir w = (Throw msg, w1) →
  compileAPK e projectDir appName w = (Throw (setup_failed msg), w1).
Proof.
  intros H. unfold compileAPK. rewrite bind_unfold.
  unfold try_catch, launch. rewrite bind_unfold, H. reflexivity.
Qed.

(** An exception that escapes the wrapper setup escapes [compileAPK] too:
    its [catch] block does not see it. *)
Lemma compileAPK_setup_uncaught projectDir appName (w : world) msg w1 :
  createGradleWrapper e projectDir w = (Uncaught msg, w1) →
  compileAPK e projectDir appName w = (Uncaught msg, w1).
Proof.
  intros H. unfold compileAPK. rewrite bind_unfold.
  unfold try_catch, launch. rewrite bind_unfold, H. reflexivity.
Qed.

(** Once the launcher is spawned the result is the child's. *)
Lemma compileAPK_launched projectDir appName (w : world) run w1 :
  launch e projectDir w = (Ok run, w1) →
  compileAPK e projectDir appName w = await_child projectDir run w1.
Proof.
  intros H. unfold compileAPK. rewrite bind_unfold.
  unfold try_catch. rewrite H. reflexivity.
Qed.

Lemma launch_inv projectDir (w : world) r w1 :
  launch e projectDir w = (r, w1) →
  match r with
  | Ok run =>
      ∃ w0, createGradleWrapper e projectDir w = (Ok tt, w0)
            ∧ run = gradle e (if win32 e then "gradlew.bat" else "./gradlew")
                      projectDir (files w0)
            ∧ w1 = emit (ESpawn (if win32 e then "gradlew.bat" else "./gradlew")
                           gradle_args projectDir) w0
  | Throw msg => createGradleWrapper e projectDir w = (Throw msg, w1)
  | Uncaught msg => createGradleWrapper e projectDir w = (Uncaught msg, w1)
  end.
Proof.
  unfold launch. rewrite bind_unfold.
  destruct (createGradleWrapper e projectDir w) as [[[]|msg|msg] w0].
  - intros [= <- <-]. by exists w0.
  - by intros [= <- <-].
  - by intros [= <- <-].
Qed.


(** The outcome of the build, once the launcher runs. *)
Lemma await_child_outcome projectDir run (w : world) :
  (await_child projectDir run w).1
  = match exit_code run with
    | Some 0 =>
        if Fs.exists_in (Fs.leave (produced run) (files w)) (dirs w)
             (Path.join [projectDir; apk_relative])
        then Ok (Path.join [projectDir; apk_relative])
        else Throw "APK file not found after build"
    | code =>
        Throw ("Gradle build failed with code " +:+ show_code code +:+ ": "
               +:+ accumulated Stderr (output run))
    end.
Proof.
  unfold await_child. rewrite bind_unfold.
  destruct (on_data_result (output run) ("", "") w) as (w' & -> & Hf & Hd & _).
  rewrite bind_unfold. cbn [fst snd]. unfold on_close.
  destruct (exit_code run) as [[|n]|]; try reflexivity.
  rewrite bind_unfold. unfold existsSync, Fs.exists_at. cbn [files dirs emit set_files].
  rewrite Hf, Hd.
  by destruct (Fs.exists_in _ _ _).
Qed.


End InvokerFacts.

(** ** The handler *)

Section HandlerFacts.
Import JsString Trace.
Variable e : env.

(** The [catch] block answers, removes the workspace and does not throw. *)
Lemma on_error_result projectDir msg (w : world) :
  ∃ w', on_error e projectDir msg w = (Ok tt, w')
        ∧ trace w'
          = trace w
            ++ [ ELog Stderr ["Compilation error:"; msg];
                 ERespond (Json 500 [("error", "APK compilation failed");
                                     ("details", msg)]);
                 EFs (Remove projectDir) (fs_fault e (Remove projectDir)) ]
            ++ match fs_fault e (Remove projectDir) with
               | Some failure => [ELog Stderr [failure]]
               | None => []
               end
        ∧ timers w' = timers w.
Proof.
  unfold on_error, remove_logged, try_catch, fs_call.
  rewrite !bind_unfold. cbn [console_error respond observe].
  destruct (fs_fault e (Remove projectDir)) as [failure|]; eexists; split;
    try reflexivity; cbn; rewrite <- ?app_assoc; done.
Qed.

(** The download does not throw. When the file is there and the transfer
    completes, the file has been sent under the base name of the given
    name; when the transfer fails the error is logged; the removal of the
    workspace is scheduled either way. *)
Lemma download_sent projectDir path filename bytes (w : world) :
  files w !! path = Some bytes →
  ∃ w', download e path filename (after_download projectDir) w = (Ok tt, w')
        ∧ trace w'
          = trace w
            ++ match send_fault e with
               | None => [ERespond (Download 200 (Path.basename filename) bytes)]
               | Some failure => [ELog Stderr ["Download error:"; failure]]
               end
            ++ [ESetTimeout 5000]
        ∧ timers w' = timers w ++ [(5000, projectDir)]
        ∧ files w' = files w ∧ dirs w' = dirs w.
Proof.
  intros Hfile. unfold download. rewrite Hfile.
  unfold after_download.
  destruct (send_fault e) as [failure|]; rewrite !bind_unfold;
    cbn [respond console_error observe]; eexists; split;
    try reflexivity; cbn; rewrite <- ?app_assoc; done.
Qed.

Lemma download_total projectDir path filename (w : world) :
  ∃ w', download e path filename (after_download projectDir) w = (Ok tt, w')
        ∧ ∃ new, trace w' = trace w ++ new ∧ Forall quiet new.
Proof.
  unfold download.
  destruct (files w !! path) as [bytes|].
  - unfold after_download.
    destruct (send_fault e) as [failure|]; rewrite !bind_unfold;
      cbn [respond console_error observe]; eexists; (split; [reflexivity|]);
      eexists; (split; [cbn; rewrite <- ?app_assoc; reflexivity|]);
      by repeat constructor.
  - unfold after_download. rewrite !bind_unfold.
    eexists; (split; [reflexivity|]);
      eexists; (split; [cbn; rewrite <- ?app_assoc; reflexivity|]);
      by repeat constructor.
Qed.

(** An accepted request: the identifier is drawn, the workspace is
    materialized, the package is built and sent; the first failure that is
    thrown to the handler goes to the [catch] block, and an exception that
    escapes the build is the end of what the handler does. *)
Lemma compile_apk_accepted body (w : world) :
  rejected body = false →
  compile_apk e body w
  = match createAndroidProject e (workspace e) (input_of body)
            (emit (EUuid (uuidv4 e)) w) with
    | (Throw msg, w1) => on_error e (workspace e) msg w1
    | (Uncaught msg, w1) => (Uncaught msg, w1)
    | (Ok _, w1) =>
        match compileAPK e (workspace e) (appName (input_of body)) w1 with
        | (Throw msg, w2) => on_error e (workspace e) msg w2
        | (Uncaught msg, w2) => (Uncaught msg, w2)
        | (Ok apkPath, w2) =>
            download e apkPath (appName (input_of body) +:+ ".apk")
              (after_download (workspace e)) w2
        end
    end.
Proof.
  intros Hacc. unfold compile_apk. rewrite Hacc.
  rewrite bind_unfold. fold (workspace e).
  unfold try_catch. rewrite bind_unfold.
  destruct (createAndroidProject _ _ _ _) as [[[]|msg|msg] w1]; [|reflexivity..].
  rewrite bind_unfold.
  destruct (compileAPK _ _ _ _) as [[apkPath|msg|msg] w2]; [|reflexivity..].
  destruct (download_total (workspace e) apkPath
              (appName (input_of body) +:+ ".apk") w2) as (w3 & -> & _).
  reflexivity.
Qed.

(** A rejected request is answered at once. *)
Lemma compile_apk_rejected body (w : world) :
  rejected body = true →
  compile_apk e body w
  = (Ok tt, emit (ERespond (Json 400 [("error", missing_fields)])) w).
Proof. intros Hrej. unfold compile_apk. by rewrite Hrej. Qed.

(** The materializer throws what it throws to its caller. *)
Lemma createAndroidProject_caught projectDir input (w : world) msg w1 :
  createAndroidProject e projectDir input w ≠ (Uncaught msg, w1).
Proof.
  intros H. rewrite createAndroidProject_ops in H.
  exact (run_ops_inv e _ _ _ _ H).
Qed.

(** No error is thrown out of the handler: it returns, or an exception
    has escaped the build. *)
Lemma compile_apk_total body (w : world) :
  (∃ w', compile_apk e body w = (Ok tt, w'))
  ∨ (∃ msg w', compile_apk e body w = (Uncaught msg, w')).
Proof.
  destruct (rejected body) eqn:Hrej.
  - rewrite compile_apk_rejected by done. left. by eexists.
  - rewrite compile_apk_accepted by done.
    destruct (createAndroidProject _ _ _ _) as [[[]|msg|msg] w1].
    + destruct (compileAPK _ _ _ _) as [[apkPath|msg|msg] w2].
      * destruct (download_total (workspace e) apkPath
                    (appName (input_of body) +:+ ".apk") w2) as (w3 & -> & _).
        left. by exists w3.
      * destruct (on_error_result (workspace e) msg w2) as (w3 & -> & _).
        left. by exists w3.
      * right. by exists msg, w2.
    + destruct (on_error_result (workspace e) msg w1) as (w3 & -> & _).
      left. by exists w3.
    + right. by exists msg, w1.
Qed.

(** A removal that does not fail leaves nothing of the directory. *)
Lemma remove_logged_clears dir (w : world) :
  fs_fault e (Remove dir) = None →
  ∃ w', remove_logged e dir w = (Ok tt, w')
        ∧ timers w' = timers w
        ∧ ∀ p, Fs.within dir p = true → files w' !! p = None ∧ p ∉ dirs w'.
Proof.
  intros Hok. unfold remove_logged, try_catch, fs_call. rewrite Hok.
  eexists. split; [reflexivity|]. split; [reflexivity|].
  intros p Hp. cbn. split.
  - apply map_lookup_filter_None. right. intros x _. cbn. by rewrite Hp.
  - rewrite elem_of_filter. intros [Hq _]. by rewrite Hp in Hq.
Qed.

(** When the timer of a sent download fires, the workspace goes. *)
Lemma timer_removes_workspace dir ms (w : world) :
  timers w = [(ms, dir)] →
  fs_fault e (Remove dir) = None →
  ∃ w', run_timers e w = (Ok tt, w') ∧ timers w' = []
        ∧ ∀ p, Fs.within dir p = true → files w' !! p = None ∧ p ∉ dirs w'.
Proof.
  intros Ht Hok. unfold run_timers. rewrite Ht. cbn [for_each snd].
  rewrite bind_unfold.
  destruct (remove_logged_clears dir (World (files w) (dirs w) (trace w) []) Hok)
    as (w' & -> & Htimers & Hgone).
  exists w'. split; [reflexivity|]. split; [exact Htimers|exact Hgone].
Qed.

End HandlerFacts.

(** ** The workspace directory *)

Section WorkspaceFacts.
Import JsString Path.

(** With the service in a normal absolute directory and a plain name drawn
    for the request, the workspace is that directory, [temp] and the name. *)
Lemma workspace_normal e :
  normal_abs (__dirname e) = true → plain_name (uuidv4 e) = true →
  workspace e = __dirname e +:+ "/temp/" +:+ uuidv4 e
  ∧ normal_abs (workspace e) = true.
Proof.
  intros Hdir Hid. unfold workspace, TEMP_DIR.
  rewrite (join_plain_rel (__dirname e) "temp") by (assumption || reflexivity).
  assert (Htemp : normal_abs (__dirname e +:+ "/" +:+ "temp") = true).
  { apply normal_abs_child; [assumption|reflexivity]. }
  rewrite join_plain_rel by (assumption || by apply plain_name_rel).
  split.
  - rewrite !append_assoc. reflexivity.
  - by apply normal_abs_child.
Qed.

End WorkspaceFacts.

(** * The properties of the specification *)

(** ** C1: requests with a missing field *)

Lemma absent_or_empty_falsy v : absent_or_empty v → truthy v = false.
Proof. by intros [-> | ->]. Qed.

(** C1. For every POST /compile-apk request in which one of [manifest],
    [mainActivity] and [layout] is absent or empty, the handler answers with
    status 400 and exactly the body with the one field [error] holding the
    fixed message; this answer is the only thing that happens: no identifier
    is drawn, the file system (files and directories) is as it was, and no
    timer is set. *)
Theorem missing_field_rejected e body (w : world) :
  absent_or_empty (body_manifest body)
  ∨ absent_or_empty (body_mainActivity body)
  ∨ absent_or_empty (body_layout body) →
  compile_apk e body w
  = (Ok tt,
     emit (ERespond (Json 400
             [("error", "Missing required files: manifest, mainActivity, or layout")])) w)
  ∧ (let w' := (compile_apk e body w).2 in
     trace w'
     = trace w
       ++ [ERespond (Json 400
             [("error", "Missing required files: manifest, mainActivity, or layout")])]
     ∧ files w' = files w ∧ dirs w' = dirs w ∧ timers w' = timers w).
Proof.
  intros H.
  assert (Hrej : rejected body = true).
  { unfold rejected.
    destruct H as [H|[H|H]]; apply absent_or_empty_falsy in H; rewrite H; cbn;
      by rewrite ?orb_true_r. }
  rewrite (compile_apk_rejected e body w Hrej). by repeat split.
Qed.

Lemma missing_field_rejected_witness :
  absent_or_empty (body_layout Demo.body_no_layout)
  ∧ compile_apk Demo.env_ok Demo.body_no_layout Demo.start
    = (Ok tt,
       World ∅ ∅
         [ERespond (Json 400
            [("error", "Missing required files: manifest, mainActivity, or layout")])]
         []).
Proof.
  split; [by left|].
  apply (missing_field_rejected Demo.env_ok Demo.body_no_layout Demo.start).
  right. right. by left.
Defined.

(** ** C2: the package identifier and the path of the main source file *)

Section PackageIdentifier.
Import JsString Path PackageSpec Workspace.

Lemma packageName_first manifest value :
  first_match manifest value → packageName_of manifest = value.
Proof.
  intros H%package_re_match_first. unfold packageName_of. by rewrite H.
Qed.

Lemma packageName_fallback manifest :
  no_match manifest → packageName_of manifest = "com.apkforge.app".
Proof.
  intros H%package_re_match_none. unfold packageName_of. by rewrite H.
Qed.

Lemma match_or_not manifest :
  (∃ value, first_match manifest value) ∨ no_match manifest.
Proof.
  destruct (package_re_match manifest) as [value|] eqn:E.
  - left. exists value. by apply package_re_match_first.
  - right. by apply package_re_match_none.
Qed.

(** The main activity is among the calls of the materializer, in place 10
    (after the nine directories and the manifest). *)
Lemma source_file_call projectDir input :
  materialize_ops projectDir input !! 10
  = Some (WriteFile (source_file projectDir (packagePath_of (manifest input)))
            (mainActivity input)).
Proof. reflexivity. Qed.

Lemma source_file_expected projectDir input :
  expected_files projectDir input !! 1
  = Some (source_file projectDir (packagePath_of (manifest input)), mainActivity input).
Proof. reflexivity. Qed.

(** A successful materialization made every call and left the tree. *)
Lemma createAndroidProject_Ok e projectDir input (w w' : world) :
  createAndroidProject e projectDir input w = (Ok tt, w') →
  Forall (λ op, fs_fault e op = None) (materialize_ops projectDir input)
  ∧ w' = performed_all (materialize_ops projectDir input) w
  ∧ trace w' = trace w ++ calls (materialize_ops projectDir input).
Proof.
  rewrite createAndroidProject_ops. intros H%run_ops_inv.
  destruct H as [Hall ->]. split; [exact Hall|]. split; [reflexivity|].
  apply performed_all_trace.
Qed.

(** When no call of the materializer fails, it returns, having made every
    call. *)
Lemma createAndroidProject_runs e projectDir input (w : world) :
  Forall (λ op, fs_fault e op = None) (materialize_ops projectDir input) →
  createAndroidProject e projectDir input w
  = (Ok tt, performed_all (materialize_ops projectDir input) w).
Proof. intros Hall. rewrite createAndroidProject_ops. by apply run_ops_ok. Qed.

End PackageIdentifier.

(** C2. For every manifest text the package identifier is the first
    substring the package pattern captures in it (the search of the code
    finds a value exactly when that value is the first match); when the
    pattern matches nowhere the identifier is com.apkforge.app; one of the
    two is always the case. The main source file is written at the path
    joined from the workspace, app/src/main/java/, the identifier with every
    dot replaced by a slash (no dot is left), and /MainActivity.java. When
    the first package attribute of the manifest is com.example.foo and the
    workspace is a normal absolute directory, that path is the workspace
    followed by /app/src/main/java/com/example/foo/MainActivity.java, so it
    contains com/example/foo. The write is made: every run of
    [createAndroidProject] that returns has called [writeFile] with that
    path and the main activity and left the text there, and when no call of
    the file system fails the run does return, from every state. *)
Theorem package_identifier_and_source_path e projectDir input :
  Path.normal_abs projectDir = true →
  (∀ value, JsString.package_re_match (manifest input) = Some value
            ↔ PackageSpec.first_match (manifest input) value)
  ∧ (∀ value, PackageSpec.first_match (manifest input) value →
              packageName_of (manifest input) = value)
  ∧ (PackageSpec.no_match (manifest input) →
     packageName_of (manifest input) = "com.apkforge.app")
  ∧ ((∃ value, PackageSpec.first_match (manifest input) value)
     ∨ PackageSpec.no_match (manifest input))
  ∧ JsString.all_chars (λ a, negb (JsString.is_dot a))
      (JsString.replace_dots (packageName_of (manifest input))) = true
  ∧ (∀ w w' : world,
       createAndroidProject e projectDir input w = (Ok tt, w') →
       let path :=
         Path.join [projectDir;
                    "app/src/main/java/"
                    +:+ JsString.replace_dots (packageName_of (manifest input))
                    +:+ "/MainActivity.java"] in
       EFs (WriteFile path (mainActivity input)) None ∈ trace w'
       ∧ files w' !! path = Some (mainActivity input))
  ∧ (Forall (λ op, fs_fault e op = None)
       (Workspace.materialize_ops projectDir input) →
     ∀ w : world, ∃ w' : world,
       let path :=
         Path.join [projectDir;
                    "app/src/main/java/"
                    +:+ JsString.replace_dots (packageName_of (manifest input))
                    +:+ "/MainActivity.java"] in
       createAndroidProject e projectDir input w = (Ok tt, w')
       ∧ EFs (WriteFile path (mainActivity input)) None ∈ trace w'
       ∧ files w' !! path = Some (mainActivity input))
  ∧ (PackageSpec.first_match (manifest input) "com.example.foo" →
     source_file projectDir (packagePath_of (manifest input))
     = projectDir +:+ "/app/src/main/java/com/example/foo/MainActivity.java"
     ∧ JsString.includes (source_file projectDir (packagePath_of (manifest input)))
         "com/example/foo" = true).
Proof.
  intros Hdir.
  split; [intros value; apply package_re_match_first|].
  split; [intros value; apply packageName_first|].
  split; [apply packageName_fallback|].
  split; [apply match_or_not|].
  split; [apply replace_dots_no_dot|].
  assert (Hwritten : ∀ w w' : world,
            createAndroidProject e projectDir input w = (Ok tt, w') →
            EFs (WriteFile (source_file projectDir (packagePath_of (manifest input)))
                   (mainActivity input)) None ∈ trace w'
            ∧ files w' !! source_file projectDir (packagePath_of (manifest input))
              = Some (mainActivity input)).
  { intros w w' H.
    apply createAndroidProject_Ok in H as (_ & Hw' & Htrace). split.
    + rewrite Htrace. apply elem_of_app. right.
      apply (list_elem_of_lookup_2 _ 10). unfold Workspace.calls.
      rewrite list_lookup_fmap, source_file_call. reflexivity.
    + pose proof (performed_materialized projectDir input w Hdir) as [_ Hfiles].
      rewrite <- Hw' in Hfiles.
      apply (Forall_lookup_1 _ _ 1 _ Hfiles (source_file_expected projectDir input)). }
  split; [|split].
  - intros w w' H. cbv zeta.
    change (Path.join _) with (source_file projectDir (packagePath_of (manifest input))).
    exact (Hwritten w w' H).
  - intros Hall w.
    exists (Workspace.performed_all (Workspace.materialize_ops projectDir input) w). cbv zeta.
    change (Path.join _) with (source_file projectDir (packagePath_of (manifest input))).
    pose proof (createAndroidProject_runs e projectDir input w Hall) as Hrun.
    split; [exact Hrun|]. exact (Hwritten _ _ Hrun).
  - intros Hfirst.
    assert (Hpath : source_file projectDir (packagePath_of (manifest input))
                    = projectDir +:+ "/app/src/main/java/com/example/foo/MainActivity.java").
    { rewrite source_file_eq by (assumption || apply replace_dots_no_dot).
      unfold packagePath_of. rewrite (packageName_first _ _ Hfirst). reflexivity. }
    split; [exact Hpath|]. rewrite Hpath.
    change "/app/src/main/java/com/example/foo/MainActivity.java"
      with ("/app/src/main/java/" +:+ "com/example/foo" +:+ "/MainActivity.java").
    rewrite <- (append_assoc projectDir). apply includes_append.
Qed.

Lemma package_identifier_and_source_path_witness :
  Path.normal_abs Demo.projectDir = true
  ∧ packageName_of (manifest Demo.input) = "com.example.foo"
  ∧ source_file Demo.projectDir (packagePath_of (manifest Demo.input))
    = "/app/temp/1b9d6bcd-bbfd-4b2d-9b5d-ab8dfbbd4bed/app/src/main/java/com/example/foo/MainActivity.java"
  ∧ Forall (λ op, fs_fault Demo.env_ok op = None)
      (Workspace.materialize_ops Demo.projectDir Demo.input)
  ∧ ∃ w' : world,
      createAndroidProject Demo.env_ok Demo.projectDir Demo.input Demo.start
      = (Ok tt, w')
      ∧ files w'
        !! "/app/temp/1b9d6bcd-bbfd-4b2d-9b5d-ab8dfbbd4bed/app/src/main/java/com/example/foo/MainActivity.java"
        = Some "public class MainActivity {}".
Proof.
  split; [reflexivity|].
  assert (Hall : Forall (λ op, fs_fault Demo.env_ok op = None)
                   (Workspace.materialize_ops Demo.projectDir Demo.input))
    by (apply Forall_forall; intros op _; reflexivity).
  destruct (package_identifier_and_source_path Demo.env_ok Demo.projectDir Demo.input
              eq_refl) as (Hiff & Hfirst & _ & _ & _ & _ & Hruns & Hpath).
  assert (Hm : PackageSpec.first_match (manifest Demo.input) "com.example.foo")
    by (apply Hiff; reflexivity).
  split; [exact (Hfirst _ Hm)|]. split; [exact (proj1 (Hpath Hm))|].
  split; [exact Hall|].
  destruct (Hruns Hall Demo.start) as (w' & Hrun & _ & Hfile).
  exists w'. split; [exact Hrun|]. exact Hfile.
Defined.

(** ** C10: where the main source file can end up *)

(** C10, as the code has it. For every manifest the path at which the main
    source file is written lies under the workspace of the request, and
    under its app/src/main/java directory: every dot of the extracted
    identifier becomes a slash, without any validation, so no [..] segment
    is left for the join to resolve. This holds for the workspace the handler
    builds whenever the service sits in a normal absolute directory and the
    identifier drawn is a plain name, and for every normal absolute project
    directory handed to [createAndroidProject]. *)
Theorem source_file_stays_in_workspace e manifest :
  Path.normal_abs (__dirname e) = true →
  Path.plain_name (uuidv4 e) = true →
  Path.under (workspace e) (source_file (workspace e) (packagePath_of manifest)) = true
  ∧ Path.under (workspace e +:+ "/app/src/main/java")
      (source_file (workspace e) (packagePath_of manifest)) = true
  ∧ JsString.all_chars (λ a, negb (JsString.is_dot a)) (packagePath_of manifest) = true
  ∧ (∀ projectDir,
       Path.normal_abs projectDir = true →
       Path.under projectDir (source_file projectDir (packagePath_of manifest)) = true).
Proof.
  intros Hdir Hid.
  destruct (workspace_normal e Hdir Hid) as [_ Hws].
  destruct (source_file_under (workspace e) manifest Hws) as [H1 H2].
  split; [exact H1|]. split; [exact H2|].
  split; [apply replace_dots_no_dot|].
  intros projectDir Hp. apply (source_file_under projectDir manifest Hp).
Qed.

Lemma source_file_stays_in_workspace_witness :
  Path.normal_abs (__dirname Demo.env_ok) = true
  ∧ Path.plain_name (uuidv4 Demo.env_ok) = true
  ∧ Path.under (workspace Demo.env_ok)
      (source_file (workspace Demo.env_ok)
         (packagePath_of (Demo.manifest_of "../../x"))) = true.
Proof.
  split; [reflexivity|]. split; [reflexivity|].
  apply (source_file_stays_in_workspace Demo.env_ok (Demo.manifest_of "../../x"));
    reflexivity.
Defined.

(** The manifest with the package attribute [../../x]:
    the identifier is taken as it is, its dots become slashes, and the
    source file lands in the java directory of the workspace. No manifest
    and no normal absolute workspace give a path outside the workspace. *)
Lemma traversal_manifest_stays_inside :
  packageName_of (Demo.manifest_of "../../x") = "../../x"
  ∧ packagePath_of (Demo.manifest_of "../../x") = "//////x"
  ∧ source_file Demo.projectDir (packagePath_of (Demo.manifest_of "../../x"))
    = "/app/temp/1b9d6bcd-bbfd-4b2d-9b5d-ab8dfbbd4bed/app/src/main/java/x/MainActivity.java"
  ∧ Path.under Demo.projectDir
      (source_file Demo.projectDir (packagePath_of (Demo.manifest_of "../../x"))) = true
  ∧ ¬ (∃ projectDir manifest,
         Path.normal_abs projectDir = true
         ∧ Path.under projectDir
             (source_file projectDir (packagePath_of manifest)) = false).
Proof.
  repeat split; try reflexivity.
  intros (projectDir & manifest & Hdir & Hout).
  destruct (source_file_under projectDir manifest Hdir) as [Hin _].
  congruence.
Qed.

(** ** C3: how the build is resolved *)

(** C3. Once the launcher has been spawned, the result of [compileAPK] is
    decided by the exit code of the child and by whether the artifact is
    there when the child closes, at the path joined from the workspace and
    app/build/outputs/apk/release/app-release-unsigned.apk: exit code zero
    and the artifact present give that path; exit code zero and the artifact
    absent give the error APK file not found after build; any other exit
    code gives an error that carries the code and everything the child wrote
    to its standard error, in order. *)
Theorem build_outcome_trichotomy e projectDir appName (w : world) run w1 :
  launch e projectDir w = (Ok run, w1) →
  let apkPath :=
    Path.join [projectDir; "app/build/outputs/apk/release/app-release-unsigned.apk"] in
  let present :=
    Fs.exists_in (Fs.leave (produced run) (files w1)) (dirs w1) apkPath in
  (exit_code run = Some 0 → present = true →
   (compileAPK e projectDir appName w).1 = Ok apkPath)
  ∧ (exit_code run = Some 0 → present = false →
     (compileAPK e projectDir appName w).1 = Throw "APK file not found after build")
  ∧ (∀ code, exit_code run = Some code → code ≠ 0 →
     (compileAPK e projectDir appName w).1
     = Throw ("Gradle build failed with code " +:+ pretty code +:+ ": "
              +:+ Trace.accumulated Stderr (output run)))
  ∧ (exit_code run = None →
     (compileAPK e projectDir appName w).1
     = Throw ("Gradle build failed with code null: "
              +:+ Trace.accumulated Stderr (output run)))
  ∧ (Path.normal_abs projectDir = true →
     apkPath
     = projectDir +:+ "/app/build/outputs/apk/release/app-release-unsigned.apk").
Proof.
  intros Hlaunch. cbv zeta.
  rewrite (compileAPK_launched e projectDir appName w run w1 Hlaunch).
  rewrite await_child_outcome. unfold apk_relative.
  split; [intros Hc Hp; rewrite Hc, Hp; reflexivity|].
  split; [intros Hc Hp; rewrite Hc, Hp; reflexivity|].
  split; [intros code Hc Hcode; rewrite Hc; by destruct code|].
  split; [intros Hc; rewrite Hc; reflexivity|].
  intros Hdir.
  rewrite join_plain_rel by (assumption || reflexivity). reflexivity.
Qed.

Lemma build_outcome_trichotomy_witness :
  launch Demo.env_build_fails Demo.projectDir Demo.start
  = (Ok (Demo.build_fails "" "" ∅),
     (launch Demo.env_build_fails Demo.projectDir Demo.start).2)
  ∧ (compileAPK Demo.env_build_fails Demo.projectDir "DemoApp" Demo.start).1
    = Throw "Gradle build failed with code 1: duplicate resource".
Proof.
  assert (H : launch Demo.env_build_fails Demo.projectDir Demo.start
              = (Ok (Demo.build_fails "" "" ∅),
                 (launch Demo.env_build_fails Demo.projectDir Demo.start).2))
    by (apply outcome_eta; vm_compute; reflexivity).
  split; [exact H|].
  destruct (build_outcome_trichotomy Demo.env_build_fails Demo.projectDir "DemoApp"
              Demo.start _ _ H) as (_ & _ & Hcode & _).
  apply (Hcode 1); [reflexivity|lia].
Defined.

(** ** A wrapper setup that rejects *)

(** X12. When the setup of the wrapper rejects (writing the launcher script,
    marking it executable, creating the wrapper directory, writing the
    wrapper configuration or fetching the wrapper binary), [compileAPK]
    rejects with the message of that error behind the prefix
    Failed to setup Gradle wrapper, in the world the setup left; among the
    events since the call there is no spawn. *)
Theorem wrapper_setup_failure e projectDir appName (w : world) msg w1 :
  createGradleWrapper e projectDir w = (Throw msg, w1) →
  compileAPK e projectDir appName w
  = (Throw ("Failed to setup Gradle wrapper: " +:+ msg), w1)
  ∧ ∃ new, trace w1 = trace w ++ new
           ∧ Forall (λ ev, Trace.is_spawn ev = false) new.
Proof.
  intros H. split.
  - apply (compileAPK_setup_throw e projectDir appName w msg w1 H).
  - apply (createGradleWrapper_emits e Trace.quiet projectDir (λ ev Hev, Hev) w _ _ H).
Qed.

Lemma wrapper_setup_failure_witness :
  createGradleWrapper Demo.env_not_found Demo.projectDir Demo.start
  = (Throw "Failed to download gradle-wrapper.jar: 404",
     (createGradleWrapper Demo.env_not_found Demo.projectDir Demo.start).2)
  ∧ (compileAPK Demo.env_not_found Demo.projectDir "DemoApp" Demo.start).1
    = Throw "Failed to setup Gradle wrapper: Failed to download gradle-wrapper.jar: 404".
Proof.
  assert (H : createGradleWrapper Demo.env_not_found Demo.projectDir Demo.start
              = (Throw "Failed to download gradle-wrapper.jar: 404",
                 (createGradleWrapper Demo.env_not_found Demo.projectDir Demo.start).2))
    by (apply outcome_eta; vm_compute; reflexivity).
  split; [exact H|].
  destruct (wrapper_setup_failure Demo.env_not_found Demo.projectDir "DemoApp"
              Demo.start _ _ H) as [-> _].
  reflexivity.
Defined.

(** ** C8: an exception of the fetch that rejects nothing *)

(** C8. The invoker at the failing input of C5: the server answers the
    request for the wrapper with a 302 whose Location is a relative
    address, and [client.get] throws for it inside the response callback.
    That exception is raised during the fetch of the wrapper binary, yet
    it reaches neither [reject] of [createGradleWrapper] nor the catch
    block of [compileAPK]: the invoker does not reject, with the prefix or
    without, and it does not return. The launcher is not spawned. The
    defect is the one of C5 and C6. *)
Theorem relative_redirect_not_rejected :
  (createGradleWrapper Scene.env_relative Demo.projectDir Demo.start).1
  = Uncaught "Invalid URL"
  ∧ (compileAPK Scene.env_relative Demo.projectDir "DemoApp" Demo.start).1
    = Uncaught "Invalid URL"
  ∧ (∀ msg, (compileAPK Scene.env_relative Demo.projectDir "DemoApp" Demo.start).1
            ≠ Throw msg)
  ∧ (∀ apkPath, (compileAPK Scene.env_relative Demo.projectDir "DemoApp" Demo.start).1
                ≠ Ok apkPath)
  ∧ Events.count Trace.is_spawn
      (trace (compileAPK Scene.env_relative Demo.projectDir "DemoApp" Demo.start).2)
    = 0.
Proof.
  assert (H : (compileAPK Scene.env_relative Demo.projectDir "DemoApp" Demo.start).1
              = Uncaught "Invalid URL") by (vm_compute; reflexivity).
  split; [vm_compute; reflexivity|]. split; [exact H|].
  split; [intros msg; rewrite H; discriminate|].
  split; [intros apkPath; rewrite H; discriminate|].
  vm_compute. reflexivity.
Qed.

(** ** The wrapper fetch, answer by answer *)

Section RedirectFacts.
Import JsString Trace.
Variable e : env.

Lemma redirect_status status :
  status = 301 ∨ status = 302 →
  (status =? 200) = false ∧ (status =? 302) || (status =? 301) = true.
Proof. by intros [-> | ->]. Qed.

Lemma downloadFile_redirect jar url n (w : world) response next :
  n ≤ 5 →
  http_get e n (client_for url) url = GetResponse response →
  statusCode response = 301 ∨ statusCode response = 302 →
  location response = Some next → next ≠ "" →
  downloadFile e jar url n w
  = downloadFile e jar next (n + 1)
      (emit (ELog Stdout ["Following redirect to: " +:+ next])
         (emit (EGet (client_for url) url) w)).
Proof.
  intros Hn Hget Hstatus Hloc Hnext.
  rewrite downloadFile_request by done. cbv zeta. rewrite Hget.
  destruct (redirect_status _ Hstatus) as [-> ->]. rewrite Hloc.
  by destruct next.
Qed.

(** [client.get] throws: a rejection when the call is the first one, an
    exception nobody catches when it is made for a redirect. No request is
    made. *)
Lemma downloadFile_get_throws jar url n (w : world) msg :
  n ≤ 5 →
  http_get e n (client_for url) url = GetThrows msg →
  downloadFile e jar url n w
  = (if n =? 0 then Throw msg else Uncaught msg, w).
Proof.
  intros Hn Hget. rewrite downloadFile_request by done. cbv zeta. rewrite Hget.
  by destruct (n =? 0).
Qed.

(** A stream error: the promise rejects with it, the partial file is
    unlinked, and the unlink leaves no file unless it fails itself. *)
Lemma save_response_failed jar payload written msg (w : world) :
  pipe e jar payload = Failed written msg →
  ∃ w', save_response e jar payload w = (Throw msg, w')
        ∧ trace w' = trace w ++ [EPipe jar (Some msg);
                                 EFs (Unlink jar) (fs_fault e (Unlink jar))]
        ∧ (fs_fault e (Unlink jar) = None → files w' !! jar = None).
Proof.
  intros Hpipe. unfold save_response. rewrite Hpipe.
  rewrite !bind_unfold. unfold try_catch, fs_call.
  destruct (fs_fault e (Unlink jar)) as [failure|]; eexists;
    (split; [reflexivity|]); (split; [cbn; by rewrite <- app_assoc|]).
  - done.
  - intros _. cbn. apply lookup_delete_eq.
Qed.

Lemma save_response_finished jar payload (w : world) :
  pipe e jar payload = Finished →
  ∃ w', save_response e jar payload w = (Ok tt, w')
        ∧ files w' !! jar = Some payload.
Proof.
  intros Hpipe. unfold save_response. rewrite Hpipe.
  rewrite !bind_unfold. eexists. split; [reflexivity|].
  cbn. apply lookup_insert_eq.
Qed.

End RedirectFacts.

(** X10. What each answer leads [downloadFile] to. However it ends, it
    has made at most six requests less the count it was called with. With a
    count above five it makes no request and rejects with Too many
    redirects. At a count of at most five: when [client.get] throws, no
    request is made, and the exception is a rejection at count zero (the
    call stands in the executor of the promise) and is caught by nobody at
    a higher count (the call stands in the callback of a response); a 301
    or 302 response with a non-empty Location header is followed, with the
    count increased by one; a 301 or 302 response without one rejects with
    Redirect without location header; any other status than 200 rejects
    with the status in the message; an error event on the request rejects
    with that error; a 200 response whose stream fails rejects with the
    stream's error after the file has been unlinked, which leaves no file
    unless the unlink fails; a 200 response whose stream finishes leaves
    the payload in the jar. *)
Theorem wrapper_fetch_bounded e jar url n (w : world) :
  (∃ new, trace (downloadFile e jar url n w).2 = trace w ++ new
          ∧ Trace.gets new ≤ 6 - n)
  ∧ (n > 5 → downloadFile e jar url n w = (Throw "Too many redirects", w))
  ∧ (n ≤ 5 →
     let w1 := emit (EGet (client_for url) url) w in
     (∀ msg,
        http_get e n (client_for url) url = GetThrows msg →
        downloadFile e jar url n w
        = (if n =? 0 then Throw msg else Uncaught msg, w))
     ∧ (∀ response next,
        http_get e n (client_for url) url = GetResponse response →
        statusCode response = 301 ∨ statusCode response = 302 →
        location response = Some next → next ≠ "" →
        downloadFile e jar url n w
        = downloadFile e jar next (n + 1)
            (emit (ELog Stdout ["Following redirect to: " +:+ next]) w1))
     ∧ (∀ response,
          http_get e n (client_for url) url = GetResponse response →
          statusCode response = 301 ∨ statusCode response = 302 →
          location response = None ∨ location response = Some "" →
          downloadFile e jar url n w
          = (Throw "Redirect without location header", w1))
     ∧ (∀ response,
          http_get e n (client_for url) url = GetResponse response →
          statusCode response ≠ 200 → statusCode response ≠ 301 →
          statusCode response ≠ 302 →
          downloadFile e jar url n w
          = (Throw ("Failed to download gradle-wrapper.jar: "
                    +:+ pretty (statusCode response)), w1))
     ∧ (∀ msg,
          http_get e n (client_for url) url = GetError msg →
          downloadFile e jar url n w = (Throw msg, w1))
     ∧ (∀ response written msg,
          http_get e n (client_for url) url = GetResponse response →
          statusCode response = 200 →
          pipe e jar (payload response) = Failed written msg →
          ∃ w', downloadFile e jar url n w = (Throw msg, w')
                ∧ trace w'
                  = trace w1 ++ [EPipe jar (Some msg);
                                 EFs (Unlink jar) (fs_fault e (Unlink jar))]
                ∧ (fs_fault e (Unlink jar) = None → files w' !! jar = None))
     ∧ (∀ response,
          http_get e n (client_for url) url = GetResponse response →
          statusCode response = 200 →
          pipe e jar (payload response) = Finished →
          ∃ w', downloadFile e jar url n w = (Ok tt, w')
                ∧ files w' !! jar = Some (payload response))).
Proof.
  split.
  { destruct (downloadFile e jar url n w) as [r w'] eqn:E.
    destruct (downloadFile_bounded e (λ _, True) jar (λ _ _, I) (6 - n) n url w r w'
                (le_n _) E) as (new & Hnew & _ & Hgets).
    by exists new. }
  split; [apply downloadFile_too_many|].
  intros Hn. cbv zeta.
  split; [intros msg; by apply downloadFile_get_throws|].
  split; [intros response next; by apply downloadFile_redirect|].
  split.
  { intros response Hget Hstatus Hloc.
    rewrite downloadFile_request by done. cbv zeta. rewrite Hget.
    destruct (redirect_status _ Hstatus) as [-> ->].
    by destruct Hloc as [-> | ->]. }
  split.
  { intros response Hget H200 H301 H302.
    rewrite downloadFile_request by done. cbv zeta. rewrite Hget.
    apply Nat.eqb_neq in H200, H301, H302. by rewrite H200, H301, H302. }
  split.
  { intros msg Hget. rewrite downloadFile_request by done. cbv zeta.
    by rewrite Hget. }
  split.
  { intros response written msg Hget H200 Hpipe.
    rewrite downloadFile_request by done. cbv zeta. rewrite Hget, H200.
    change (200 =? 200) with true. cbv iota.
    apply (save_response_failed e jar (payload response) written msg _ Hpipe). }
  intros response Hget H200 Hpipe.
  rewrite downloadFile_request by done. cbv zeta. rewrite Hget, H200.
  change (200 =? 200) with true. cbv iota.
  apply (save_response_finished e jar (payload response) _ Hpipe).
Qed.

(** A server that redirects for ever: the setup of the wrapper gives up
    after six requests. *)
Example redirect_loop_gives_up :
  (createGradleWrapper Demo.env_loop Demo.projectDir Demo.start).1
  = Throw "Too many redirects"
  ∧ Trace.gets (trace (createGradleWrapper Demo.env_loop Demo.projectDir Demo.start).2)
    = 6.
Proof. split; vm_compute; reflexivity. Qed.

(** The wrapper served after two redirects: three requests, and the jar is
    there. *)
Example served_after_two_redirects :
  (createGradleWrapper Demo.env_ok Demo.projectDir Demo.start).1 = Ok tt
  ∧ Trace.gets (trace (createGradleWrapper Demo.env_ok Demo.projectDir Demo.start).2)
    = 3
  ∧ files (createGradleWrapper Demo.env_ok Demo.projectDir Demo.start).2
      !! (Demo.projectDir +:+ "/gradle/wrapper/gradle-wrapper.jar") = Some "JAR".
Proof. repeat split; vm_compute; reflexivity. Qed.

(** ** C5: a redirect to an address the client does not take *)

(** C5. The fetch at the failing input: the server answers the request for
    the wrapper with a 302 whose Location is a relative address. The code
    logs that it follows the redirect and calls [client.get] with that
    address; the call throws in the callback of the response, where nothing
    catches the exception. One request has been made; the fetch has neither
    followed the redirect nor failed with an error of its own: the promise
    is never settled, and the setup of the wrapper with it. *)
Theorem relative_redirect_never_settles :
  (downloadFile Scene.env_relative "/w/gradle-wrapper.jar" jarUrl 0 Demo.start).1
  = Uncaught "Invalid URL"
  ∧ trace (downloadFile Scene.env_relative "/w/gradle-wrapper.jar" jarUrl 0
             Demo.start).2
    = [ EGet Https jarUrl;
        ELog Stdout ["Following redirect to: " +:+ Scene.relative_location] ]
  ∧ (createGradleWrapper Scene.env_relative Demo.projectDir Demo.start).1
    = Uncaught "Invalid URL".
Proof. repeat split; vm_compute; reflexivity. Qed.

(** ** Failures that reach the catch block *)

(** X11. For every request that passes validation: when the
    materialization throws, or when it succeeds and [compileAPK] throws (a
    wrapper setup or a build that rejects), the handler logs the error,
    answers with status 500 and the body whose [error] is APK compilation
    failed and whose [details] is the message of the error, and then
    attempts to remove the workspace. A failure of the removal is logged and
    goes no further: the handler ends normally either way. *)
Theorem failure_answered_and_cleaned e body (w : world) msg w1 :
  rejected body = false →
  createAndroidProject e (workspace e) (input_of body) (emit (EUuid (uuidv4 e)) w)
  = (Throw msg, w1)
  ∨ (∃ wm,
       createAndroidProject e (workspace e) (input_of body)
         (emit (EUuid (uuidv4 e)) w) = (Ok tt, wm)
       ∧ compileAPK e (workspace e) (appName (input_of body)) wm = (Throw msg, w1)) →
  ∃ w2,
    compile_apk e body w = (Ok tt, w2)
    ∧ trace w2
      = trace w1
        ++ [ ELog Stderr ["Compilation error:"; msg];
             ERespond (Json 500 [("error", "APK compilation failed");
                                 ("details", msg)]);
             EFs (Remove (workspace e)) (fs_fault e (Remove (workspace e))) ]
        ++ match fs_fault e (Remove (workspace e)) with
           | Some failure => [ELog Stderr [failure]]
           | None => []
           end
    ∧ timers w2 = timers w1.
Proof.
  intros Hacc Hfail. rewrite (compile_apk_accepted e body w Hacc).
  destruct Hfail as [H|(wm & Hm & H)].
  - rewrite H. apply on_error_result.
  - rewrite Hm, H. apply on_error_result.
Qed.

Lemma failure_answered_and_cleaned_witness :
  rejected Demo.body = false
  ∧ (∃ msg w2,
       compile_apk Demo.env_build_fails Demo.body Demo.start = (Ok tt, w2)
       ∧ msg = "Gradle build failed with code 1: duplicate resource"
       ∧ ERespond (Json 500 [("error", "APK compilation failed"); ("details", msg)])
         ∈ trace w2).
Proof.
  split; [reflexivity|].
  set (w0 := emit (EUuid (uuidv4 Demo.env_build_fails)) Demo.start).
  set (m := createAndroidProject Demo.env_build_fails (workspace Demo.env_build_fails)
              (input_of Demo.body) w0).
  set (c := compileAPK Demo.env_build_fails (workspace Demo.env_build_fails)
              (appName (input_of Demo.body)) m.2).
  assert (Hm : m = (Ok tt, m.2)) by (apply outcome_eta; vm_compute; reflexivity).
  assert (Hc : c = (Throw "Gradle build failed with code 1: duplicate resource", c.2))
    by (apply outcome_eta; vm_compute; reflexivity).
  destruct (failure_answered_and_cleaned Demo.env_build_fails Demo.body Demo.start
              "Gradle build failed with code 1: duplicate resource" c.2 eq_refl)
    as (w2 & Hw2 & Htrace & _).
  { right. exists m.2. split; [exact Hm|exact Hc]. }
  exists "Gradle build failed with code 1: duplicate resource", w2.
  split; [exact Hw2|]. split; [reflexivity|].
  rewrite Htrace. apply elem_of_app. right. apply elem_of_app. left.
  apply list_elem_of_further, list_elem_of_here.
Defined.

(** ** C6: a failure that does not reach the catch block *)

(** C6. The handler at the failing input of C5: the request passes
    validation and the workspace is materialized, then the server answers
    the request for the wrapper with a 302 whose Location is a relative
    address. The exception [client.get] throws for it is caught by nobody:
    the request fails without an answer (no response is sent, so no 500)
    and without a call of [fs.remove], and the workspace stays on the
    disk. The defect is the one of C5 and C8. *)
Theorem relative_redirect_unanswered :
  rejected Demo.body = false
  ∧ (compile_apk Scene.env_relative Demo.body Demo.start).1 = Uncaught "Invalid URL"
  ∧ Events.count Events.is_respond
      (trace (compile_apk Scene.env_relative Demo.body Demo.start).2) = 0
  ∧ Events.count Events.is_removal
      (trace (compile_apk Scene.env_relative Demo.body Demo.start).2) = 0
  ∧ timers (compile_apk Scene.env_relative Demo.body Demo.start).2 = []
  ∧ files (compile_apk Scene.env_relative Demo.body Demo.start).2
      !! (Demo.projectDir +:+ "/app/src/main/AndroidManifest.xml")
    = Some (Demo.manifest_of "com.example.foo").
Proof. repeat split; vm_compute; reflexivity. Qed.

(** ** C7: the package is sent *)

Section BaseName.
Import JsString Path.





End BaseName.




(** ** C9: an empty application name *)

(** C9. When the body carries the field [appName] with the empty string as
    its value, the default GeneratedApp is not applied: the name the handler
    uses is the empty string. On a request that then succeeds the handler
    ends with the call of [res.download] for the artifact under the name
    .apk; it returns, and when the transfer completes the download has been
    offered under that name. The materializer has written strings.xml with
    an empty [app_name] resource and settings.gradle with an empty root
    project name. *)
Theorem empty_app_name_used_as_given e body (w : world) wm apkPath w2 bytes :
  body_appName body = Some "" →
  rejected body = false →
  createAndroidProject e (workspace e) (input_of body) (emit (EUuid (uuidv4 e)) w)
  = (Ok tt, wm) →
  compileAPK e (workspace e) (appName (input_of body)) wm = (Ok apkPath, w2) →
  files w2 !! apkPath = Some bytes →
  appName (input_of body) = ""
  ∧ compile_apk e body w
    = download e apkPath ".apk" (after_download (workspace e)) w2
  ∧ (∃ w3, compile_apk e body w = (Ok tt, w3)
           ∧ (send_fault e = None →
              ERespond (Download 200 ".apk" bytes) ∈ trace w3))
  ∧ EFs (WriteFile (Path.join [workspace e; "app/src/main/res/values/strings.xml"])
           (Templates.stringsXml "")) None ∈ trace wm
  ∧ EFs (WriteFile (Path.join [workspace e; "settings.gradle"])
           (Templates.settingsGradle "")) None ∈ trace wm
  ∧ JsString.includes (Templates.stringsXml "")
      ("<string name=" +:+ JsString.dq +:+ "app_name" +:+ JsString.dq
       +:+ "></string>") = true
  ∧ JsString.includes (Templates.settingsGradle "")
      ("rootProject.name = " +:+ JsString.dq +:+ JsString.dq) = true.
Proof.
  intros Hname Hacc Hm Hc Hfile.
  assert (Happ : appName (input_of body) = "").
  { unfold input_of. cbn [appName]. by rewrite Hname. }
  split; [exact Happ|]. split.
  { rewrite (compile_apk_accepted e body w Hacc), Hm, Hc, Happ. reflexivity. }
  split.
  { rewrite (compile_apk_accepted e body w Hacc), Hm, Hc.
    destruct (download_sent e (workspace e) apkPath
                (appName (input_of body) +:+ ".apk") bytes w2 Hfile)
      as (w3 & -> & Htrace & _).
    exists w3. split; [reflexivity|]. intros Hsend.
    rewrite Htrace, Happ, Hsend.
    apply elem_of_app. right. apply list_elem_of_here. }
  apply createAndroidProject_Ok in Hm as (_ & _ & Htrace).
  rewrite Htrace.
  assert (Hstrings :
    Workspace.calls (Workspace.materialize_ops (workspace e) (input_of body)) !! 12
    = Some (EFs (WriteFile
                   (Path.join [workspace e; "app/src/main/res/values/strings.xml"])
                   (Templates.stringsXml (appName (input_of body)))) None))
    by reflexivity.
  assert (Hsettings :
    Workspace.calls (Workspace.materialize_ops (workspace e) (input_of body)) !! 16
    = Some (EFs (WriteFile (Path.join [workspace e; "settings.gradle"])
                   (Templates.settingsGradle (appName (input_of body)))) None))
    by reflexivity.
  rewrite Happ in Hstrings, Hsettings.
  split.
  { apply elem_of_app. right. exact (list_elem_of_lookup_2 _ 12 _ Hstrings). }
  split.
  { apply elem_of_app. right. exact (list_elem_of_lookup_2 _ 16 _ Hsettings). }
  split; vm_compute; reflexivity.
Qed.

Lemma empty_app_name_used_as_given_witness :
  body_appName Demo.body_unnamed = Some ""
  ∧ rejected Demo.body_unnamed = false
  ∧ (∃ w3, compile_apk Demo.env_ok Demo.body_unnamed Demo.start = (Ok tt, w3)
           ∧ ERespond (Download 200 ".apk" "APKBYTES") ∈ trace w3).
Proof.
  split; [reflexivity|]. split; [reflexivity|].
  set (w0 := emit (EUuid (uuidv4 Demo.env_ok)) Demo.start).
  set (m := createAndroidProject Demo.env_ok (workspace Demo.env_ok)
              (input_of Demo.body_unnamed) w0).
  set (c := compileAPK Demo.env_ok (workspace Demo.env_ok)
              (appName (input_of Demo.body_unnamed)) m.2).
  assert (Hm : m = (Ok tt, m.2)) by (apply outcome_eta; vm_compute; reflexivity).
  assert (Hc : c = (Ok Demo.apkPath, c.2))
    by (apply outcome_eta; vm_compute; reflexivity).
  assert (Hfile : files c.2 !! Demo.apkPath = Some "APKBYTES")
    by (vm_compute; reflexivity).
  destruct (empty_app_name_used_as_given Demo.env_ok Demo.body_unnamed Demo.start
              m.2 Demo.apkPath c.2 "APKBYTES" eq_refl eq_refl Hm Hc Hfile)
    as (_ & _ & (w3 & Hrun & Hsent) & _).
  exists w3. split; [exact Hrun|exact (Hsent eq_refl)].
Defined.

(** The default applies when the field is absent. *)
Lemma default_app_name_when_absent body :
  body_appName body = None → appName (input_of body) = "GeneratedApp".
Proof. intros H. unfold input_of. cbn [appName]. by rewrite H. Qed.

(** ** C4: the workspace is materialized before the build *)

Section MaterializedFirst.
Import Trace Workspace.
Variable e : env.





End MaterializedFirst.



(** When the disk fills up while strings.xml is written, the request is
    answered with 500 and the message of the error, and the launcher is
    never spawned. *)
Example disk_full_aborts :
  ∃ w2, compile_apk Demo.env_disk_full Demo.body Demo.start = (Ok tt, w2)
        ∧ ERespond (Json 500 [("error", "APK compilation failed");
                              ("details", "ENOSPC: no space left on device, write")])
          ∈ trace w2
        ∧ Forall (λ ev, Trace.is_spawn ev = false ∧ Trace.is_get ev = false) (trace w2).
Proof.
  eexists. split; [apply outcome_eta; vm_compute; reflexivity|].
  split.
  - vm_compute. apply (list_elem_of_lookup_2 _ 15). reflexivity.
  - vm_compute. repeat constructor.
Qed.

(** * Further properties of the code *)

(** ** Counting events *)

Section CountFacts.
Import Trace Events.

Lemma count_cons f ev t : count f (ev :: t) = (if f ev then 1 else 0) + count f t.
Proof.
  unfold count. rewrite filter_cons.
  destruct (f ev); [by rewrite decide_True|by rewrite decide_False].
Qed.

Lemma count_app f t1 t2 : count f (t1 ++ t2) = count f t1 + count f t2.
Proof. unfold count. by rewrite filter_app, length_app. Qed.

Lemma count_none f t : Forall (λ ev, f ev = false) t → count f t = 0.
Proof.
  induction 1 as [|ev t Hev _ IH]; [reflexivity|].
  by rewrite count_cons, Hev, IH.
Qed.

Lemma count_gets t : count is_get t = gets t.
Proof. reflexivity. Qed.

(** A class of events that contains none of a kind counts none of it. *)
Lemma count_class (cls f : event → bool) t :
  (∀ ev, cls ev = true → f ev = false) →
  Forall (λ ev, cls ev = true) t → count f t = 0.
Proof.
  intros H Ht. apply count_none. eapply Forall_impl; [exact Ht|exact H].
Qed.

End CountFacts.

(** ** What each function adds to the trace *)

Section EventClasses.
Import JsString Trace Events.
Variable e : env.

Lemma save_response_class jar payload :
  emits (λ ev, wrapper_event ev = true ∧ is_get ev = false)
    (save_response e jar payload).
Proof.
  unfold save_response. destruct (pipe e jar payload) as [|written msg].
  - apply emits_bind.
    + intros w r w' [= <- <-]. eexists [_]. split; [reflexivity|].
      by repeat constructor.
    + intros _. by apply emits_observe.
  - apply emits_bind.
    + intros w r w' [= <- <-]. eexists [_]. split; [reflexivity|].
      by repeat constructor.
    + intros _. apply emits_bind; [|intros _; apply emits_throw].
      apply emits_try_catch; [|intros _; apply emits_ret].
      by apply emits_fs_call.
Qed.

(** A download adds requests, log lines, the pipe and the unlink, and
    nothing else. *)
Lemma downloadFile_class jar :
  ∀ k n url (w : world) r w',
    6 - n ≤ k →
    downloadFile e jar url n w = (r, w') →
    ∃ new, trace w' = trace w ++ new ∧ Forall (λ ev, wrapper_event ev = true) new.
Proof.
  induction k as [|k IH]; intros n url w r w' Hk.
  - rewrite downloadFile_too_many by lia. intros [= <- <-].
    exists []. by rewrite app_nil_r.
  - destruct (le_gt_dec n 5) as [Hn|Hn].
    2:{ rewrite downloadFile_too_many by lia. intros [= <- <-].
        exists []. by rewrite app_nil_r. }
    rewrite downloadFile_request by lia. cbv zeta.
    assert (Hone : ∃ new, trace (emit (EGet (client_for url) url) w) = trace w ++ new
                          ∧ Forall (λ ev, wrapper_event ev = true) new).
    { exists [EGet (client_for url) url]. split; [reflexivity|]. by repeat constructor. }
    destruct (http_get e n (client_for url) url) as [msg|msg|response].
    { destruct (n =? 0); intros [= <- <-]; exists []; by rewrite app_nil_r. }
    { intros [= <- <-]. exact Hone. }
    destruct (statusCode response =? 200).
    { intros H. apply save_response_class in H as (new & Hnew & HF).
      exists (EGet (client_for url) url :: new). cbn [trace emit] in Hnew.
      rewrite Hnew, <- app_assoc. split; [reflexivity|].
      constructor; [reflexivity|]. eapply Forall_impl; [exact HF|]. by intros ? [? _]. }
    destruct ((statusCode response =? 302) || (statusCode response =? 301)).
    2:{ intros [= <- <-]. exact Hone. }
    destruct (location response) as [redirectUrl|].
    2:{ intros [= <- <-]. exact Hone. }
    destruct (is_empty redirectUrl).
    { intros [= <- <-]. exact Hone. }
    intros H. apply IH in H as (new & Hnew & HF); [|lia].
    exists (EGet (client_for url) url
            :: ELog Stdout ["Following redirect to: " +:+ redirectUrl] :: new).
    cbn [trace emit] in Hnew. rewrite Hnew, <- !app_assoc. split; [reflexivity|].
    constructor; [reflexivity|]. constructor; [reflexivity|exact HF].
Qed.

(** [createGradleWrapper] is its four calls, then the download. *)
Lemma createGradleWrapper_ops projectDir (w : world) :
  createGradleWrapper e projectDir w
  = match for_each (wrapper_ops projectDir) (fs_call e) w with
    | (Ok _, w1) =>
        downloadFile e (Path.join [projectDir; "gradle/wrapper/gradle-wrapper.jar"])
          jarUrl 0 w1
    | (Throw msg, w1) => (Throw msg, w1)
    | (Uncaught msg, w1) => (Uncaught msg, w1)
    end.
Proof.
  unfold createGradleWrapper, wrapper_ops. cbn [for_each].
  rewrite !bind_unfold.
  repeat (match goal with
          | |- context [fs_call e ?op ?w0] =>
              destruct (fs_call e op w0) as [[[]|?|?] ?]; [|reflexivity..]
          end; rewrite ?bind_unfold).
  reflexivity.
Qed.

(** The setup of the wrapper: its class of events, and at most six
    requests among them. *)
Lemma createGradleWrapper_profile projectDir (w : world) r w' :
  createGradleWrapper e projectDir w = (r, w') →
  ∃ new, trace w' = trace w ++ new
         ∧ Forall (λ ev, wrapper_event ev = true) new
         ∧ gets new ≤ 6.
Proof.
  rewrite createGradleWrapper_ops.
  destruct (for_each (wrapper_ops projectDir) (fs_call e) w)
    as [[[]|msg|msg] w1] eqn:Hops.
  3:{ by apply run_ops_inv in Hops. }
  - apply run_ops_inv in Hops as [_ ->]. intros H.
    pose proof H as H'.
    apply (downloadFile_class _ 6) in H as (new & Hnew & HF); [|lia].
    apply (downloadFile_bounded e (λ _, True) _ (λ _ _, I) 6) in H'
      as (new' & Hnew' & _ & Hgets); [|lia].
    rewrite Hnew in Hnew'. apply app_inv_head in Hnew'. subst new'.
    rewrite performed_all_trace in Hnew.
    exists (Workspace.calls (wrapper_ops projectDir) ++ new).
    split; [by rewrite Hnew, app_assoc|]. split.
    + apply Forall_app. split; [by repeat constructor|exact HF].
    + change (gets ?t) with (count is_get t). rewrite count_app.
      rewrite (count_class is_fs is_get); [exact Hgets|by intros []|].
      apply Forall_fmap. by apply Forall_true.
  - intros [= <- <-]. apply run_ops_inv in Hops
      as (done & op & rest & Hops & _ & Hop & ->).
    exists (Workspace.calls done ++ [EFs op (Some msg)]).
    cbn [trace emit]. rewrite performed_all_trace, <- app_assoc.
    split; [reflexivity|].
    assert (HF : Forall (λ ev, is_fs ev = true)
                   (Workspace.calls done ++ [EFs op (Some msg)])).
    { apply Forall_app. split; [|by repeat constructor].
      apply Forall_fmap. by apply Forall_true. }
    split.
    + eapply Forall_impl; [exact HF|]. intros ev Hev. by destruct ev.
    + change (gets ?t) with (count is_get t). rewrite (count_class is_fs); [lia| |exact HF].
      intros ev Hev. by destruct ev.
Qed.

Lemma await_child_class projectDir run :
  emits (λ ev, child_event ev = true) (await_child projectDir run).
Proof.
  unfold await_child. apply emits_bind; [by apply on_data_emits|intros acc].
  apply emits_bind; [|intros _; by apply on_close_emits].
  intros w r w' [= <- <-]. eexists [_]. split; [reflexivity|]. by repeat constructor.
Qed.

(** [compileAPK]: its class of events, at most one spawn, at most six
    requests, and every request before the spawn. *)
Lemma compileAPK_profile projectDir appName (w : world) r w' :
  compileAPK e projectDir appName w = (r, w') →
  ∃ new, trace w' = trace w ++ new
         ∧ Forall (λ ev, build_event ev = true) new
         ∧ count is_spawn new ≤ 1 ∧ gets new ≤ 6.
Proof.
  destruct (createGradleWrapper e projectDir w) as [[[]|msg|msg] w0] eqn:Hsetup.
  - destruct (launch e projectDir w) as [rl wl] eqn:Hlaunch.
    pose proof (launch_inv e projectDir w rl wl Hlaunch) as Hinv.
    destruct rl as [run|msg|msg]; [|congruence..].
    destruct Hinv as (w0' & Hw0 & _ & ->). rewrite Hsetup in Hw0.
    injection Hw0 as <-.
    rewrite (compileAPK_launched e projectDir appName w run _ Hlaunch).
    intros Hchild. apply await_child_class in Hchild as (cnew & Hcnew & HcF).
    apply createGradleWrapper_profile in Hsetup as (wnew & Hwnew & HwF & Hgets).
    cbn [trace emit] in Hcnew.
    exists (wnew ++ ESpawn (if win32 e then "gradlew.bat" else "./gradlew")
                      gradle_args projectDir :: cnew).
    split; [rewrite Hcnew, Hwnew, <- !app_assoc; reflexivity|]. split.
    + apply Forall_app. split.
      * eapply Forall_impl; [exact HwF|]. intros ev Hev. unfold build_event.
        by rewrite Hev.
      * constructor; [reflexivity|]. eapply Forall_impl; [exact HcF|].
        intros ev Hev. unfold build_event. rewrite Hev. by rewrite orb_true_r.
    + rewrite count_app, count_cons. cbn [is_spawn].
      rewrite (count_class wrapper_event is_spawn wnew);
        [|by intros []|exact HwF].
      rewrite (count_class child_event is_spawn cnew);
        [|by intros []|exact HcF].
      split; [lia|].
      change (gets ?t) with (count is_get t).
      rewrite count_app, count_cons. cbn [is_get].
      rewrite (count_class child_event is_get cnew); [|by intros []|exact HcF].
      change (count is_get wnew) with (gets wnew). lia.
  - rewrite (compileAPK_setup_throw e projectDir appName w msg w0 Hsetup).
    intros [= <- <-].
    apply createGradleWrapper_profile in Hsetup as (wnew & Hwnew & HwF & Hgets).
    exists wnew. split; [exact Hwnew|]. split.
    + eapply Forall_impl; [exact HwF|]. intros ev Hev. unfold build_event.
      by rewrite Hev.
    + rewrite (count_class wrapper_event is_spawn wnew); [|by intros []|exact HwF].
      split; [lia|exact Hgets].
  - rewrite (compileAPK_setup_uncaught e projectDir appName w msg w0 Hsetup).
    intros [= <- <-].
    apply createGradleWrapper_profile in Hsetup as (wnew & Hwnew & HwF & Hgets).
    exists wnew. split; [exact Hwnew|]. split.
    + eapply Forall_impl; [exact HwF|]. intros ev Hev. unfold build_event.
      by rewrite Hev.
    + rewrite (count_class wrapper_event is_spawn wnew); [|by intros []|exact HwF].
      split; [lia|exact Hgets].
Qed.

End EventClasses.

(** ** What one request can cost, and how it is answered *)

Section RequestProfile.
Import JsString Trace Events.
Variable e : env.

(** A download of a file that is not there: the error goes to the callback,
    nothing is sent, and the removal is scheduled all the same. *)
Lemma download_missing projectDir path filename (w : world) :
  files w !! path = None →
  ∃ w' failure,
    download e path filename (after_download projectDir) w = (Ok tt, w')
    ∧ trace w' = trace w ++ [ELog Stderr ["Download error:"; failure]; ESetTimeout 5000]
    ∧ timers w' = timers w ++ [(5000, projectDir)]
    ∧ files w' = files w ∧ dirs w' = dirs w.
Proof.
  intros Hfile. unfold download. rewrite Hfile.
  unfold after_download. rewrite !bind_unfold. cbn [console_error observe].
  eexists _, _. split; [reflexivity|]. cbn. rewrite <- app_assoc. by repeat split.
Qed.

Lemma on_error_closing projectDir msg (w : world) :
  ∃ w' new, on_error e projectDir msg w = (Ok tt, w')
            ∧ trace w' = trace w ++ new ∧ closing_events new
            ∧ count is_respond new = 1.
Proof.
  destruct (on_error_result e projectDir msg w) as (w' & Hrun & Htrace & _).
  eexists w', _. split; [exact Hrun|]. split; [exact Htrace|].
  destruct (fs_fault e (Remove projectDir)) as [failure|]; cbn [app];
    (split; [split; [by repeat constructor|split; [vm_compute; lia|by repeat constructor]]|]);
    reflexivity.
Qed.

Lemma download_closing projectDir path filename (w : world) :
  ∃ w' new, download e path filename (after_download projectDir) w = (Ok tt, w')
            ∧ trace w' = trace w ++ new ∧ closing_events new.
Proof.
  destruct (files w !! path) as [bytes|] eqn:Hfile.
  - destruct (download_sent e projectDir path filename bytes w Hfile)
      as (w' & Hrun & Htrace & _).
    eexists w', _. split; [exact Hrun|]. split; [exact Htrace|].
    destruct (send_fault e) as [failure|]; cbn [app];
      (split; [by repeat constructor|split; [vm_compute; lia|by repeat constructor]]).
  - destruct (download_missing projectDir path filename w Hfile)
      as (w' & failure & Hrun & Htrace & _).
    eexists w', _. split; [exact Hrun|]. split; [exact Htrace|].
    split; [by repeat constructor|split; [vm_compute; lia|by repeat constructor]].
Qed.

Lemma closing_events_nil : closing_events [].
Proof. split; [constructor|]. split; [vm_compute; lia|constructor]. Qed.

(** The whole handler, stage by stage: what was added to the trace before
    the last stage is made of file-system calls and build events, and the
    last stage, when the handler gets there, closes the request. *)
Lemma compile_apk_stages body (w : world) :
  rejected body = false →
  ∃ r w' early late,
    compile_apk e body w = (r, w')
    ∧ trace w' = trace w ++ EUuid (uuidv4 e) :: early ++ late
    ∧ Forall (λ ev, is_fs ev = true ∨ build_event ev = true) early
    ∧ count is_spawn early ≤ 1 ∧ gets early ≤ 6
    ∧ closing_events late.
Proof.
  intros Hacc. rewrite (compile_apk_accepted e body w Hacc).
  destruct (createAndroidProject e (workspace e) (input_of body)
              (emit (EUuid (uuidv4 e)) w)) as [[[]|msg|msg] wm] eqn:Hm;
    destruct (createAndroidProject_emits e _ _ _ _ _ Hm) as (mnew & Hmnew & HmF);
    cbn [trace emit] in Hmnew.
  3:{ by apply createAndroidProject_caught in Hm. }
  - destruct (compileAPK e (workspace e) (appName (input_of body)) wm)
      as [[apkPath|msg|msg] w2] eqn:Hc;
      destruct (compileAPK_profile e _ _ _ _ _ Hc) as (cnew & Hcnew & HcF & Hsp & Hg).
    + destruct (download_closing (workspace e) apkPath
                  (appName (input_of body) +:+ ".apk") w2)
        as (w' & late & Hrun & Htrace & Hclosing).
      exists (Ok tt), w', (mnew ++ cnew), late. split; [exact Hrun|].
      split; [rewrite Htrace, Hcnew, Hmnew, <- !app_assoc; reflexivity|].
      split; [apply Forall_app; split;
              [eapply Forall_impl; [exact HmF|]; by left
              |eapply Forall_impl; [exact HcF|]; by right]|].
      split; [rewrite count_app, (count_class is_fs is_spawn mnew); [lia|by intros []|exact HmF]|].
      split; [change (gets ?t) with (count is_get t);
              rewrite count_app, (count_class is_fs is_get mnew); [exact Hg|by intros []|exact HmF]|].
      exact Hclosing.
    + destruct (on_error_closing (workspace e) msg w2)
        as (w' & late & Hrun & Htrace & Hclosing & Hone).
      exists (Ok tt), w', (mnew ++ cnew), late. split; [exact Hrun|].
      split; [rewrite Htrace, Hcnew, Hmnew, <- !app_assoc; reflexivity|].
      split; [apply Forall_app; split;
              [eapply Forall_impl; [exact HmF|]; by left
              |eapply Forall_impl; [exact HcF|]; by right]|].
      split; [rewrite count_app, (count_class is_fs is_spawn mnew); [lia|by intros []|exact HmF]|].
      split; [change (gets ?t) with (count is_get t);
              rewrite count_app, (count_class is_fs is_get mnew); [exact Hg|by intros []|exact HmF]|].
      exact Hclosing.
    + exists (Uncaught msg), w2, (mnew ++ cnew), []. split; [reflexivity|].
      split; [rewrite Hcnew, Hmnew, app_nil_r, <- !app_assoc; reflexivity|].
      split; [apply Forall_app; split;
              [eapply Forall_impl; [exact HmF|]; by left
              |eapply Forall_impl; [exact HcF|]; by right]|].
      split; [rewrite count_app, (count_class is_fs is_spawn mnew); [lia|by intros []|exact HmF]|].
      split; [change (gets ?t) with (count is_get t);
              rewrite count_app, (count_class is_fs is_get mnew); [exact Hg|by intros []|exact HmF]|].
      apply closing_events_nil.
  - destruct (on_error_closing (workspace e) msg wm)
      as (w' & late & Hrun & Htrace & Hclosing & Hone).
    exists (Ok tt), w', mnew, late. split; [exact Hrun|].
    split; [rewrite Htrace, Hmnew, <- !app_assoc; reflexivity|].
    split; [eapply Forall_impl; [exact HmF|]; by left|].
    split; [rewrite (count_class is_fs is_spawn mnew); [lia|by intros []|exact HmF]|].
    split; [change (gets ?t) with (count is_get t);
            rewrite (count_class is_fs is_get mnew); [lia|by intros []|exact HmF]|].
    exact Hclosing.
Qed.


End RequestProfile.

(** X1. Whatever the request and the environment, and however the run
    ends, one run of the handler spawns at most one child process and
    makes at most six HTTP requests. *)
Theorem request_spawns_once_fetches_six e body (w : world) :
  ∃ r w' new,
    compile_apk e body w = (r, w')
    ∧ trace w' = trace w ++ new
    ∧ Events.count Trace.is_spawn new ≤ 1
    ∧ Trace.gets new ≤ 6.
Proof.
  destruct (rejected body) eqn:Hrej.
  - rewrite (compile_apk_rejected e body w Hrej).
    eexists _, _, [_]. split; [reflexivity|]. split; [reflexivity|]. vm_compute. lia.
  - destruct (compile_apk_stages e body w Hrej)
      as (r & w' & early & late & Hrun & Htrace & _ & Hsp & Hg & (Hquiet & _)).
    exists r, w', (EUuid (uuidv4 e) :: early ++ late).
    split; [exact Hrun|]. split; [exact Htrace|].
    change (Trace.gets ?t) with (Events.count Trace.is_get t).
    rewrite !count_cons, !count_app. cbn [Trace.is_spawn Trace.is_get].
    rewrite (count_none Trace.is_spawn late), (count_none Trace.is_get late).
    + change (Events.count Trace.is_get early) with (Trace.gets early). lia.
    + eapply Forall_impl; [exact Hquiet|]. by intros ? [_ ?].
    + eapply Forall_impl; [exact Hquiet|]. by intros ? [? _].
Qed.


(** ** Files outside the workspace *)

Section FrameFacts.
Import JsString Frame.
Variable e : env.
Variable dir : string.

Lemma same_outside_refl (w : world) : same_outside dir w w.
Proof. by split. Qed.

Lemma same_outside_trans (w1 w2 w3 : world) :
  same_outside dir w1 w2 → same_outside dir w2 w3 → same_outside dir w1 w3.
Proof.
  intros (T12 & H12 & D12) (T23 & H23 & D23). split; [congruence|]. split.
  - intros p Hp. by rewrite H23, H12.
  - intros d Hd Hin. by apply D23, D12.
Qed.

Lemma same_outside_files (w w' : world) :
  files w' = files w → timers w' = timers w → dirs w' = dirs w →
  same_outside dir w w'.
Proof.
  intros H T D. split; [exact T|]. split.
  - intros p _. by rewrite H.
  - intros d _. by rewrite D.
Qed.

Lemma keeps_ret {A} (a : A) : keeps_outside dir (mret a : M A).
Proof. intros w r w' [= <- <-]. apply same_outside_refl. Qed.

Lemma keeps_throw {A} msg : keeps_outside dir (@throw A msg).
Proof. intros w r w' [= <- <-]. apply same_outside_refl. Qed.

Lemma keeps_observe ev : keeps_outside dir (observe ev).
Proof. intros w r w' [= <- <-]. by apply same_outside_files. Qed.

Lemma keeps_bind {A B} (m : M A) (k : A → M B) :
  keeps_outside dir m → (∀ a, keeps_outside dir (k a)) → keeps_outside dir (m ≫= k).
Proof.
  intros Hm Hk w r w'. rewrite bind_unfold.
  destruct (m w) as [[a|msg|msg] w1] eqn:E.
  - intros H. eapply same_outside_trans; [exact (Hm _ _ _ E)|exact (Hk a _ _ _ H)].
  - intros [= <- <-]. exact (Hm _ _ _ E).
  - intros [= <- <-]. exact (Hm _ _ _ E).
Qed.

Lemma keeps_try_catch {A} (m : M A) (h : string → M A) :
  keeps_outside dir m → (∀ msg, keeps_outside dir (h msg)) →
  keeps_outside dir (try_catch m h).
Proof.
  intros Hm Hh w r w'. unfold try_catch.
  destruct (m w) as [[a|msg|msg] w1] eqn:E.
  - intros [= <- <-]. exact (Hm _ _ _ E).
  - intros H. eapply same_outside_trans; [exact (Hm _ _ _ E)|exact (Hh msg _ _ _ H)].
  - intros [= <- <-]. exact (Hm _ _ _ E).
Qed.

Lemma keeps_for_each {A} (xs : list A) (f : A → M unit) :
  Forall (λ x, keeps_outside dir (f x)) xs → keeps_outside dir (for_each xs f).
Proof.
  induction 1 as [|x xs Hx _ IH]; [apply keeps_ret|].
  cbn [for_each]. apply keeps_bind; [exact Hx|intros _; exact IH].
Qed.

(** A path outside the directory is not one inside it. *)
Lemma outside_ne p q :
  Fs.within dir p = false → Fs.within dir q = true → q ≠ p.
Proof. intros Hp Hq ->. congruence. Qed.

Lemma effect_inside op (w : world) :
  inside dir op = true → same_outside dir w (Fs.effect op w).
Proof.
  intros Hop. split; [by destruct op|]. split.
  - intros p Hp. destruct op as [d|q data|q mode|q|d]; cbn in *.
    + reflexivity.
    + apply lookup_insert_ne. by apply outside_ne.
    + reflexivity.
    + apply lookup_delete_ne. by apply outside_ne.
    + apply String.eqb_eq in Hop as ->.
      destruct (files w !! p) as [c|] eqn:E.
      * apply map_lookup_filter_Some. split; [exact E|exact Hp].
      * apply map_lookup_filter_None. by left.
  - intros p Hp Hin. destruct op as [d|q data|q mode|q|d]; cbn in *; try exact Hin.
    + apply elem_of_union. by right.
    + apply String.eqb_eq in Hop as ->. apply elem_of_filter. by split.
Qed.

Lemma keeps_fs_call op :
  inside dir op = true → keeps_outside dir (fs_call e op).
Proof.
  intros Hop w r w'. unfold fs_call.
  destruct (fs_fault e op) as [msg|]; intros [= <- <-].
  - by apply same_outside_files.
  - eapply same_outside_trans; [by apply effect_inside|].
    by apply same_outside_files.
Qed.

Lemma keeps_ops ops :
  Forall (λ op, inside dir op = true) ops →
  keeps_outside dir (for_each ops (fs_call e)).
Proof.
  intros H. apply keeps_for_each. eapply Forall_impl; [exact H|].
  intros op. apply keeps_fs_call.
Qed.

(** What lies at the directory followed by a slash is inside it. *)
Lemma within_append rest : Fs.within dir (dir +:+ "/" +:+ rest) = true.
Proof.
  unfold Fs.within, Path.under. rewrite <- append_assoc.
  rewrite startsWith_append. apply orb_true_r.
Qed.

Lemma within_join rel :
  Path.normal_abs dir = true → Path.plain_rel rel = true →
  Fs.within dir (Path.join [dir; rel]) = true.
Proof. intros Hdir Hrel. rewrite join_plain_rel by assumption. apply within_append. Qed.

Lemma within_append_slash rest : Fs.within dir (dir +:+ String "/" rest) = true.
Proof. apply (within_append rest). Qed.

(** *** The materializer *)

Lemma materialize_ops_inside input :
  Path.normal_abs dir = true →
  Forall (λ op, inside dir op = true) (Workspace.materialize_ops dir input).
Proof.
  intros Hdir. unfold Workspace.materialize_ops. apply Forall_app. split.
  - apply Forall_fmap. by apply Forall_true.
  - apply Forall_fmap.
    assert (H : Forall (λ p, Fs.within dir p = true)
                  (Workspace.expected_files dir input).*1).
    { rewrite expected_paths by assumption.
      apply Forall_fmap. repeat constructor; apply within_append_slash. }
    apply Forall_fmap in H. exact H.
Qed.

Lemma createAndroidProject_keeps input :
  Path.normal_abs dir = true →
  keeps_outside dir (createAndroidProject e dir input).
Proof.
  intros Hdir w r w'. rewrite createAndroidProject_ops.
  apply keeps_ops. by apply materialize_ops_inside.
Qed.

(** *** The wrapper *)

Lemma wrapper_ops_inside :
  Path.normal_abs dir = true →
  Forall (λ op, inside dir op = true) (wrapper_ops dir).
Proof.
  intros Hdir. unfold wrapper_ops.
  repeat constructor; cbn [inside]; apply within_join; (assumption || reflexivity).
Qed.

Lemma save_response_keeps jar payload :
  Fs.within dir jar = true → keeps_outside dir (save_response e jar payload).
Proof.
  intros Hjar. unfold save_response.
  assert (Hwrite : ∀ data ev,
            keeps_outside dir
              (λ w, (Ok tt, emit ev (set_files (insert jar data) w)) : outcome unit * world)).
  { intros data ev w r w' [= <- <-]. split; [reflexivity|]. split; [|by intros].
    intros p Hp. cbn. apply lookup_insert_ne. by apply outside_ne. }
  destruct (pipe e jar payload) as [|written msg].
  - apply keeps_bind; [apply Hwrite|]. intros _. apply keeps_observe.
  - apply keeps_bind; [apply Hwrite|]. intros _.
    apply keeps_bind; [|intros _; apply keeps_throw].
    apply keeps_try_catch; [|intros _; apply keeps_ret].
    by apply keeps_fs_call.
Qed.

Lemma downloadFile_keeps jar :
  Fs.within dir jar = true →
  ∀ k n url (w : world) r w',
    6 - n ≤ k →
    downloadFile e jar url n w = (r, w') → same_outside dir w w'.
Proof.
  intros Hjar. induction k as [|k IH]; intros n url w r w' Hk.
  - rewrite downloadFile_too_many by lia. intros [= <- <-]. apply same_outside_refl.
  - destruct (le_gt_dec n 5) as [Hn|Hn].
    2:{ rewrite downloadFile_too_many by lia. intros [= <- <-].
        apply same_outside_refl. }
    rewrite downloadFile_request by lia. cbv zeta.
    assert (Hone : same_outside dir w (emit (EGet (client_for url) url) w))
      by by apply same_outside_files.
    destruct (http_get e n (client_for url) url) as [msg|msg|response].
    { destruct (n =? 0); intros [= <- <-]; apply same_outside_refl. }
    { intros [= <- <-]. exact Hone. }
    destruct (statusCode response =? 200).
    { intros H. eapply same_outside_trans; [exact Hone|].
      exact (save_response_keeps jar _ Hjar _ _ _ H). }
    destruct ((statusCode response =? 302) || (statusCode response =? 301)).
    2:{ intros [= <- <-]. exact Hone. }
    destruct (location response) as [redirectUrl|].
    2:{ intros [= <- <-]. exact Hone. }
    destruct (is_empty redirectUrl).
    { intros [= <- <-]. exact Hone. }
    intros H. apply IH in H; [|lia].
    eapply same_outside_trans; [|exact H]. by apply same_outside_files.
Qed.

Lemma createGradleWrapper_keeps :
  Path.normal_abs dir = true →
  keeps_outside dir (createGradleWrapper e dir).
Proof.
  intros Hdir w r w'. rewrite createGradleWrapper_ops.
  destruct (for_each (wrapper_ops dir) (fs_call e) w) as [[[]|msg|msg] w1] eqn:Hops.
  3:{ by apply run_ops_inv in Hops. }
  - intros H. eapply same_outside_trans.
    + exact (keeps_ops _ (wrapper_ops_inside Hdir) _ _ _ Hops).
    + assert (Hjar : Fs.within dir
                       (Path.join [dir; "gradle/wrapper/gradle-wrapper.jar"]) = true)
        by (apply within_join; [assumption|reflexivity]).
      apply (downloadFile_keeps _ Hjar 6 0 _ _ _ _ (Nat.le_refl 6) H).
  - intros [= <- <-]. exact (keeps_ops _ (wrapper_ops_inside Hdir) _ _ _ Hops).
Qed.

(** *** The build *)

Lemma on_data_keeps chunks acc : keeps_outside dir (on_data chunks acc).
Proof.
  revert acc. induction chunks as [|[[] data] chunks IH]; intros acc; cbn [on_data].
  - apply keeps_ret.
  - apply keeps_bind; [apply keeps_observe|intros _; apply IH].
  - apply keeps_bind; [apply keeps_observe|intros _; apply IH].
Qed.

Lemma on_close_keeps projectDir code errorOutput :
  keeps_outside dir (on_close projectDir code errorOutput).
Proof.
  unfold on_close. destruct code as [[|n]|]; try apply keeps_throw.
  apply keeps_bind.
  - intros w r w' [= <- <-]. by apply same_outside_files.
  - intros []; [apply keeps_ret|apply keeps_throw].
Qed.

Lemma await_child_keeps projectDir run :
  Forall (λ kv, Fs.within dir kv.1 = true) (produced run) →
  keeps_outside dir (await_child projectDir run).
Proof.
  intros Hrun. unfold await_child.
  apply keeps_bind; [apply on_data_keeps|intros acc].
  apply keeps_bind; [|intros _; apply on_close_keeps].
  intros w r w' [= <- <-]. split; [reflexivity|]. split; [|by intros].
  intros p Hp. cbn. apply leave_lookup_other. intros Hin.
  apply list_elem_of_fmap in Hin as ([q c] & -> & Hin).
  rewrite Forall_forall in Hrun. specialize (Hrun _ Hin). cbn in *. congruence.
Qed.

Lemma compileAPK_keeps appName :
  Path.normal_abs dir = true → confined e dir →
  keeps_outside dir (compileAPK e dir appName).
Proof.
  intros Hdir Hconf w r w'.
  destruct (launch e dir w) as [rl wl] eqn:Hlaunch.
  pose proof (launch_inv e dir w rl wl Hlaunch) as Hinv.
  destruct rl as [run|msg|msg].
  - destruct Hinv as (w0 & Hsetup & -> & ->).
    rewrite (compileAPK_launched e dir appName w _ _ Hlaunch).
    intros H. eapply same_outside_trans.
    + exact (createGradleWrapper_keeps Hdir _ _ _ Hsetup).
    + eapply same_outside_trans; [|exact (await_child_keeps dir _ (Hconf _ _) _ _ _ H)].
      by apply same_outside_files.
  - rewrite (compileAPK_setup_throw e dir appName w msg wl Hinv).
    intros [= <- <-]. exact (createGradleWrapper_keeps Hdir _ _ _ Hinv).
  - rewrite (compileAPK_setup_uncaught e dir appName w msg wl Hinv).
    intros [= <- <-]. exact (createGradleWrapper_keeps Hdir _ _ _ Hinv).
Qed.

(** *** The handler *)

Lemma remove_logged_keeps : keeps_outside dir (remove_logged e dir).
Proof.
  unfold remove_logged. apply keeps_try_catch.
  - apply keeps_fs_call. cbn. apply String.eqb_refl.
  - intros msg. apply keeps_observe.
Qed.

Lemma on_error_keeps msg : keeps_outside dir (on_error e dir msg).
Proof.
  unfold on_error. apply keeps_bind; [apply keeps_observe|intros _].
  apply keeps_bind; [apply keeps_observe|intros _]. apply remove_logged_keeps.
Qed.

End FrameFacts.

Section RequestFrame.
Import Frame.
Variable e : env.
Hypothesis Hdir : Path.normal_abs (__dirname e) = true.
Hypothesis Hid : Path.plain_name (uuidv4 e) = true.
Hypothesis Hconf : confined e (workspace e).

(** The stages of an accepted request before the download. *)
Lemma createAndroidProject_frame input (w : world) r w' :
  createAndroidProject e (workspace e) input w = (r, w') →
  same_outside (workspace e) w w'.
Proof.
  destruct (workspace_normal e Hdir Hid) as [_ Hws].
  by apply createAndroidProject_keeps.
Qed.

Lemma compileAPK_frame appName (w : world) r w' :
  compileAPK e (workspace e) appName w = (r, w') →
  same_outside (workspace e) w w'.
Proof.
  destruct (workspace_normal e Hdir Hid) as [_ Hws].
  by apply compileAPK_keeps.
Qed.

Lemma download_frame path filename (w : world) :
  ∃ w', download e path filename (after_download (workspace e)) w = (Ok tt, w')
        ∧ timers w' = timers w ++ [(5000, workspace e)]
        ∧ files w' = files w ∧ dirs w' = dirs w.
Proof.
  destruct (files w !! path) as [bytes|] eqn:Hfile.
  - destruct (download_sent e (workspace e) path filename bytes w Hfile)
      as (w' & Hrun & _ & Ht & Hf & Hd). by exists w'.
  - destruct (download_missing e (workspace e) path filename w Hfile)
      as (w' & failure & Hrun & _ & Ht & Hf & Hd). by exists w'.
Qed.

(** The handler as a whole: it may set a timer, and nothing else changes
    outside the workspace. *)
Lemma compile_apk_outside body (w : world) r w' :
  compile_apk e body w = (r, w') →
  (∀ p, Fs.within (workspace e) p = false → files w' !! p = files w !! p)
  ∧ (∀ d, Fs.within (workspace e) d = false → d ∈ dirs w → d ∈ dirs w').
Proof.
  assert (Hweak : ∀ w0 : world, same_outside (workspace e) w w0 →
            (∀ p, Fs.within (workspace e) p = false → files w0 !! p = files w !! p)
            ∧ (∀ d, Fs.within (workspace e) d = false → d ∈ dirs w → d ∈ dirs w0)).
  { by intros w0 (_ & Hf & Hd). }
  destruct (rejected body) eqn:Hrej.
  - rewrite (compile_apk_rejected e body w Hrej). intros [= <- <-].
    apply Hweak. by apply same_outside_files.
  - rewrite (compile_apk_accepted e body w Hrej).
    assert (H0 : same_outside (workspace e) w (emit (EUuid (uuidv4 e)) w))
      by by apply same_outside_files.
    destruct (createAndroidProject e (workspace e) (input_of body)
                (emit (EUuid (uuidv4 e)) w)) as [[[]|msg|msg] wm] eqn:Hm;
      pose proof (createAndroidProject_frame _ _ _ _ Hm) as H1.
    + destruct (compileAPK e (workspace e) (appName (input_of body)) wm)
        as [[apkPath|msg|msg] w2] eqn:Hc;
        pose proof (compileAPK_frame _ _ _ _ Hc) as H2;
        intros H.
      * destruct (download_frame apkPath (appName (input_of body) +:+ ".apk") w2)
          as (w3 & Hrun & _ & Hfiles & Hdirs).
        rewrite Hrun in H. injection H as _ <-.
        rewrite Hfiles, Hdirs. apply Hweak. eauto using same_outside_trans.
      * apply on_error_keeps in H. apply Hweak. eauto using same_outside_trans.
      * injection H as _ <-. apply Hweak. eauto using same_outside_trans.
    + intros H. apply on_error_keeps in H. apply Hweak.
      eauto using same_outside_trans.
    + intros [= _ <-]. apply Hweak. eauto using same_outside_trans.
Qed.

End RequestFrame.

Section Residue.
Import Frame.
Variable e : env.

Lemma remove_logged_without dir (w : world) :
  fs_fault e (Remove dir) = None →
  ∃ w', remove_logged e dir w = (Ok tt, w')
        ∧ timers w' = timers w
        ∧ (∀ p, files w' !! p = without dir (files w) p)
        ∧ (∀ p, Fs.within dir p = true → p ∉ dirs w').
Proof.
  intros Hok. unfold remove_logged, try_catch, fs_call. rewrite Hok.
  eexists. split; [reflexivity|]. split; [reflexivity|]. split.
  - intros p. unfold without. cbn. destruct (Fs.within dir p) eqn:Hp.
    + apply map_lookup_filter_None. right. intros x _. cbn. by rewrite Hp.
    + destruct (files w !! p) as [c|] eqn:E.
      * apply map_lookup_filter_Some. split; [exact E|exact Hp].
      * apply map_lookup_filter_None. by left.
  - intros p Hp. cbn. rewrite elem_of_filter. intros [Hq _]. by rewrite Hp in Hq.
Qed.

Lemma on_error_without dir msg (w : world) :
  fs_fault e (Remove dir) = None →
  ∃ w', on_error e dir msg w = (Ok tt, w')
        ∧ timers w' = timers w
        ∧ (∀ p, files w' !! p = without dir (files w) p)
        ∧ (∀ p, Fs.within dir p = true → p ∉ dirs w').
Proof.
  intros Hok. unfold on_error. rewrite !bind_unfold.
  cbn [console_error respond observe].
  destruct (remove_logged_without dir
              (emit (ERespond (Json 500 [("error", "APK compilation failed");
                                         ("details", msg)]))
                 (emit (ELog Stderr ["Compilation error:"; msg]) w)) Hok)
    as (w' & Hrun & Htimers & Hfiles & Hdirs).
  exists w'. split; [exact Hrun|]. split; [exact Htimers|].
  split; [exact Hfiles|exact Hdirs].
Qed.

Lemma run_timers_none (w : world) :
  timers w = [] →
  run_timers e w = (Ok tt, World (files w) (dirs w) (trace w) []).
Proof. intros Ht. unfold run_timers. by rewrite Ht. Qed.

Lemma run_timers_one dir ms (w : world) :
  timers w = [(ms, dir)] →
  fs_fault e (Remove dir) = None →
  ∃ w', run_timers e w = (Ok tt, w') ∧ timers w' = []
        ∧ (∀ p, files w' !! p = without dir (files w) p)
        ∧ (∀ p, Fs.within dir p = true → p ∉ dirs w').
Proof.
  intros Ht Hok. unfold run_timers. rewrite Ht. cbn [for_each snd].
  rewrite bind_unfold.
  destruct (remove_logged_without dir (World (files w) (dirs w) (trace w) []) Hok)
    as (w' & -> & Htimers & Hfiles & Hdirs).
  exists w'. split; [reflexivity|]. split; [exact Htimers|]. by split.
Qed.

Lemma without_outside dir (w0 w1 : world) :
  same_outside dir w0 w1 →
  ∀ p, without dir (files w1) p = without dir (files w0) p.
Proof.
  intros (_ & H & _) p. unfold without. destruct (Fs.within dir p) eqn:Hp; [reflexivity|].
  by apply H.
Qed.

End Residue.

(** X3. A request touches no file outside its workspace. Hypotheses: the
    directory of the service is an absolute path in normal form, the
    identifier drawn is a single path segment (every UUID is one), and the
    build, run in the workspace, writes in the workspace only. Then for
    every request, accepted or not and whatever fails, a path that is not
    the workspace and does not lie under it holds after the handler the
    file it held before, and a directory that was there is still there. *)
Theorem request_keeps_other_files e body (w : world) p :
  Path.normal_abs (__dirname e) = true →
  Path.plain_name (uuidv4 e) = true →
  Frame.confined e (workspace e) →
  Fs.within (workspace e) p = false →
  files (compile_apk e body w).2 !! p = files w !! p
  ∧ (p ∈ dirs w → p ∈ dirs (compile_apk e body w).2).
Proof.
  intros Hdir Hid Hconf Hp.
  destruct (compile_apk e body w) as [r w'] eqn:Hrun.
  destruct (compile_apk_outside e Hdir Hid Hconf body w r w' Hrun) as [Hf Hd].
  split; [by apply Hf|]. by apply Hd.
Qed.

Lemma request_keeps_other_files_witness :
  Frame.confined Demo.env_ok (workspace Demo.env_ok)
  ∧ files (compile_apk Demo.env_ok Demo.body Scene.busy).2 !! "/app/server.js"
    = Some "SERVER".
Proof.
  assert (Hconf : Frame.confined Demo.env_ok (workspace Demo.env_ok)).
  { intros cmd fs. constructor; [vm_compute; reflexivity|constructor]. }
  split; [exact Hconf|].
  assert (Hout : Fs.within (workspace Demo.env_ok) "/app/server.js" = false)
    by (vm_compute; reflexivity).
  destruct (request_keeps_other_files Demo.env_ok Demo.body Scene.busy "/app/server.js"
              eq_refl eq_refl Hconf Hout) as [Hfile _].
  rewrite Hfile. reflexivity.
Defined.

(** X4. Nothing of an accepted request stays behind. Under the hypotheses
    of X3, with no timer pending before the request and a removal of the
    workspace that does not fail: once the handler has returned (no
    exception has escaped the build) and the pending timers have fired, no
    timer is left, no file and no directory is at the workspace or under
    it, and every other path holds what it held before the request. This is
    so whether the package was sent or the request failed. *)
Theorem workspace_gone_after_request e body (w : world) :
  Path.normal_abs (__dirname e) = true →
  Path.plain_name (uuidv4 e) = true →
  Frame.confined e (workspace e) →
  rejected body = false →
  timers w = [] →
  fs_fault e (Remove (workspace e)) = None →
  (compile_apk e body w).1 = Ok tt →
  ∃ w1 w2,
    compile_apk e body w = (Ok tt, w1)
    ∧ run_timers e w1 = (Ok tt, w2)
    ∧ timers w2 = []
    ∧ (∀ p, files w2 !! p = Frame.without (workspace e) (files w) p)
    ∧ (∀ p, Fs.within (workspace e) p = true → p ∉ dirs w2).
Proof.
  intros Hdir Hid Hconf Hacc Ht Hok.
  rewrite (compile_apk_accepted e body w Hacc).
  assert (Hfail : ∀ msg (w0 : world),
            Frame.same_outside (workspace e) w w0 →
            ∃ w1 w2,
              on_error e (workspace e) msg w0 = (Ok tt, w1)
              ∧ run_timers e w1 = (Ok tt, w2)
              ∧ timers w2 = []
              ∧ (∀ p, files w2 !! p = Frame.without (workspace e) (files w) p)
              ∧ (∀ p, Fs.within (workspace e) p = true → p ∉ dirs w2)).
  { intros msg w0 Hsame.
    destruct (on_error_without e (workspace e) msg w0 Hok)
      as (w1 & Hrun & Htimers & Hfiles & Hdirs).
    exists w1, (World (files w1) (dirs w1) (trace w1) []).
    split; [exact Hrun|].
    split; [apply run_timers_none; rewrite Htimers, (proj1 Hsame); exact Ht|].
    split; [reflexivity|]. split; [|exact Hdirs].
    intros p. cbn [files]. rewrite Hfiles. by apply without_outside. }
  assert (H0 : Frame.same_outside (workspace e) w (emit (EUuid (uuidv4 e)) w))
    by by apply same_outside_files.
  destruct (createAndroidProject e (workspace e) (input_of body)
              (emit (EUuid (uuidv4 e)) w)) as [[[]|msg|msg] wm] eqn:Hm;
    pose proof (createAndroidProject_frame e Hdir Hid _ _ _ _ Hm) as H1.
  3:{ by intros [=]. }
  2:{ intros _. apply Hfail. eapply same_outside_trans; [exact H0|exact H1]. }
  destruct (compileAPK e (workspace e) (appName (input_of body)) wm)
    as [[apkPath|msg|msg] w2] eqn:Hc;
    pose proof (compileAPK_frame e Hdir Hid Hconf _ _ _ _ Hc) as H2.
  3:{ by intros [=]. }
  2:{ intros _. apply Hfail. eauto using same_outside_trans. }
  intros _.
  assert (Hsame : Frame.same_outside (workspace e) w w2)
    by eauto using same_outside_trans.
  destruct (download_frame e apkPath (appName (input_of body) +:+ ".apk") w2)
    as (w3 & Hrun & Htimers & Hfiles & _).
  rewrite (proj1 Hsame), Ht in Htimers. cbn [app] in Htimers.
  destruct (run_timers_one e (workspace e) 5000 w3 Htimers Hok)
    as (w4 & Hfire & Hnone & Hleft & Hdirs).
  exists w3, w4. split; [exact Hrun|]. split; [exact Hfire|].
  split; [exact Hnone|]. split; [|exact Hdirs].
  intros p. rewrite Hleft, Hfiles. by apply without_outside.
Qed.

Lemma workspace_gone_after_request_witness :
  rejected Demo.body = false
  ∧ timers Scene.busy = []
  ∧ ∃ w1 w2,
      compile_apk Demo.env_ok Demo.body Scene.busy = (Ok tt, w1)
      ∧ run_timers Demo.env_ok w1 = (Ok tt, w2)
      ∧ files w2 !! "/app/server.js" = Some "SERVER"
      ∧ files w2 !! Demo.apkPath = None.
Proof.
  split; [reflexivity|]. split; [reflexivity|].
  assert (Hconf : Frame.confined Demo.env_ok (workspace Demo.env_ok)).
  { intros cmd fs. constructor; [vm_compute; reflexivity|constructor]. }
  assert (Hret : (compile_apk Demo.env_ok Demo.body Scene.busy).1 = Ok tt)
    by (vm_compute; reflexivity).
  destruct (workspace_gone_after_request Demo.env_ok Demo.body Scene.busy
              eq_refl eq_refl Hconf eq_refl eq_refl eq_refl Hret)
    as (w1 & w2 & Hrun & Hfire & _ & Hfiles & _).
  exists w1, w2. split; [exact Hrun|]. split; [exact Hfire|].
  rewrite !Hfiles. split; vm_compute; reflexivity.
Defined.

(** ** Chains of redirects *)

Section RedirectChains.
Import JsString Trace.
Variable e : env.

Lemma last_address_cons url next rest :
  last_address url (next :: rest) = last_address next rest.
Proof.
  unfold last_address. revert url next.
  induction rest as [|x rest IH]; intros url next.
  - reflexivity.
  - change (List.last (next :: x :: rest) url) with (List.last (x :: rest) url).
    by rewrite (IH url x), (IH next x).
Qed.

(** A chain that fits the limit is followed to its end. *)
Lemma downloadFile_chain jar body :
  (∀ jar', pipe e jar' body = Finished) →
  ∀ hops n url (w : world),
    n + length hops ≤ 5 →
    redirects_through e n url hops →
    (∃ response,
       http_get e (n + length hops) (client_for (last_address url hops))
         (last_address url hops) = GetResponse response
       ∧ statusCode response = 200 ∧ payload response = body) →
    ∃ w', downloadFile e jar url n w = (Ok tt, w')
          ∧ files w' !! jar = Some body
          ∧ (∀ p, p ≠ jar → files w' !! p = files w !! p)
          ∧ ∃ new, trace w' = trace w ++ new ∧ gets new = length hops + 1.
Proof.
  intros Hpipe. induction hops as [|next rest IH]; intros n url w Hn Hthrough Hserved.
  - rewrite downloadFile_request by lia. cbv zeta.
    destruct Hserved as (response & Hget & Hstatus & Hpayload).
    cbn [length last_address List.last] in Hget. rewrite Nat.add_0_r in Hget.
    rewrite Hget, Hstatus, Hpayload.
    cbn [Nat.eqb]. unfold save_response. rewrite Hpipe, !bind_unfold.
    eexists. split; [reflexivity|]. cbn [files emit set_files console_log observe].
    split; [apply lookup_insert_eq|]. split.
    + intros p Hp. by apply lookup_insert_ne.
    + eexists [_; _; _]. split; [cbn; rewrite <- !app_assoc; reflexivity|reflexivity].
  - destruct Hthrough as ((response & Hget & Hstatus & Hloc & Hnext) & Hrest).
    cbn [length] in Hn, Hserved.
    rewrite (downloadFile_redirect e jar url n w response next) by (done || lia).
    destruct (IH (n + 1) next
                (emit (ELog Stdout ["Following redirect to: " +:+ next])
                   (emit (EGet (client_for url) url) w)))
      as (w' & -> & Hjar & Hother & new & Hnew & Hgets).
    + lia.
    + by rewrite Nat.add_1_r.
    + rewrite last_address_cons in Hserved.
      by replace (n + 1 + length rest) with (n + S (length rest)) by lia.
    + exists w'. split; [reflexivity|]. split; [exact Hjar|].
      split; [exact Hother|].
      exists (EGet (client_for url) url
              :: ELog Stdout ["Following redirect to: " +:+ next] :: new).
      cbn [trace emit] in Hnew. rewrite Hnew, <- !app_assoc. split; [reflexivity|].
      rewrite !gets_cons. cbn [is_get length]. lia.
Qed.

(** A chain longer than the limit is given up at count six. *)
Lemma downloadFile_chain_too_long jar :
  ∀ hops n url (w : world),
    n ≤ 6 → 6 ≤ n + length hops →
    redirects_through e n url hops →
    ∃ w', downloadFile e jar url n w = (Throw "Too many redirects", w')
          ∧ files w' = files w
          ∧ ∃ new, trace w' = trace w ++ new ∧ gets new = 6 - n.
Proof.
  induction hops as [|next rest IH]; intros n url w Hn Hlong Hthrough.
  - cbn [length] in Hlong. rewrite downloadFile_too_many by lia.
    exists w. split; [reflexivity|]. split; [reflexivity|].
    exists []. rewrite app_nil_r. split; [reflexivity|]. cbn. lia.
  - destruct (le_gt_dec n 5) as [Hle|Hgt].
    2:{ rewrite downloadFile_too_many by lia.
        exists w. split; [reflexivity|]. split; [reflexivity|].
        exists []. rewrite app_nil_r. split; [reflexivity|]. cbn. lia. }
    destruct Hthrough as ((response & Hget & Hstatus & Hloc & Hnext) & Hrest).
    cbn [length] in Hlong.
    rewrite (downloadFile_redirect e jar url n w response next) by (done || lia).
    destruct (IH (n + 1) next
                (emit (ELog Stdout ["Following redirect to: " +:+ next])
                   (emit (EGet (client_for url) url) w)))
      as (w' & -> & Hfiles & new & Hnew & Hgets).
    + lia.
    + lia.
    + by rewrite Nat.add_1_r.
    + exists w'. split; [reflexivity|]. split; [exact Hfiles|].
      exists (EGet (client_for url) url
              :: ELog Stdout ["Following redirect to: " +:+ next] :: new).
      cbn [trace emit] in Hnew. rewrite Hnew, <- !app_assoc. split; [reflexivity|].
      rewrite !gets_cons. cbn [is_get]. lia.
Qed.

End RedirectChains.

(** X5. The limit of the fetch is five redirects. The server leads from
    the address of the wrapper through a chain of addresses, each request
    answered by a 301 or 302 that names the next address (an address
    [client.get] takes, since the request is made). When the chain has at
    most five redirects and the last address is served with a 200 whose
    stream finishes, the download succeeds after one request more than
    there are redirects, the jar holds the payload and no other file has
    changed. When the chain has six redirects or more, the fetch rejects
    with Too many redirects after exactly six requests and no file has
    changed, whatever the server would have served at the end. *)
Theorem redirect_chain_limit e url hops body jar (w : world) :
  redirects_through e 0 url hops →
  (length hops ≤ 5 →
   serves_after e url hops body →
   ∃ w', downloadFile e jar url 0 w = (Ok tt, w')
         ∧ files w' !! jar = Some body
         ∧ (∀ p, p ≠ jar → files w' !! p = files w !! p)
         ∧ ∃ new, trace w' = trace w ++ new ∧ Trace.gets new = length hops + 1)
  ∧ (6 ≤ length hops →
     ∃ w', downloadFile e jar url 0 w = (Throw "Too many redirects", w')
           ∧ files w' = files w
           ∧ ∃ new, trace w' = trace w ++ new ∧ Trace.gets new = 6).
Proof.
  intros Hthrough. split.
  - intros Hk (_ & Hserved & Hpipe).
    by apply (downloadFile_chain e jar body Hpipe hops 0 url w).
  - intros Hk.
    destruct (downloadFile_chain_too_long e jar hops 0 url w) as (w' & H); try lia.
    + exact Hthrough.
    + by exists w'.
Qed.

Lemma redirect_chain_limit_witness :
  redirects_through Demo.env_ok 0 jarUrl
    [ "https://objects.example.org/gradle-wrapper.jar";
      "https://objects.example.org/gradle-wrapper.jar" ]
  ∧ ∃ w', downloadFile Demo.env_ok "/w/gradle-wrapper.jar" jarUrl 0 Demo.start
          = (Ok tt, w')
          ∧ files w' !! "/w/gradle-wrapper.jar" = Some "JAR".
Proof.
  assert (Hthrough : redirects_through Demo.env_ok 0 jarUrl
            [ "https://objects.example.org/gradle-wrapper.jar";
              "https://objects.example.org/gradle-wrapper.jar" ]).
  { split; [|split; [|exact I]]; eexists (HttpResponse 302 _ _);
      (split; [reflexivity|]); (split; [by right|]); by split. }
  split; [exact Hthrough|].
  destruct (proj1 (redirect_chain_limit Demo.env_ok jarUrl
                     [ "https://objects.example.org/gradle-wrapper.jar";
                       "https://objects.example.org/gradle-wrapper.jar" ]
                     "JAR" "/w/gradle-wrapper.jar" Demo.start Hthrough))
    as (w' & Hrun & Hjar & _).
  - cbn. lia.
  - split; [exact Hthrough|]. split; [|reflexivity].
    eexists. split; [reflexivity|]. by split.
  - exists w'. split; [exact Hrun|exact Hjar].
Defined.

(** ** The state the wrapper setup leaves *)

Section WrapperState.
Import JsString Trace.
Variable e : env.

(** What a download changes: the jar and nothing else; when it succeeds the
    jar holds the payload of a 200 response of the server. *)
Lemma save_response_post jar payload (w : world) r w' :
  save_response e jar payload w = (r, w') →
  dirs w' = dirs w
  ∧ (∀ p, p ≠ jar → files w' !! p = files w !! p)
  ∧ (r = Ok tt → files w' !! jar = Some payload).
Proof.
  unfold save_response. destruct (pipe e jar payload) as [|written msg].
  - rewrite !bind_unfold. intros [= <- <-]. split; [reflexivity|]. split.
    + intros p Hp. cbn. by apply lookup_insert_ne.
    + intros _. cbn. apply lookup_insert_eq.
  - rewrite !bind_unfold. unfold try_catch, fs_call.
    destruct (fs_fault e (Unlink jar)) as [failure|]; intros [= <- <-];
      (split; [reflexivity|]); (split; [|by intros [=]]); intros p Hp; cbn.
    + by apply lookup_insert_ne.
    + rewrite lookup_delete_ne by done. by apply lookup_insert_ne.
Qed.

Lemma downloadFile_post jar :
  ∀ k n url (w : world) r w',
    6 - n ≤ k →
    downloadFile e jar url n w = (r, w') →
    dirs w' = dirs w
    ∧ (∀ p, p ≠ jar → files w' !! p = files w !! p)
    ∧ (r = Ok tt →
       ∃ m c u response,
         http_get e m c u = GetResponse response
         ∧ statusCode response = 200
         ∧ files w' !! jar = Some (payload response)).
Proof.
  induction k as [|k IH]; intros n url w r w' Hk.
  - rewrite downloadFile_too_many by lia. by intros [= <- <-].
  - destruct (le_gt_dec n 5) as [Hn|Hn].
    2:{ rewrite downloadFile_too_many by lia. by intros [= <- <-]. }
    rewrite downloadFile_request by lia. cbv zeta.
    destruct (http_get e n (client_for url) url) as [msg|msg|response] eqn:Hget.
    { by destruct (n =? 0); intros [= <- <-]. }
    { by intros [= <- <-]. }
    destruct (statusCode response =? 200) eqn:Hstatus.
    { intros H. apply save_response_post in H as (Hd & Hf & Hjar).
      split; [exact Hd|]. split; [exact Hf|].
      intros Hr. exists n, (client_for url), url, response.
      split; [exact Hget|]. split; [by apply Nat.eqb_eq|by apply Hjar]. }
    destruct ((statusCode response =? 302) || (statusCode response =? 301)).
    2:{ by intros [= <- <-]. }
    destruct (location response) as [redirectUrl|].
    2:{ by intros [= <- <-]. }
    destruct (is_empty redirectUrl).
    { by intros [= <- <-]. }
    intros H. apply IH in H; [exact H|lia].
Qed.

(** The four calls, once made. *)
Lemma wrapper_ops_performed projectDir (w : world) :
  Path.normal_abs projectDir = true →
  files (Workspace.performed_all (wrapper_ops projectDir) w)
  = <[projectDir +:+ "/gradle/wrapper/gradle-wrapper.properties" :=
        Templates.wrapperProperties]>
      (<[projectDir +:+ "/gradlew" := Templates.gradlewScript]> (files w))
  ∧ Fs.canonical (projectDir +:+ "/gradle/wrapper")
    ∈ dirs (Workspace.performed_all (wrapper_ops projectDir) w).
Proof.
  intros Hdir. unfold wrapper_ops.
  rewrite !(join_plain_rel projectDir) by (assumption || reflexivity).
  split; [reflexivity|].
  cbn [Workspace.performed_all foldl Workspace.performed Fs.effect dirs emit
       set_dirs set_files].
  apply elem_of_union. left. apply elem_of_union. left. by apply elem_of_singleton.
Qed.

Lemma wrapper_paths_distinct projectDir :
  projectDir +:+ "/gradlew" ≠ projectDir +:+ "/gradle/wrapper/gradle-wrapper.jar"
  ∧ projectDir +:+ "/gradle/wrapper/gradle-wrapper.properties"
    ≠ projectDir +:+ "/gradle/wrapper/gradle-wrapper.jar"
  ∧ projectDir +:+ "/gradlew"
    ≠ projectDir +:+ "/gradle/wrapper/gradle-wrapper.properties".
Proof.
  repeat split; intros H; apply (inj (String.append projectDir)) in H; discriminate H.
Qed.

End WrapperState.

(** X6. The state a successful wrapper setup leaves. When
    [createGradleWrapper] resolves in a normal absolute project directory:
    the launcher script and the wrapper properties are in place with their
    fixed contents, the directory gradle/wrapper is there, the jar holds
    the payload of a 200 response the server gave, and no other file has
    changed. *)
Theorem wrapper_ready e projectDir (w w' : world) :
  Path.normal_abs projectDir = true →
  createGradleWrapper e projectDir w = (Ok tt, w') →
  files w' !! (projectDir +:+ "/gradlew") = Some Templates.gradlewScript
  ∧ files w' !! (projectDir +:+ "/gradle/wrapper/gradle-wrapper.properties")
    = Some Templates.wrapperProperties
  ∧ Fs.canonical (projectDir +:+ "/gradle/wrapper") ∈ dirs w'
  ∧ (∃ n c url response,
       http_get e n c url = GetResponse response
       ∧ statusCode response = 200
       ∧ files w' !! (projectDir +:+ "/gradle/wrapper/gradle-wrapper.jar")
         = Some (payload response))
  ∧ (∀ p, p ≠ projectDir +:+ "/gradlew" →
          p ≠ projectDir +:+ "/gradle/wrapper/gradle-wrapper.properties" →
          p ≠ projectDir +:+ "/gradle/wrapper/gradle-wrapper.jar" →
          files w' !! p = files w !! p).
Proof.
  intros Hdir. rewrite createGradleWrapper_ops.
  destruct (for_each (wrapper_ops projectDir) (fs_call e) w)
    as [[[]|msg|msg] w1] eqn:Hops; [|by intros [=]..].
  apply run_ops_inv in Hops as [_ ->].
  rewrite (join_plain_rel projectDir) by (assumption || reflexivity).
  intros H. apply (downloadFile_post e _ 6) in H as (Hd & Hf & Hjar); [|lia].
  destruct (wrapper_ops_performed projectDir w Hdir) as [Hfiles Hdirs].
  destruct (wrapper_paths_distinct projectDir) as (H1 & H2 & H3).
  split; [|split; [|split; [|split]]].
  - rewrite Hf, Hfiles by exact H1.
    rewrite lookup_insert_ne by (intros Heq; by apply H3).
    apply lookup_insert_eq.
  - rewrite Hf, Hfiles by exact H2. apply lookup_insert_eq.
  - rewrite Hd. exact Hdirs.
  - by apply Hjar.
  - intros p Hp1 Hp2 Hp3. rewrite Hf, Hfiles by exact Hp3.
    rewrite !lookup_insert_ne by (intros Heq; by subst). reflexivity.
Qed.

Lemma wrapper_ready_witness :
  Path.normal_abs Demo.projectDir = true
  ∧ files (createGradleWrapper Demo.env_ok Demo.projectDir Demo.start).2
      !! (Demo.projectDir +:+ "/gradlew") = Some Templates.gradlewScript.
Proof.
  split; [reflexivity|].
  set (run := createGradleWrapper Demo.env_ok Demo.projectDir Demo.start).
  assert (Hrun : run = (Ok tt, run.2)) by (apply outcome_eta; vm_compute; reflexivity).
  exact (proj1 (wrapper_ready Demo.env_ok Demo.projectDir Demo.start run.2 eq_refl Hrun)).
Defined.

(** ** The directory of every file that is written *)

Section ParentFacts.
Import JsString Path Workspace.

Lemma split_segments_no_slash s :
  Forall (λ seg, all_chars (λ a, negb (is_slash a)) seg = true) (split s).
Proof.
  induction s as [|a s IH]; [by repeat constructor|]. cbn.
  destruct (is_slash a) eqn:Ha; [by constructor|].
  destruct (split_cons s) as (seg & rest & E). rewrite E in *.
  inversion IH; subst. constructor; [|done]. cbn. by rewrite Ha.
Qed.

(** Segments without a slash, joined and split again, are the same. *)
Lemma split_concat (R : list string) :
  R ≠ [] →
  Forall (λ seg, all_chars (λ a, negb (is_slash a)) seg = true) R →
  split (String.concat "/" R) = R.
Proof.
  intros HR H. induction H as [|x R Hx HRest IH]; [done|].
  destruct R as [|y R]; [by apply split_no_slash|].
  change (String.concat "/" (x :: y :: R))
    with (x +:+ String "/" (String.concat "/" (y :: R))).
  rewrite split_append_slash, IH by done. by rewrite split_no_slash.
Qed.

Lemma filter_sublist_Forall {A} (P : A → Prop) `{∀ x, Decision (P x)}
    (Q : A → Prop) (l : list A) :
  Forall Q l → Forall Q (filter P l).
Proof.
  induction 1 as [|x l Hx _ IH]; [constructor|].
  rewrite filter_cons. destruct (decide (P x)); [by constructor|done].
Qed.

Lemma filter_not_empty (P : list string) :
  Forall (λ seg, is_skipped seg = false) P →
  filter (λ seg, is_empty seg = false) P = P.
Proof.
  induction 1 as [|seg P Hseg _ IH]; [done|].
  rewrite filter_cons, decide_True, IH; [done|].
  unfold is_skipped in Hseg. by apply orb_false_iff in Hseg as [? _].
Qed.

(** [join] on a relative path without [..]: the kept segments are
    appended, and a trailing slash stays. *)
Lemma join_keeps_trailing dir rel :
  normal_abs dir = true →
  rel ≠ "" →
  Forall (λ seg, is_dotdot seg = false) (split rel) →
  filter (λ seg, is_skipped seg = false) (split rel) ≠ [] →
  join [dir; rel]
  = dir +:+ "/" +:+ String.concat "/" (filter (λ seg, is_skipped seg = false) (split rel))
    +:+ (if endsWith_char rel "/" then "/" else "").
Proof.
  intros Hdir Hrel Hdd HR.
  destruct (normal_abs_inv dir Hdir) as (P & Hsplit & HP & Hplain & Hd).
  set (R := filter _ (split rel)) in *.
  assert (Hjoin : join [dir; rel] = normalize (dir +:+ "/" +:+ rel)).
  { unfold join. rewrite !filter_cons, filter_nil.
    rewrite !decide_True; [done| |].
    - by destruct rel.
    - rewrite Hd. done. }
  rewrite Hjoin. unfold normalize.
  assert (Habs : isAbsolute (dir +:+ "/" +:+ rel) = true).
  { rewrite Hd. reflexivity. }
  assert (Hne : is_empty (dir +:+ "/" +:+ rel) = false).
  { rewrite Hd. reflexivity. }
  rewrite Hne, Habs. cbn [negb].
  change ("/" +:+ rel) with (String "/" rel).
  rewrite (endsWith_char_append dir (String "/" rel)) by done.
  assert (Hslash : endsWith_char (String "/" rel) "/" = endsWith_char rel "/")
    by exact (endsWith_char_append "/" rel "/" Hrel).
  rewrite Hslash.
  unfold normalizeString, normalize_segments.
  rewrite split_append_slash, Hsplit.
  rewrite fold_left_app. cbn [fold_left app].
  change (normalize_step false [] "") with (@nil string).
  rewrite (normalize_fold_no_dotdot false P [])
    by (eapply Forall_impl; [exact Hplain|]; apply plain_not_dotdot).
  rewrite filter_plain by done.
  rewrite normalize_fold_no_dotdot by done. fold R.
  rewrite app_nil_r, rev_app_distr, !rev_involutive.
  assert (HPR : is_empty (String.concat "/" (P ++ R)) = false).
  { destruct Hplain as [|seg P' Hseg _]; [done|]. by apply concat_head_plain. }
  rewrite HPR.
  assert (Hcat : String.concat "/" (P ++ R)
                 = String.concat "/" P +:+ "/" +:+ String.concat "/" R)
    by by apply concat_app.
  rewrite Hcat, Hd.
  destruct (endsWith_char rel "/"); rewrite ?append_nil_r, ?append_assoc; reflexivity.
Qed.

(** The segments of what [fs.ensureDir] is given there. *)
Lemma join_segments dir rel :
  normal_abs dir = true →
  rel ≠ "" →
  Forall (λ seg, is_dotdot seg = false) (split rel) →
  filter (λ seg, is_skipped seg = false) (split rel) ≠ [] →
  isAbsolute (join [dir; rel]) = true
  ∧ ∃ P, dir = "/" +:+ String.concat "/" P ∧ P ≠ []
         ∧ filter (λ seg, is_empty seg = false) (split (join [dir; rel]))
           = P ++ filter (λ seg, is_skipped seg = false) (split rel).
Proof.
  intros Hdir Hrel Hdd HR.
  rewrite join_keeps_trailing by assumption.
  destruct (normal_abs_inv dir Hdir) as (P & Hsplit & HP & Hplain & Hd).
  set (R := filter _ (split rel)) in *.
  split; [rewrite Hd; reflexivity|].
  exists P. split; [exact Hd|]. split; [exact HP|].
  assert (HRs : split (String.concat "/" R) = R).
  { apply split_concat; [exact HR|].
    apply filter_sublist_Forall, split_segments_no_slash. }
  assert (HRk : filter (λ seg, is_empty seg = false) R = R).
  { apply filter_not_empty. apply Forall_forall. intros seg Hseg.
    by apply list_elem_of_filter in Hseg as [? _]. }
  assert (HPk : filter (λ seg, is_empty seg = false) P = P).
  { apply filter_not_empty. eapply Forall_impl; [exact Hplain|].
    apply plain_not_skipped. }
  change ("/" +:+ ?x) with (String "/" x).
  rewrite split_append_slash, Hsplit.
  destruct (endsWith_char rel "/").
  - change (String.concat "/" R +:+ "/") with (String.concat "/" R +:+ String "/" "").
    rewrite split_append_slash, HRs. cbn [app].
    rewrite filter_cons, decide_False by done.
    rewrite !filter_app, HPk, HRk. cbn. by rewrite app_nil_r.
  - rewrite append_nil_r, HRs. cbn [app].
    rewrite filter_cons, decide_False by done.
    by rewrite !filter_app, HPk, HRk.
Qed.

Lemma prefixes_elem {A} (Q R : list A) : Q ≠ [] → Q ∈ Fs.prefixes (Q ++ R).
Proof.
  induction Q as [|x Q IH]; [done|]. intros _. cbn.
  destruct Q as [|y Q]; [by constructor|].
  apply list_elem_of_further, list_elem_of_fmap. exists (y :: Q).
  split; [reflexivity|]. by apply IH.
Qed.

(** The directories [fs.ensureDir] creates on the way: the project
    directory followed by any leading part of the relative path. *)
Lemma ensured_ancestor dir rel (A B : list string) :
  normal_abs dir = true →
  rel ≠ "" →
  Forall (λ seg, is_dotdot seg = false) (split rel) →
  filter (λ seg, is_skipped seg = false) (split rel) = A ++ B →
  A ++ B ≠ [] →
  dir +:+ match A with [] => "" | _ => "/" +:+ String.concat "/" A end
  ∈ Fs.ancestors (join [dir; rel]).
Proof.
  intros Hdir Hrel Hdd HAB Hne.
  destruct (join_segments dir rel Hdir Hrel Hdd) as (Habs & P & Hd & HP & Hsegs).
  { by rewrite HAB. }
  unfold Fs.ancestors. rewrite Habs, Hsegs, HAB. cbv zeta.
  apply list_elem_of_fmap. exists (P ++ A). split.
  - destruct A as [|a A].
    + by rewrite app_nil_r, append_nil_r.
    + rewrite concat_app by done. rewrite Hd at 1. by rewrite !append_assoc.
  - rewrite app_assoc. apply prefixes_elem. by destruct P.
Qed.

Lemma performed_dirs_ancestor ds (w : world) d a :
  d ∈ ds → a ∈ Fs.ancestors d →
  a ∈ dirs (performed_all (map EnsureDir ds) w).
Proof.
  revert w. induction ds as [|d' ds IH]; intros w Hd Ha.
  - by apply elem_of_nil in Hd.
  - apply elem_of_cons in Hd as [->|Hd].
    + cbn. apply performed_dirs_mono.
      * apply Forall_fmap. by apply Forall_true.
      * cbn. apply elem_of_union. left. apply elem_of_union. right.
        by apply elem_of_list_to_set.
    + cbn. by apply IH.
Qed.

Lemma housed_fixed dir pp (w : world) rel (A B : list string) name p :
  normal_abs dir = true →
  rel ∈ project_dirs pp →
  rel ≠ "" →
  Forall (λ seg, is_dotdot seg = false) (split rel) →
  filter (λ seg, is_skipped seg = false) (split rel) = A ++ B →
  A ++ B ≠ [] →
  plain_name name = true →
  p = dir +:+ match A with [] => "" | _ => "/" +:+ String.concat "/" A end
      +:+ "/" +:+ name →
  housed (performed_all (map EnsureDir (expected_dirs dir pp)) w) p.
Proof.
  intros Hdir Hin Hrel Hdd HAB Hne Hname ->.
  exists (dir +:+ match A with [] => "" | _ => "/" +:+ String.concat "/" A end), name.
  split; [by rewrite !append_assoc|]. split; [exact Hname|].
  apply (performed_dirs_ancestor _ _ (join [dir; rel])).
  - unfold expected_dirs. apply list_elem_of_fmap. by exists rel.
  - by apply (ensured_ancestor dir rel A B).
Qed.

(** Every file of the tree lies directly in a directory the materializer
    has created by the time it is through with the directories. *)
Lemma expected_files_housed dir input (w : world) :
  normal_abs dir = true →
  Forall (housed (performed_all
                    (map EnsureDir (expected_dirs dir (packagePath_of (manifest input)))) w))
    (expected_files dir input).*1.
Proof.
  intros Hdir. rewrite expected_paths by assumption.
  set (pp := packagePath_of (manifest input)).
  assert (Hfixed : ∀ rel A B name,
            rel ∈ project_dirs pp →
            plain_rel rel = true →
            filter (λ seg, is_skipped seg = false) (split rel) = A ++ B →
            A ++ B ≠ [] →
            plain_name name = true →
            housed (performed_all (map EnsureDir (expected_dirs dir pp)) w)
              (dir +:+ match A with [] => "" | _ => "/" +:+ String.concat "/" A end
               +:+ "/" +:+ name)).
  { intros rel A B name Hin Hrel HAB Hne Hname.
    apply (housed_fixed dir pp w rel A B name); try assumption; try reflexivity.
    - by destruct rel.
    - apply andb_true_iff in Hrel as [_ Hsegs].
      apply forallb_Forall_true in Hsegs.
      eapply Forall_impl; [exact Hsegs|]. apply plain_not_dotdot. }
  assert (Hin : ∀ i rel, project_dirs pp !! i = Some rel → rel ∈ project_dirs pp).
  { intros i rel. apply list_elem_of_lookup_2. }
  cbn [map].
  constructor.
  { apply (Hfixed "app/src/main/res/layout" ["app"; "src"; "main"] ["res"; "layout"]
             "AndroidManifest.xml" (Hin 1 _ eq_refl)); reflexivity || done. }
  constructor.
  { assert (Hdots : all_chars (λ a, negb (is_dot a)) pp = true)
      by apply replace_dots_no_dot.
    assert (Hsplit : split ("app/src/main/java/" +:+ pp)
                     = ["app"; "src"; "main"; "java"] ++ split pp).
    { change ("app/src/main/java/" +:+ pp) with ("app/src/main/java" +:+ String "/" pp).
      by rewrite split_append_slash. }
    apply (housed_fixed dir pp w ("app/src/main/java/" +:+ pp)
             (["app"; "src"; "main"; "java"] ++ package_segments pp) []
             "MainActivity.java").
    - exact Hdir.
    - apply (Hin 0). reflexivity.
    - done.
    - rewrite Hsplit. apply Forall_app. split; [by repeat constructor|].
      eapply Forall_impl; [apply (split_all_chars _ _ Hdots)|].
      apply no_dot_not_dotdot.
    - rewrite Hsplit, filter_app, app_nil_r. reflexivity.
    - done.
    - reflexivity.
    - destruct (package_segments pp) as [|seg segs]; [reflexivity|].
      rewrite (concat_app (seg :: segs) ["MainActivity.java"]) by done.
      cbn [app].
      change (String.concat "/" ("app" :: "src" :: "main" :: "java" :: seg :: segs))
        with ("app/src/main/java/" +:+ String.concat "/" (seg :: segs)).
      change (String.concat "/" ["MainActivity.java"]) with "MainActivity.java".
      rewrite !append_assoc. reflexivity. }
  constructor.
  { apply (Hfixed "app/src/main/res/layout" ["app"; "src"; "main"; "res"; "layout"] []
             "activity_main.xml" (Hin 1 _ eq_refl)); reflexivity || done. }
  constructor.
  { apply (Hfixed "app/src/main/res/values" ["app"; "src"; "main"; "res"; "values"] []
             "strings.xml" (Hin 2 _ eq_refl)); reflexivity || done. }
  constructor.
  { apply (Hfixed "app/src/main/res/layout" [] ["app"; "src"; "main"; "res"; "layout"]
             "build.gradle" (Hin 1 _ eq_refl)); reflexivity || done. }
  constructor.
  { apply (Hfixed "app/src/main/res/layout" ["app"] ["src"; "main"; "res"; "layout"]
             "build.gradle" (Hin 1 _ eq_refl)); reflexivity || done. }
  constructor.
  { apply (Hfixed "app/src/main/res/layout" [] ["app"; "src"; "main"; "res"; "layout"]
             "gradle.properties" (Hin 1 _ eq_refl)); reflexivity || done. }
  constructor.
  { apply (Hfixed "app/src/main/res/layout" [] ["app"; "src"; "main"; "res"; "layout"]
             "settings.gradle" (Hin 1 _ eq_refl)); reflexivity || done. }
  constructor.
  { apply (Hfixed "app/src/main/res/mipmap-hdpi"
             ["app"; "src"; "main"; "res"; "mipmap-hdpi"] []
             "ic_launcher.png" (Hin 4 _ eq_refl)); reflexivity || done. }
  constructor.
  { apply (Hfixed "app/src/main/res/mipmap-mdpi"
             ["app"; "src"; "main"; "res"; "mipmap-mdpi"] []
             "ic_launcher.png" (Hin 5 _ eq_refl)); reflexivity || done. }
  constructor.
  { apply (Hfixed "app/src/main/res/mipmap-xhdpi"
             ["app"; "src"; "main"; "res"; "mipmap-xhdpi"] []
             "ic_launcher.png" (Hin 6 _ eq_refl)); reflexivity || done. }
  constructor.
  { apply (Hfixed "app/src/main/res/mipmap-xxhdpi"
             ["app"; "src"; "main"; "res"; "mipmap-xxhdpi"] []
             "ic_launcher.png" (Hin 7 _ eq_refl)); reflexivity || done. }
  constructor.
  { apply (Hfixed "app/src/main/res/mipmap-xxxhdpi"
             ["app"; "src"; "main"; "res"; "mipmap-xxxhdpi"] []
             "ic_launcher.png" (Hin 8 _ eq_refl)); reflexivity || done. }
  constructor.
Qed.

(** Directories stay while files are written. *)
Lemma housed_after_writes (fs : list (string * string)) (w : world) p :
  housed w p → housed (performed_all (map (λ pc, WriteFile pc.1 pc.2) fs) w) p.
Proof.
  intros (d & name & Hp & Hname & Hd). exists d, name.
  split; [exact Hp|]. split; [exact Hname|].
  apply performed_dirs_mono; [|exact Hd].
  apply Forall_fmap. apply Forall_true. intros [q c]. exact I.
Qed.

(** At the time of each write of the materializer the directory of the
    file is there. *)
Lemma materialize_ops_housed dir input (w : world) done p c rest :
  normal_abs dir = true →
  materialize_ops dir input = done ++ WriteFile p c :: rest →
  housed (performed_all done w) p.
Proof.
  intros Hdir Hsplit.
  pose proof (expected_files_housed dir input w Hdir) as Hall.
  rewrite Forall_fmap in Hall. rewrite Forall_forall in Hall.
  unfold materialize_ops in Hsplit.
  apply app_eq_inv in Hsplit as [(k & Hdirs & Hwrites)|(k & Hdone & Hwrites)].
  - destruct k as [|op k].
    + rewrite app_nil_r in Hdirs. rewrite <- Hdirs. cbn [app] in Hwrites.
      symmetry in Hwrites.
      apply fmap_cons_inv in Hwrites as ([q d] & fs' & Heq & _ & Hfiles).
      cbn in Heq. injection Heq as -> ->.
      apply (Hall (q, d)). rewrite Hfiles. apply list_elem_of_here.
    + pose proof (f_equal (λ l, l !! 0) Hwrites) as Hhead.
      change (Some (WriteFile p c) = Some op) in Hhead. injection Hhead as <-.
      assert (Hin : WriteFile p c ∈ map EnsureDir
                      (expected_dirs dir (packagePath_of (manifest input)))).
      { rewrite Hdirs. apply elem_of_app. right. apply list_elem_of_here. }
      apply list_elem_of_fmap in Hin as (d & [=] & _).
  - apply fmap_app_inv in Hwrites as (fs1 & fs2 & -> & Htail & Hfiles).
    symmetry in Htail.
    apply fmap_cons_inv in Htail as ([q d] & fs' & Heq & _ & ->).
    cbn in Heq. injection Heq as -> ->.
    rewrite Hdone, performed_all_app. apply housed_after_writes.
    apply (Hall (q, d)). rewrite Hfiles. apply elem_of_app. right. apply list_elem_of_here.
Qed.

End ParentFacts.

Section CallOrder.
Import Trace Workspace.
Variable e : env.

(** A call that shows in the trace of a run of calls: the calls before it
    were made without a failure, and they are what the trace shows before
    it. *)
Lemma run_ops_event ops :
  ∀ (w : world) r w' pre op res post,
    for_each ops (fs_call e) w = (r, w') →
    trace w' = trace w ++ pre ++ EFs op res :: post →
    ∃ done rest, ops = done ++ op :: rest ∧ pre = calls done
                 ∧ Forall (λ op, fs_fault e op = None) done.
Proof.
  induction ops as [|o ops IH]; intros w r w' pre op res post.
  - intros [= <- <-] H. rewrite <- (app_nil_r (trace w)) in H at 1.
    apply app_inv_head in H. by destruct pre.
  - cbn [for_each]. rewrite bind_unfold. unfold fs_call at 1.
    destruct (fs_fault e o) as [msg|] eqn:Ho.
    + intros [= <- <-]. cbn [trace emit]. intros H. apply app_inv_head in H.
      destruct pre as [|ev pre]; [|by destruct pre].
      injection H as <- _ _. by exists [], ops.
    + intros Hrun Htrace.
      destruct (emits_for_each (λ _, True) ops (fs_call e)
                  (λ op', emits_fs_call e (λ _, True) op' (λ _, I)) _ _ _ Hrun)
        as (new & Hnew & _).
      cbn [trace emit] in Hnew. rewrite effect_trace in Hnew.
      rewrite Hnew, <- app_assoc in Htrace. apply app_inv_head in Htrace.
      destruct pre as [|ev pre].
      * injection Htrace as <- _ _. by exists [], ops.
      * injection Htrace as <- Htail.
        destruct (IH _ _ _ pre op res post Hrun) as (done & rest & -> & -> & Hok).
        { cbn [trace emit]. rewrite effect_trace, Hnew, Htail. reflexivity. }
        exists (o :: done), rest. split; [reflexivity|]. split; [reflexivity|].
        by constructor.
Qed.

End CallOrder.

(** X7. No write of the materializer can miss its directory. In every run
    of [createAndroidProject] in a normal absolute project directory,
    whenever a file is written or a write fails, the calls before it have
    all been made without a failure, and in the file system they leave the
    file lies directly in a directory that is there: the path is that
    directory, a slash and a name without a slash. This holds for every
    manifest, whatever package it declares. *)
Theorem writes_land_in_directories e projectDir input (w : world) r w'
    pre p c res post :
  Path.normal_abs projectDir = true →
  createAndroidProject e projectDir input w = (r, w') →
  trace w' = trace w ++ pre ++ EFs (WriteFile p c) res :: post →
  ∃ done,
    pre = Workspace.calls done
    ∧ Forall (λ op, fs_fault e op = None) done
    ∧ housed (Workspace.performed_all done w) p.
Proof.
  intros Hdir Hrun Htrace. rewrite createAndroidProject_ops in Hrun.
  destruct (run_ops_event e _ _ _ _ _ _ _ _ Hrun Htrace)
    as (done & rest & Hsplit & Hpre & Hok).
  exists done. split; [exact Hpre|]. split; [exact Hok|].
  by apply (materialize_ops_housed projectDir input w done p c rest).
Qed.

Lemma writes_land_in_directories_witness :
  Path.normal_abs Demo.projectDir = true
  ∧ ∃ done,
      Forall (λ op, fs_fault Demo.env_disk_full op = None) done
      ∧ housed (Workspace.performed_all done Demo.start)
          (Demo.projectDir +:+ "/app/src/main/res/values/strings.xml").
Proof.
  split; [reflexivity|].
  set (run := createAndroidProject Demo.env_disk_full Demo.projectDir Demo.input
                Demo.start).
  assert (Hrun : run = (run.1, run.2)) by apply surjective_pairing.
  assert (Htrace : trace run.2
                   = trace Demo.start
                     ++ Workspace.calls
                          (take 12 (Workspace.materialize_ops Demo.projectDir Demo.input))
                     ++ EFs (WriteFile
                               (Demo.projectDir +:+ "/app/src/main/res/values/strings.xml")
                               (Templates.stringsXml "DemoApp"))
                          (Some "ENOSPC: no space left on device, write") :: [])
    by (vm_compute; reflexivity).
  destruct (writes_land_in_directories Demo.env_disk_full Demo.projectDir Demo.input
              Demo.start run.1 run.2 _ _ _ _ _ eq_refl Hrun Htrace)
    as (done & _ & Hok & Hhoused).
  exists done. split; [exact Hok|exact Hhoused].
Defined.


(** ** The temp directory and the workspaces in it *)

Section TempDir.
Import JsString Path Frame.

Lemma canonical_normal_abs d : normal_abs d = true → Fs.canonical d = d.
Proof.
  intros Hd. destruct (normal_abs_inv d Hd) as (P & Hsplit & HP & Hplain & Heq).
  unfold Fs.canonical. rewrite Hsplit.
  assert (Habs : isAbsolute d = true) by (rewrite Heq; reflexivity).
  rewrite Habs, filter_cons, decide_False by done.
  rewrite filter_not_empty; [symmetry; exact Heq|].
  eapply Forall_impl; [exact Hplain|]. apply plain_not_skipped.
Qed.

(** A directory is not inside one of its children. *)
Lemma not_within_child d rest : Fs.within (d +:+ String "/" rest) d = false.
Proof.
  unfold Fs.within, under. apply orb_false_iff. split.
  - apply String.eqb_neq. intros H.
    rewrite <- (append_nil_r d) in H at 1.
    apply (inj (String.append d)) in H. discriminate H.
  - unfold startsWith.
    destruct (strip_prefix _ d) as [r|] eqn:E; [|reflexivity].
    apply strip_prefix_Some in E. rewrite !append_assoc in E.
    rewrite <- (append_nil_r d) in E at 1.
    apply (inj (String.append d)) in E. discriminate E.
Qed.

(** Two names without a slash, each followed by nothing or by a slash and
    more: when the texts are the same, so are the names. *)
Lemma first_segment_inj a b s t :
  all_chars (λ c, negb (is_slash c)) a = true →
  all_chars (λ c, negb (is_slash c)) b = true →
  (s = "" ∨ ∃ s', s = String "/" s') →
  (t = "" ∨ ∃ t', t = String "/" t') →
  a +:+ s = b +:+ t → a = b.
Proof.
  revert b. induction a as [|c a IH]; intros [|c' b] Ha Hb Hs Ht H.
  - reflexivity.
  - exfalso. cbn in H, Hb. apply andb_true_iff in Hb as [Hc _].
    destruct Hs as [->|(s' & ->)]; [discriminate H|].
    injection H as <- _. discriminate Hc.
  - exfalso. cbn in H, Ha. apply andb_true_iff in Ha as [Hc _].
    destruct Ht as [->|(t' & ->)]; [discriminate H|].
    injection H as -> _. discriminate Hc.
  - cbn in H, Ha, Hb. injection H as -> H.
    apply andb_true_iff in Ha as [_ Ha]. apply andb_true_iff in Hb as [_ Hb].
    f_equal. by apply (IH b).
Qed.

(** What is inside a directory: the directory, or its path, a slash and
    more. *)
Lemma within_inv d p :
  Fs.within d p = true → ∃ s, p = d +:+ s ∧ (s = "" ∨ ∃ s', s = String "/" s').
Proof.
  unfold Fs.within, under. intros [H|H]%orb_true_iff.
  - apply String.eqb_eq in H as ->. exists "". split; [by rewrite append_nil_r|by left].
  - unfold startsWith in H.
    destruct (strip_prefix _ p) as [r|] eqn:E; [|discriminate H].
    apply strip_prefix_Some in E. rewrite append_assoc in E.
    exists ("/" +:+ r). split; [exact E|]. right. by exists r.
Qed.

(** Children of one directory with different names have nothing in
    common. *)
Lemma children_disjoint d a b p :
  plain_name a = true → plain_name b = true → a ≠ b →
  Fs.within (d +:+ "/" +:+ a) p = true →
  Fs.within (d +:+ "/" +:+ b) p = false.
Proof.
  intros [_ Ha]%andb_true_iff [_ Hb]%andb_true_iff Hne Hin.
  destruct (Fs.within (d +:+ "/" +:+ b) p) eqn:Hin'; [|reflexivity].
  exfalso. apply Hne.
  apply within_inv in Hin as (s & -> & Hs).
  apply within_inv in Hin' as (t & Heq & Ht).
  rewrite !append_assoc in Heq.
  apply (inj (String.append d)) in Heq.
  change ("/" +:+ ?x) with (String "/" x) in Heq. injection Heq as Heq.
  by apply (first_segment_inj a b s t).
Qed.

End TempDir.

Section ServiceInvariant.
Import Frame.
Variable e : env.
Hypothesis Hdir : Path.normal_abs (__dirname e) = true.
Hypothesis Hid : Path.plain_name (uuidv4 e) = true.
Hypothesis Hconf : confined e (workspace e).

Lemma TEMP_DIR_normal :
  TEMP_DIR e = __dirname e +:+ "/temp"
  ∧ Path.normal_abs (TEMP_DIR e) = true
  ∧ Fs.canonical (TEMP_DIR e) = TEMP_DIR e.
Proof.
  unfold TEMP_DIR.
  rewrite (join_plain_rel (__dirname e) "temp") by (assumption || reflexivity).
  assert (Htemp : Path.normal_abs (__dirname e +:+ "/" +:+ "temp") = true).
  { apply normal_abs_child; [assumption|reflexivity]. }
  split; [reflexivity|]. split; [exact Htemp|]. by apply canonical_normal_abs.
Qed.

Lemma workspace_child : workspace e = TEMP_DIR e +:+ "/" +:+ uuidv4 e.
Proof.
  destruct TEMP_DIR_normal as (_ & Htemp & _). unfold workspace.
  apply join_plain_rel; [exact Htemp|]. by apply plain_name_rel.
Qed.

Lemma temp_dir_outside :
  Fs.within (workspace e) (Fs.canonical (TEMP_DIR e)) = false.
Proof.
  destruct TEMP_DIR_normal as (_ & _ & ->). rewrite workspace_child.
  apply not_within_child.
Qed.

(** What the handler does to the timers. *)
Lemma compile_apk_timers body (w : world) r w' :
  compile_apk e body w = (r, w') →
  timers w' = timers w ∨ timers w' = timers w ++ [(5000, workspace e)].
Proof.
  destruct (rejected body) eqn:Hrej.
  - rewrite (compile_apk_rejected e body w Hrej). intros [= <- <-]. by left.
  - rewrite (compile_apk_accepted e body w Hrej).
    destruct (createAndroidProject e (workspace e) (input_of body)
                (emit (EUuid (uuidv4 e)) w)) as [[[]|msg|msg] wm] eqn:Hm;
      pose proof (createAndroidProject_frame e Hdir Hid _ _ _ _ Hm) as (T1 & _);
      cbn [timers emit] in T1.
    + destruct (compileAPK e (workspace e) (appName (input_of body)) wm)
        as [[apkPath|msg|msg] w2] eqn:Hc;
        pose proof (compileAPK_frame e Hdir Hid Hconf _ _ _ _ Hc) as (T2 & _);
        intros H.
      * destruct (download_frame e apkPath (appName (input_of body) +:+ ".apk") w2)
          as (w3 & Hrun & Ht & _).
        rewrite Hrun in H. injection H as _ <-. right. by rewrite Ht, T2, T1.
      * apply on_error_keeps in H as (T3 & _). left. by rewrite T3, T2, T1.
      * injection H as _ <-. left. by rewrite T2, T1.
    + intros H. apply on_error_keeps in H as (T3 & _). left. by rewrite T3, T1.
    + intros [= _ <-]. by left.
Qed.

Lemma compile_apk_ready body (w : world) :
  temp_ready (__dirname e) w → temp_ready (__dirname e) (compile_apk e body w).2.
Proof.
  intros [Hthere Htimers].
  destruct (compile_apk e body w) as [r w'] eqn:Hrun. cbn [snd].
  fold (TEMP_DIR e) in *. split.
  - destruct (compile_apk_outside e Hdir Hid Hconf body w r w' Hrun) as [_ Hd].
    apply Hd; [apply temp_dir_outside|exact Hthere].
  - destruct (compile_apk_timers body w r w' Hrun) as [->| ->]; [exact Htimers|].
    apply Forall_app. split; [exact Htimers|].
    constructor; [|constructor]. exists (uuidv4 e). split; [exact Hid|reflexivity].
Qed.

End ServiceInvariant.

Section TimersInvariant.
Import Frame.
Variable e : env.
Hypothesis Hdir : Path.normal_abs (__dirname e) = true.

(** The timers that fire remove children of the temp directory, never the
    directory itself. *)
Lemma remove_children_keeps (ts : list (nat * string)) :
  Forall (λ t, ∃ id, Path.plain_name id = true
                     ∧ t.2 = Path.join [TEMP_DIR e; id]) ts →
  ∀ (w : world),
    Fs.canonical (TEMP_DIR e) ∈ dirs w →
    Fs.canonical (TEMP_DIR e)
      ∈ dirs (for_each ts (λ t, remove_logged e t.2) w).2
    ∧ timers (for_each ts (λ t, remove_logged e t.2) w).2 = timers w.
Proof.
  destruct (TEMP_DIR_normal e Hdir) as (_ & Htemp & Hcanon).
  induction 1 as [|[ms d] ts (id & Hid & Hd) _ IH]; intros w Hthere.
  - by split.
  - cbn [for_each snd] in *. rewrite bind_unfold.
    destruct (remove_logged e d w) as [[[]|msg|msg] w1] eqn:Hrm.
    + pose proof (remove_logged_keeps e d _ _ _ Hrm) as (T & _ & D).
      destruct (IH w1) as [Hthere' T'].
      * apply D; [|exact Hthere]. rewrite Hd, Hcanon.
        rewrite join_plain_rel by (assumption || by apply plain_name_rel).
        apply not_within_child.
      * split; [exact Hthere'|]. by rewrite T', T.
    + pose proof (remove_logged_keeps e d _ _ _ Hrm) as (T & _ & D).
      cbn [snd]. split; [|exact T].
      apply D; [|exact Hthere]. rewrite Hd, Hcanon.
      rewrite join_plain_rel by (assumption || by apply plain_name_rel).
      apply not_within_child.
    + pose proof (remove_logged_keeps e d _ _ _ Hrm) as (T & _ & D).
      cbn [snd]. split; [|exact T].
      apply D; [|exact Hthere]. rewrite Hd, Hcanon.
      rewrite join_plain_rel by (assumption || by apply plain_name_rel).
      apply not_within_child.
Qed.

Lemma run_timers_ready (w : world) :
  temp_ready (__dirname e) w →
  temp_ready (__dirname e) (run_timers e w).2 ∧ timers (run_timers e w).2 = [].
Proof.
  intros [Hthere Htimers]. fold (TEMP_DIR e) in *. unfold run_timers.
  destruct (remove_children_keeps (timers w) Htimers
              (World (files w) (dirs w) (trace w) []) Hthere) as [Hd Ht].
  cbn [timers] in Ht. split; [|exact Ht].
  split; [exact Hd|]. rewrite Ht. constructor.
Qed.

Lemma startup_ready port (w w' : world) :
  startup e port w = (Ok tt, w') →
  Fs.canonical (TEMP_DIR e) ∈ dirs w' ∧ timers w' = timers w.
Proof.
  unfold startup. rewrite !bind_unfold. unfold fs_call.
  destruct (fs_fault e (EnsureDir (TEMP_DIR e))) as [msg|]; [by intros [=]|].
  cbn [console_log observe]. intros [= <-]. split; [|reflexivity].
  cbn. apply elem_of_union. left. apply elem_of_union. left. by apply elem_of_singleton.
Qed.

End TimersInvariant.

(** X8. The service keeps its temp directory. With the service in a normal
    absolute directory, identifiers that are single path segments and a
    build that writes in its workspace only: a start-up that does not
    throw leaves the temp directory in place and sets no timer; the health
    check, a request to compile (whatever its outcome) and the firing of
    the pending timers each keep the temp directory in place and every
    pending timer aimed at a directory directly in it; after the timers
    have fired none is pending. So no removal the service makes can take
    the temp directory away. *)
Theorem temp_dir_survives e :
  Path.normal_abs (__dirname e) = true →
  Path.plain_name (uuidv4 e) = true →
  Frame.confined e (workspace e) →
  (∀ port (w w' : world),
     startup e port w = (Ok tt, w') →
     Fs.canonical (TEMP_DIR e) ∈ dirs w' ∧ timers w' = timers w)
  ∧ (∀ w : world, temp_ready (__dirname e) w → temp_ready (__dirname e) (health w).2)
  ∧ (∀ body (w : world),
       temp_ready (__dirname e) w →
       temp_ready (__dirname e) (compile_apk e body w).2)
  ∧ (∀ w : world,
       temp_ready (__dirname e) w →
       temp_ready (__dirname e) (run_timers e w).2
       ∧ timers (run_timers e w).2 = []).
Proof.
  intros Hdir Hid Hconf.
  split; [intros port w w'; apply startup_ready|].
  split; [by intros w H|].
  split; [intros body w; by apply compile_apk_ready|].
  intros w. by apply run_timers_ready.
Qed.

Lemma temp_dir_survives_witness :
  Frame.confined Demo.env_ok (workspace Demo.env_ok)
  ∧ Fs.canonical (TEMP_DIR Demo.env_ok)
    ∈ dirs (compile_apk Demo.env_ok Demo.body
              (startup Demo.env_ok None Demo.start).2).2.
Proof.
  assert (Hconf : Frame.confined Demo.env_ok (workspace Demo.env_ok)).
  { intros cmd fs. constructor; [vm_compute; reflexivity|constructor]. }
  split; [exact Hconf|].
  destruct (temp_dir_survives Demo.env_ok eq_refl eq_refl Hconf)
    as (Hstart & _ & Hrequest & _).
  set (boot := startup Demo.env_ok None Demo.start).
  assert (Hboot : boot = (Ok tt, boot.2)) by (apply outcome_eta; vm_compute; reflexivity).
  destruct (Hstart None Demo.start boot.2 Hboot) as [Hthere Htimers].
  apply (Hrequest Demo.body boot.2). split; [exact Hthere|].
  rewrite Htimers. constructor.
Defined.

(** X9. Requests do not reach into each other's workspaces. For two
    requests served from the same directory under different identifiers
    (single path segments both), and a build that writes in its own
    workspace only: the handler of the one changes no file that is at the
    workspace of the other or under it, and removes no directory there. *)
Theorem requests_do_not_interfere e other body (w : world) p :
  Path.normal_abs (__dirname e) = true →
  Path.plain_name (uuidv4 e) = true →
  Frame.confined e (workspace e) →
  __dirname other = __dirname e →
  Path.plain_name (uuidv4 other) = true →
  uuidv4 other ≠ uuidv4 e →
  Fs.within (workspace other) p = true →
  files (compile_apk e body w).2 !! p = files w !! p
  ∧ (p ∈ dirs w → p ∈ dirs (compile_apk e body w).2).
Proof.
  intros Hdir Hid Hconf Hsame Hid' Hne Hin.
  assert (Hout : Fs.within (workspace e) p = false).
  { rewrite (workspace_child e Hdir Hid).
    rewrite (workspace_child other) in Hin by (by rewrite ?Hsame).
    assert (Htemp : TEMP_DIR other = TEMP_DIR e) by (unfold TEMP_DIR; by rewrite Hsame).
    rewrite Htemp in Hin.
    by apply (children_disjoint (TEMP_DIR e) (uuidv4 other) (uuidv4 e) p). }
  destruct (compile_apk e body w) as [r w'] eqn:Hrun.
  destruct (compile_apk_outside e Hdir Hid Hconf body w r w' Hrun) as [Hf Hd].
  split; [by apply Hf|]. by apply Hd.
Qed.

Lemma requests_do_not_interfere_witness :
  Frame.confined Demo.env_ok (workspace Demo.env_ok)
  ∧ uuidv4 Scene.env_other ≠ uuidv4 Demo.env_ok
  ∧ files (compile_apk Demo.env_ok Demo.body Scene.busy_other).2
      !! "/app/temp/9c5b94b1-35ad-49bb-b118-8e8fc24abf80/build.gradle"
    = Some "OTHER".
Proof.
  assert (Hconf : Frame.confined Demo.env_ok (workspace Demo.env_ok)).
  { intros cmd fs. constructor; [vm_compute; reflexivity|constructor]. }
  assert (Hne : uuidv4 Scene.env_other ≠ uuidv4 Demo.env_ok) by (intros H; discriminate H).
  split; [exact Hconf|]. split; [exact Hne|].
  assert (Hin : Fs.within (workspace Scene.env_other)
                  "/app/temp/9c5b94b1-35ad-49bb-b118-8e8fc24abf80/build.gradle" = true)
    by (vm_compute; reflexivity).
  destruct (requests_do_not_interfere Demo.env_ok Scene.env_other Demo.body
              Scene.busy_other
              "/app/temp/9c5b94b1-35ad-49bb-b118-8e8fc24abf80/build.gradle"
              eq_refl eq_refl Hconf eq_refl eq_refl Hne Hin) as [Hfile _].
  rewrite Hfile. reflexivity.
Defined.
